(** * OnlyTrack backend: credential utilities, session store and
      authentication middleware

    A shallow embedding of the authentication core of the backend:
    [lib/auth.ts] (password generation and validation, JWT helpers, token
    digest), [middleware/auth.ts] ([authenticate], [requireRole],
    [authenticateOptional]), [routes/auth.ts] (login, logout),
    [routes/admin-auth.ts] ([requireAdmin]) and the temporary access
    routes ([routes/demo.ts], [routes/acces-temporaires.ts]).

    Conventions.
    - A JavaScript string is a [string]; its characters are the code units
      the regular expressions of [validatePassword] look at.
    - A [Date] is its number of milliseconds since the epoch, in [Z]; every
      [new Date()] of one request reads the same clock value [now].
    - The relational store is a record of tables, a table is the list of
      its rows; [select ... where p limit 1] is [List.find p].  The
      connection never fails; the two inserts of the sign-up fail when a
      row does not fit the columns of [schema.ts].  A bind value that is
      [undefined] reaches the store as [NULL] and matches no row.
    - The cookies of a request are those [cookie-parser] leaves as
      strings.  A JSON cookie (a value written [j:...], which it replaces
      by the truthy value parsed) is accepted by no JWT check and behaves
      there as a string that fails verification; the one place where it
      behaves otherwise, the logout handler, is modelled on both kinds of
      value ([deconnexion_cookie]).
    - [jsonwebtoken], [bcrypt], [crypto.createHash], [zod]'s email check
      and the local-time arithmetic of [Date] are outside the repository:
      they are the fields of the class [Runtime], and every statement
      holds for all of them. *)

From Stdlib Require Import ZArith String Ascii List Bool Lia.
From stdpp Require Import base option list strings gmap.

Import ListNotations.
Local Open Scope string_scope.
Local Open Scope Z_scope.

Set Warnings "-register-all".

(* ===================================================================== *)
(** ** JSON values (request bodies, token payloads, response bodies)     *)
(* ===================================================================== *)

Inductive json : Type :=
  | JNull : json
  | JBool : bool -> json
  | JNum : Z -> json
  | JStr : string -> json
  | JArr : list json -> json
  | JObj : list (string * json) -> json.

(** [o.k] for a JSON value [o]: [None] stands for [undefined].  A later
    binding of a key wins, as in a JavaScript object literal. *)
Definition json_get (k : string) (o : json) : option json :=
  match o with
  | JObj kvs =>
      match List.find (fun kv => String.eqb (fst kv) k) (rev kvs) with
      | Some kv => Some (snd kv)
      | None => None
      end
  | _ => None
  end.

(** The field [k] when it holds a string. *)
Definition json_str (k : string) (o : json) : option string :=
  match json_get k o with
  | Some (JStr s) => Some s
  | _ => None
  end.

(** JavaScript truthiness of a value that is a string or [undefined]:
    [Some s] when it is a non-empty string. *)
Definition truthy (v : option string) : option string :=
  match v with
  | Some s => if String.eqb s "" then None else Some s
  | None => None
  end.

(** [v || d] on strings. *)
Definition or_else (v : option string) (d : string) : string :=
  match truthy v with
  | Some s => s
  | None => d
  end.

(** [o.k === v] for a string [v]. *)
Definition json_is (k v : string) (o : json) : bool :=
  match json_str k o with
  | Some s => String.eqb s v
  | None => false
  end.

(* ===================================================================== *)
(** ** lib/auth.ts: password generation and validation                   *)
(* ===================================================================== *)

Module Rand.

(** [crypto.randomInt] draws from the operating system.  The source of
    randomness is a function [entropy] from the rank of a draw to a raw
    number; the state threaded through the code is the rank of the next
    draw.  Every outcome of the draws is some [entropy]. *)
Definition M (A : Type) : Type := nat -> A * nat.

Definition ret {A} (a : A) : M A := fun n => (a, n).

Definition bind {A B} (m : M A) (k : A -> M B) : M B :=
  fun n => let '(a, n') := m n in k a n'.

(** [crypto.randomInt(lo, hi)]: an integer [r] with [lo <= r < hi]. *)
Definition randomInt (entropy : nat -> nat) (lo hi : nat) : M nat :=
  fun n => ((lo + entropy n mod (hi - lo))%nat, S n).

Definition run {A} (m : M A) : A := fst (m O).

End Rand.

Notation "'let*' x ':=' m 'in' k" := (Rand.bind m (fun x => k))
  (at level 10, x name, m at level 100, k at level 200).

Section Passwords.

Variable entropy : nat -> nat.

Definition uppercase : string := "ABCDEFGHIJKLMNOPQRSTUVWXYZ".
Definition lowercase : string := "abcdefghijklmnopqrstuvwxyz".
Definition numbers : string := "0123456789".
Definition special : string := "@#$%&*!?".

(** [chars[i]] followed by [join]: an [undefined] element joins as the
    empty string. *)
Definition char_at (chars : string) (i : nat) : string :=
  match String.get i chars with
  | Some c => String c EmptyString
  | None => EmptyString
  end.

(** [getRandom(chars, count)]: [count] draws, joined. *)
Fixpoint getRandom (chars : string) (count : nat) : Rand.M string :=
  match count with
  | O => Rand.ret EmptyString
  | S count' =>
      let* i := Rand.randomInt entropy 0 (String.length chars) in
      let* rest := getRandom chars count' in
      Rand.ret (char_at chars i ++ rest)
  end.

(** [[password[i], password[j]] = [password[j], password[i]]].  Both
    indices are inside the array wherever the loop below calls it. *)
Definition swap (i j : nat) (password : list ascii) : list ascii :=
  match password !! i, password !! j with
  | Some pi, Some pj => <[j:=pi]> (<[i:=pj]> password)
  | _, _ => password
  end.

(** [for (let i = password.length - 1; i > 0; i--)]: the recursion is on
    the number of iterations left, which is [i]. *)
Fixpoint shuffle (i : nat) (password : list ascii) : Rand.M (list ascii) :=
  match i with
  | O => Rand.ret password
  | S i' =>
      let* j := Rand.randomInt entropy 0 (i + 1) in
      shuffle i' (swap i j password)
  end.

Definition generateSecurePassword_m : Rand.M string :=
  let* p1 := getRandom uppercase 3 in
  let* p2 := getRandom numbers 3 in
  let* p3 := getRandom special 2 in
  let* p4 := getRandom lowercase 4 in
  let password := list_ascii_of_string (p1 ++ p2 ++ p3 ++ p4) in
  let* shuffled := shuffle (length password - 1) password in
  Rand.ret (string_of_list_ascii shuffled).

Definition generateSecurePassword : string :=
  Rand.run generateSecurePassword_m.

End Passwords.

Record PasswordValidation : Type := {
  isValid : bool;
  error : option string
}.

(** The three character classes of the regular expressions. *)
Definition is_upper (c : ascii) : bool :=
  (("A" <=? c) && (c <=? "Z"))%char.
Definition is_lower (c : ascii) : bool :=
  (("a" <=? c) && (c <=? "z"))%char.
Definition is_digit (c : ascii) : bool :=
  (("0" <=? c) && (c <=? "9"))%char.
Definition is_symbol (c : ascii) : bool :=
  negb (is_upper c || is_lower c || is_digit c).

(** [re.test(s)] for a one-character-class expression. *)
Definition test (cls : ascii -> bool) (s : string) : bool :=
  existsb cls (list_ascii_of_string s).

Definition validatePassword (password : string) : PasswordValidation :=
  if (String.length password <? 8)%nat then
    {| isValid := false;
       error := Some "Le mot de passe doit contenir au moins 8 caractères" |}
  else if negb (test is_upper password) then
    {| isValid := false;
       error := Some "Le mot de passe doit contenir au moins une majuscule" |}
  else if negb (test is_digit password) then
    {| isValid := false;
       error := Some "Le mot de passe doit contenir au moins un chiffre" |}
  else if negb (test is_symbol password) then
    {| isValid := false;
       error :=
         Some "Le mot de passe doit contenir au moins un caractère spécial" |}
  else {| isValid := true; error := None |}.

(* ===================================================================== *)
(** ** Libraries and environment the code runs against                   *)
(* ===================================================================== *)

Class Runtime : Type := {
  (** [jwt.sign(payload, secret, { expiresIn })] at clock value [now] *)
  jwt_sign : json -> string -> string -> Z -> string;
  (** [jwt.verify(token, secret)] at clock value [now]: the decoded
      payload, or [None] when it throws *)
  jwt_verify : string -> string -> Z -> option json;
  (** [crypto.createHash("sha256").update(s).digest("hex")] *)
  sha256_hex : string -> string;
  (** [bcrypt.compare(password, hash)] *)
  bcrypt_compare : string -> string -> bool;
  (** [z.string().email()] accepts the string *)
  zod_email : string -> bool;
  (** the [errors] of the [ZodError] thrown on a rejected body *)
  zod_errors : json -> json;
  (** [process.env.JWT_SECRET] and [process.env.NODE_ENV] *)
  env_JWT_SECRET : option string;
  env_NODE_ENV : option string;
  (** the date a row keeps for [d.setDate(d.getDate() + n)]: the same
      local time [n] calendar days after [d] in the time zone of the
      server, at the precision of the column *)
  date_plus_days : Z -> Z -> Z
}.

(* ===================================================================== *)
(** ** schema.ts: the tables the authentication core reads and writes    *)
(* ===================================================================== *)

Module agences.
Record row : Type := {
  id : string;
  nom : string;
  plan : string;
  demo : bool
}.
End agences.

Module utilisateurs.
Record row : Type := {
  id : string;
  prenom : string;
  nom : string;
  email : string;
  motDePasseHash : string;
  role : string;
  agenceId : string;
  emailVerifie : bool;
  tokenVerification : option string;
  tokenResetPassword : option string;
  dateCreation : Z;
  derniereConnexion : option Z;
  actif : bool
}.

(** [.set({ derniereConnexion: d })] on one row *)
Definition set_derniereConnexion (d : Z) (u : row) : row :=
  {| id := id u; prenom := prenom u; nom := nom u; email := email u;
     motDePasseHash := motDePasseHash u; role := role u;
     agenceId := agenceId u; emailVerifie := emailVerifie u;
     tokenVerification := tokenVerification u;
     tokenResetPassword := tokenResetPassword u;
     dateCreation := dateCreation u; derniereConnexion := Some d;
     actif := actif u |}.
End utilisateurs.

Module sessions.
Record row : Type := {
  id : string;
  utilisateurId : string;
  tokenHash : string;
  dateCreation : Z;
  dateExpiration : Z;
  adresseIp : option string;
  userAgent : option string
}.
End sessions.

Module superAdmins.
Record row : Type := {
  id : string;
  email : string;
  motDePasse : string;
  nom : string;
  prenom : string;
  actif : bool;
  dateCreation : Z;
  derniereConnexion : option Z
}.
End superAdmins.

Module accesTemporaires.
Record row : Type := {
  id : string;
  agenceId : string;
  nom : string;
  email : option string;
  token : string;
  dateCreation : Z;
  dateExpiration : option Z;
  actif : bool;
  creePar : string
}.
End accesTemporaires.

Module Db.
Record t : Type := {
  agences : list agences.row;
  utilisateurs : list utilisateurs.row;
  sessions : list sessions.row;
  superAdmins : list superAdmins.row;
  accesTemporaires : list accesTemporaires.row
}.

Definition with_sessions (ss : list sessions.row) (db : t) : t :=
  {| agences := agences db; utilisateurs := utilisateurs db;
     sessions := ss; superAdmins := superAdmins db;
     accesTemporaires := accesTemporaires db |}.

Definition with_utilisateurs (us : list utilisateurs.row) (db : t) : t :=
  {| agences := agences db; utilisateurs := us;
     sessions := sessions db; superAdmins := superAdmins db;
     accesTemporaires := accesTemporaires db |}.
End Db.

(* ===================================================================== *)
(** ** Requests, responses, middleware outcomes                          *)
(* ===================================================================== *)

(** The three roles a route guard can name. *)
Inductive Role : Type := owner | member | model.

Definition role_name (r : Role) : string :=
  match r with
  | owner => "owner"
  | member => "member"
  | model => "model"
  end.

(** [req.user].  The role is the [varchar] read from the store and cast,
    unchecked, to the union type: it is a string. *)
Module User.
Record t : Type := {
  id : string;
  email : string;
  role : string;
  agenceId : string;
  isDemo : bool;
  demoNom : option string
}.
End User.

Module Req.
Record t : Type := {
  cookies : gmap string string;
  body : json;
  ip : option string;
  (** [req.get("user-agent")] *)
  userAgent : option string;
  user : option User.t;
  agenceId : option string;
  admin : option superAdmins.row
}.

(** [req.user = u; req.agenceId = a] *)
Definition attach (u : User.t) (a : string) (req : t) : t :=
  {| cookies := cookies req; body := body req;
     ip := ip req; userAgent := userAgent req;
     user := Some u; agenceId := Some a; admin := admin req |}.

(** [req.admin = a] *)
Definition attach_admin (a : superAdmins.row) (req : t) : t :=
  {| cookies := cookies req; body := body req;
     ip := ip req; userAgent := userAgent req;
     user := user req; agenceId := agenceId req; admin := Some a |}.

(** The same request sent with another cookie jar. *)
Definition with_cookies (c : gmap string string) (req : t) : t :=
  {| cookies := c; body := body req;
     ip := ip req; userAgent := userAgent req;
     user := user req; agenceId := agenceId req; admin := admin req |}.
End Req.

Record CookieOptions : Type := {
  httpOnly : bool;
  secure : bool;
  sameSite : string;
  maxAge : Z;
  path : option string
}.

(** [res.cookie(name, value, options)] and [res.clearCookie(name)] *)
Inductive CookieOp : Type :=
  | SetCookie (name value : string) (options : CookieOptions)
  | ClearCookie (name : string).

Module Res.
Record t : Type := {
  status : Z;
  body : json;
  (** the cookie operations, in the order the handler made them *)
  cookieOps : list CookieOp
}.

(** [res.status(code).json(body)] *)
Definition json (code : Z) (b : json) : t :=
  {| status := code; body := b; cookieOps := [] |}.

(** [res.status(code).json({ error: msg })] *)
Definition err (code : Z) (msg : string) : t :=
  json code (JObj [("error", JStr msg)]).
End Res.

(** What a middleware does with a request: hand it on with [next()], or
    answer it. *)
Inductive Outcome : Type :=
  | Next (req : Req.t)
  | Respond (res : Res.t).

(** The browser's side of the cookie operations of a response.
    [clearCookie] names the path [/], the one every cookie here is set
    with, so it removes the cookie of that name. *)
Definition apply_cookie (jar : gmap string string) (op : CookieOp)
  : gmap string string :=
  match op with
  | SetCookie name value _ => <[name := value]> jar
  | ClearCookie name => delete name jar
  end.

Definition apply_cookies (ops : list CookieOp) (jar : gmap string string)
  : gmap string string :=
  fold_left apply_cookie ops jar.

(* ===================================================================== *)
(** ** The code                                                          *)
(* ===================================================================== *)

Section Code.

Context `{RT : Runtime}.

(** [process.env.JWT_SECRET || "..."]: [lib/auth.ts] has one fallback,
    the middleware and the demo and admin routes another. *)
Definition JWT_SECRET_lib : string :=
  or_else env_JWT_SECRET "secret-de-developpement-a-changer".
Definition JWT_SECRET : string :=
  or_else env_JWT_SECRET "onlytrack-super-secret".

Definition JWT_EXPIRATION : string := "7d".

(** [process.env.NODE_ENV === "production"] *)
Definition production : bool :=
  match env_NODE_ENV with
  | Some e => String.eqb e "production"
  | None => false
  end.

(** *** lib/auth.ts *)

(** A [JWTPayload], [{ userId, agenceId, role }]: it has no [type]
    field. *)
Definition tenant_payload (userId agenceId role : string) : json :=
  JObj [("userId", JStr userId); ("agenceId", JStr agenceId);
        ("role", JStr role)].

Definition generateJWT (userId agenceId role : string) (now : Z) : string :=
  jwt_sign (tenant_payload userId agenceId role)
    JWT_SECRET_lib JWT_EXPIRATION now.

Definition verifyJWT (token : string) (now : Z) : option json :=
  jwt_verify token JWT_SECRET_lib now.

Definition hashToken (token : string) : string := sha256_hex token.

Definition verifyPassword (password hash : string) : bool :=
  bcrypt_compare password hash.

(** *** middleware/auth.ts *)

(** [!acces.dateExpiration || new Date(acces.dateExpiration) > new Date()] *)
Definition not_expired (dateExpiration : option Z) (now : Z) : bool :=
  match dateExpiration with
  | None => true
  | Some d => now <? d
  end.

(** The virtual user of a demo access. *)
Definition demo_user (acces : accesTemporaires.row) : User.t :=
  {| User.id := "demo-" ++ accesTemporaires.id acces;
     User.email := or_else (accesTemporaires.email acces) "demo@onlytrack.io";
     User.role := "member";
     User.agenceId := accesTemporaires.agenceId acces;
     User.isDemo := true;
     User.demoNom := Some (accesTemporaires.nom acces) |}.

(** [where(eq(accesTemporaires.id, accesId)).limit(1)] *)
Definition acces_by_id (db : Db.t) (accesId : string)
  : option accesTemporaires.row :=
  List.find (fun a => String.eqb (accesTemporaires.id a) accesId)
    (Db.accesTemporaires db).

(** The first block of [authenticate]: [Some req'] when it ends in
    [return next()], [None] when control leaves the block, through the
    end of an [if] or through the [catch].  Payloads signed by this
    server hold a string under [accesId]; any other value is taken to
    match no row. *)
Definition authenticate_demo (db : Db.t) (now : Z) (req : Req.t)
  : option Req.t :=
  match truthy (Req.cookies req !! "demo_token") with
  | None => None
  | Some demoToken =>
      match jwt_verify demoToken JWT_SECRET now with
      | None => None
      | Some decoded =>
          if json_is "type" "demo" decoded then
            match json_str "accesId" decoded with
            | None => None
            | Some accesId =>
                match acces_by_id db accesId with
                | None => None
                | Some acces =>
                    if accesTemporaires.actif acces
                       && not_expired
                            (accesTemporaires.dateExpiration acces) now
                    then
                      Some (Req.attach (demo_user acces)
                              (accesTemporaires.agenceId acces) req)
                    else None
                end
            end
          else None
      end
  end.

(** The user attached by the token path. *)
Definition real_user (u : utilisateurs.row) : User.t :=
  {| User.id := utilisateurs.id u;
     User.email := utilisateurs.email u;
     User.role := utilisateurs.role u;
     User.agenceId := utilisateurs.agenceId u;
     User.isDemo := false;
     User.demoNom := None |}.

(** [where(and(eq(sessions.utilisateurId, userId),
               gt(sessions.dateExpiration, new Date())))] *)
Definition session_of (userId : string) (now : Z) (s : sessions.row)
  : bool :=
  String.eqb (sessions.utilisateurId s) userId
  && (now <? sessions.dateExpiration s).

Definition user_by_id (db : Db.t) (userId : string)
  : option utilisateurs.row :=
  List.find (fun u => String.eqb (utilisateurs.id u) userId)
    (Db.utilisateurs db).

(** The rest of [authenticate], from [const token = req.cookies.auth_token].
    A payload without a string [userId] binds [NULL] in the session
    query, which finds no row. *)
Definition authenticate_token (db : Db.t) (now : Z) (req : Req.t)
  : Outcome :=
  match truthy (Req.cookies req !! "auth_token") with
  | None => Respond (Res.err 401 "Non authentifié - Token manquant")
  | Some token =>
      match verifyJWT token now with
      | None => Respond (Res.err 401 "Non authentifié - Token invalide")
      | Some payload =>
          match json_str "userId" payload with
          | None => Respond (Res.err 401 "Session expirée")
          | Some userId =>
              match List.find (session_of userId now) (Db.sessions db) with
              | None => Respond (Res.err 401 "Session expirée")
              | Some _ =>
                  match user_by_id db userId with
                  | Some user =>
                      if utilisateurs.actif user then
                        Next (Req.attach (real_user user)
                                (utilisateurs.agenceId user) req)
                      else
                        Respond
                          (Res.err 401 "Utilisateur inactif ou inexistant")
                  | None =>
                      Respond
                        (Res.err 401 "Utilisateur inactif ou inexistant")
                  end
              end
          end
      end
  end.

Definition authenticate (db : Db.t) (now : Z) (req : Req.t) : Outcome :=
  match authenticate_demo db now req with
  | Some req' => Next req'
  | None => authenticate_token db now req
  end.

(** [roles.includes(role)] *)
Definition includes (roles : list Role) (role : string) : bool :=
  existsb (fun r => String.eqb (role_name r) role) roles.

Definition requireRole (roles : list Role) (req : Req.t) : Outcome :=
  match Req.user req with
  | None => Respond (Res.err 401 "Non authentifié")
  | Some u =>
      if negb (includes roles (User.role u)) then
        Respond
          (Res.json 403
             (JObj [("error", JStr "Accès refusé - Rôle insuffisant");
                    ("requiredRoles",
                     JArr (List.map (fun r => JStr (role_name r)) roles));
                    ("yourRole", JStr (User.role u))]))
      else Next req
  end.

(** Every path of [authenticateOptional] ends in [next()], the [catch]
    included. *)
Definition authenticateOptional (db : Db.t) (now : Z) (req : Req.t)
  : Outcome :=
  match truthy (Req.cookies req !! "auth_token") with
  | None => Next req
  | Some token =>
      match verifyJWT token now with
      | None => Next req
      | Some payload =>
          match json_str "userId" payload with
          | None => Next req
          | Some userId =>
              match user_by_id db userId with
              | Some user =>
                  if utilisateurs.actif user then
                    Next (Req.attach (real_user user)
                            (utilisateurs.agenceId user) req)
                  else Next req
              | None => Next req
              end
          end
      end
  end.

(** *** routes/auth.ts *)

(** [connexionSchema.parse(req.body)]: [None] when it throws. *)
Definition connexionSchema_parse (body : json) : option (string * string) :=
  match json_get "email" body, json_get "password" body with
  | Some (JStr email), Some (JStr password) =>
      if zod_email email then Some (email, password) else None
  | _, _ => None
  end.

(** [7 * 24 * 60 * 60 * 1000], the [maxAge] of the cookies. *)
Definition SEVEN_DAYS : Z := 7 * 24 * 60 * 60 * 1000.

Definition auth_cookie_options : CookieOptions :=
  {| httpOnly := true; secure := production; sameSite := "strict";
     maxAge := SEVEN_DAYS; path := None |}.

Definition user_by_email (db : Db.t) (email : string)
  : option utilisateurs.row :=
  List.find (fun u => String.eqb (utilisateurs.email u) email)
    (Db.utilisateurs db).

(** [POST /api/auth/connexion].  [sessionId] is the value
    [crypto.randomUUID()] returns in this call.  The session row always
    fits its columns: a UUID, the id of a stored user, a hexadecimal
    digest, an IP address and a [text] column. *)
Definition connexion (db : Db.t) (now : Z) (sessionId : string)
    (req : Req.t) : Res.t * Db.t :=
  match connexionSchema_parse (Req.body req) with
  | None =>
      (Res.json 400
         (JObj [("error", JStr "Données invalides");
                ("details", zod_errors (Req.body req))]), db)
  | Some (email, password) =>
      match user_by_email db email with
      | None => (Res.err 401 "Email ou mot de passe incorrect", db)
      | Some user =>
          if negb (verifyPassword password (utilisateurs.motDePasseHash user))
          then (Res.err 401 "Email ou mot de passe incorrect", db)
          else if negb (utilisateurs.emailVerifie user) then
            (Res.json 403
               (JObj [("error",
                       JStr "Veuillez vérifier votre email avant de vous connecter");
                      ("needsEmailVerification", JBool true)]), db)
          else if negb (utilisateurs.actif user) then
            (Res.err 403 "Compte désactivé", db)
          else
            let token :=
              generateJWT (utilisateurs.id user)
                (utilisateurs.agenceId user) (utilisateurs.role user) now in
            let tokenHash := hashToken token in
            let dateExpiration := date_plus_days now 7 in
            let session :=
              {| sessions.id := sessionId;
                 sessions.utilisateurId := utilisateurs.id user;
                 sessions.tokenHash := tokenHash;
                 sessions.dateCreation := now;
                 sessions.dateExpiration := dateExpiration;
                 sessions.adresseIp := truthy (Req.ip req);
                 sessions.userAgent := truthy (Req.userAgent req) |} in
            let db1 := Db.with_sessions (Db.sessions db ++ [session]) db in
            let db2 :=
              Db.with_utilisateurs
                (List.map
                   (fun u =>
                      if String.eqb (utilisateurs.id u) (utilisateurs.id user)
                      then utilisateurs.set_derniereConnexion now u
                      else u)
                   (Db.utilisateurs db1)) db1 in
            ({| Res.status := 200;
                Res.body :=
                  JObj [("message", JStr "Connexion réussie");
                        ("user",
                         JObj [("id", JStr (utilisateurs.id user));
                               ("prenom", JStr (utilisateurs.prenom user));
                               ("nom", JStr (utilisateurs.nom user));
                               ("email", JStr (utilisateurs.email user));
                               ("role", JStr (utilisateurs.role user));
                               ("agenceId",
                                JStr (utilisateurs.agenceId user))])];
                Res.cookieOps :=
                  [ClearCookie "demo_token";
                   SetCookie "auth_token" token auth_cookie_options] |},
             db2)
      end
  end.

(** [db.delete(sessions).where(eq(sessions.tokenHash, tokenHash))] *)
Definition delete_sessions (tokenHash : string) (db : Db.t) : Db.t :=
  Db.with_sessions
    (List.filter
       (fun s => negb (String.eqb (sessions.tokenHash s) tokenHash))
       (Db.sessions db)) db.

(** The handler of [POST /api/auth/deconnexion]. *)
Definition deconnexion_handler (db : Db.t) (req : Req.t) : Res.t * Db.t :=
  let db' :=
    match truthy (Req.cookies req !! "auth_token") with
    | Some token => delete_sessions (hashToken token) db
    | None => db
    end in
  ({| Res.status := 200;
      Res.body := JObj [("message", JStr "Déconnexion réussie")];
      Res.cookieOps := [ClearCookie "auth_token"; ClearCookie "demo_token"] |},
   db').

(** The route: [authenticate], then the handler. *)
Definition deconnexion (db : Db.t) (now : Z) (req : Req.t) : Res.t * Db.t :=
  match authenticate db now req with
  | Respond res => (res, db)
  | Next req' => deconnexion_handler db req'
  end.

(** *** routes/demo.ts and routes/acces-temporaires.ts *)

Definition acces_by_token (db : Db.t) (token : string)
  : option accesTemporaires.row :=
  List.find (fun a => String.eqb (accesTemporaires.token a) token)
    (Db.accesTemporaires db).

(** [select({ nom: agences.nom }) ... where(eq(agences.id, id))] *)
Definition agence_nom (db : Db.t) (id : string) : option string :=
  match
    List.find (fun a => String.eqb (agences.id a) id) (Db.agences db)
  with
  | Some a => Some (agences.nom a)
  | None => None
  end.

(** A date in a JSON body, kept as its number of milliseconds. *)
Definition date_json (d : option Z) : json :=
  match d with
  | Some z => JNum z
  | None => JNull
  end.

(** [GET /api/demo/validate/:token] *)
Definition demo_validate (db : Db.t) (now : Z) (token : string) : Res.t :=
  match acces_by_token db token with
  | None => Res.err 404 "Lien non trouvé"
  | Some acces =>
      if negb (accesTemporaires.actif acces) then
        Res.err 403 "Ce lien a été révoqué"
      else if
        match accesTemporaires.dateExpiration acces with
        | Some d => d <? now
        | None => false
        end
      then Res.err 403 "Ce lien a expiré"
      else
        Res.json 200
          (JObj [("nom", JStr (accesTemporaires.nom acces));
                 ("agenceNom",
                  JStr (or_else
                          (agence_nom db (accesTemporaires.agenceId acces))
                          "Agence"));
                 ("dateExpiration",
                  date_json (accesTemporaires.dateExpiration acces))])
  end.

Definition demo_cookie_options : CookieOptions :=
  {| httpOnly := true; secure := production; sameSite := "lax";
     maxAge := 24 * 60 * 60 * 1000; path := Some "/" |}.

(** [POST /api/demo/access/:token] *)
Definition demo_access (db : Db.t) (now : Z) (token : string) : Res.t :=
  match acces_by_token db token with
  | None => Res.err 404 "Lien non trouvé"
  | Some acces =>
      if negb (accesTemporaires.actif acces) then
        Res.err 403 "Ce lien a été révoqué"
      else if
        match accesTemporaires.dateExpiration acces with
        | Some d => d <? now
        | None => false
        end
      then Res.err 403 "Ce lien a expiré"
      else
        let demoToken :=
          jwt_sign
            (JObj [("type", JStr "demo");
                   ("accesId", JStr (accesTemporaires.id acces));
                   ("agenceId", JStr (accesTemporaires.agenceId acces));
                   ("nom", JStr (accesTemporaires.nom acces))])
            JWT_SECRET "24h" now in
        {| Res.status := 200;
           Res.body :=
             JObj [("message", JStr "Accès autorisé");
                   ("agenceId", JStr (accesTemporaires.agenceId acces))];
           Res.cookieOps :=
             [SetCookie "demo_token" demoToken demo_cookie_options] |}
  end.

(** [GET /api/acces-temporaires/valider/:token].  An [undefined]
    [agenceNom] leaves no key in the body. *)
Definition valider (db : Db.t) (now : Z) (token : string) : Res.t :=
  match acces_by_token db token with
  | None =>
      Res.json 404
        (JObj [("valid", JBool false);
               ("error", JStr "Lien d'accès invalide")])
  | Some acces =>
      if negb (accesTemporaires.actif acces) then
        Res.json 403
          (JObj [("valid", JBool false);
                 ("error", JStr "Cet accès a été révoqué")])
      else if
        match accesTemporaires.dateExpiration acces with
        | Some d => now >? d
        | None => false
        end
      then
        Res.json 403
          (JObj [("valid", JBool false);
                 ("error", JStr "Cet accès a expiré")])
      else
        Res.json 200
          (JObj
             ([("valid", JBool true);
               ("agenceId", JStr (accesTemporaires.agenceId acces))]
              ++ match agence_nom db (accesTemporaires.agenceId acces) with
                 | Some n => [("agenceNom", JStr n)]
                 | None => []
                 end
              ++ [("nom", JStr (accesTemporaires.nom acces))]))
  end.

(** *** routes/admin-auth.ts *)

(** [requireAdmin]: a failed [jwt.verify] throws and is answered 401 by
    the [catch]; a payload without a string [id] binds [NULL] and finds
    no operator. *)
Definition requireAdmin (db : Db.t) (now : Z) (req : Req.t) : Outcome :=
  match truthy (Req.cookies req !! "admin_token") with
  | None => Respond (Res.err 401 "Non authentifié")
  | Some token =>
      match jwt_verify token JWT_SECRET now with
      | None => Respond (Res.err 401 "Token invalide")
      | Some decoded =>
          if negb (json_is "type" "admin" decoded) then
            Respond (Res.err 401 "Accès non autorisé")
          else
            match json_str "id" decoded with
            | None => Respond (Res.err 401 "Compte non trouvé ou désactivé")
            | Some id =>
                match
                  List.find
                    (fun a => String.eqb (superAdmins.id a) id)
                    (Db.superAdmins db)
                with
                | Some admin =>
                    if superAdmins.actif admin then
                      Next (Req.attach_admin admin req)
                    else
                      Respond
                        (Res.err 401 "Compte non trouvé ou désactivé")
                | None =>
                    Respond (Res.err 401 "Compte non trouvé ou désactivé")
                end
            end
      end
  end.

(** *** Vocabulary of the statements *)

(** The payload the admin login signs
    ([{ id: admin.id, email: admin.email, type: "admin" }]): it has no
    [userId] field. *)
Definition admin_payload (id email : string) : json :=
  JObj [("id", JStr id); ("email", JStr email); ("type", JStr "admin")].

(** The request carries a demo cookie that verifies, with type [demo],
    and names the grant [acces], which is stored, active and either
    without expiration or expiring after [now]. *)
Definition demo_grant_valid (db : Db.t) (now : Z) (req : Req.t)
    (acces : accesTemporaires.row) : Prop :=
  exists demoToken decoded,
    Req.cookies req !! "demo_token" = Some demoToken
    /\ demoToken <> ""
    /\ jwt_verify demoToken JWT_SECRET now = Some decoded
    /\ json_get "type" decoded = Some (JStr "demo")
    /\ json_get "accesId" decoded = Some (JStr (accesTemporaires.id acces))
    /\ acces_by_id db (accesTemporaires.id acces) = Some acces
    /\ accesTemporaires.actif acces = true
    /\ (accesTemporaires.dateExpiration acces = None
        \/ exists d,
             accesTemporaires.dateExpiration acces = Some d /\ now < d).

(** A grant is usable at [now] in the sense of the three token
    endpoints: active, and without expiration or not yet past it. *)
Definition grant_usable (now : Z) (acces : accesTemporaires.row) : Prop :=
  accesTemporaires.actif acces = true
  /\ (accesTemporaires.dateExpiration acces = None
      \/ exists d,
           accesTemporaires.dateExpiration acces = Some d /\ now <= d).

(** The expiry test of the three token endpoints. *)
Definition expired (dateExpiration : option Z) (now : Z) : bool :=
  match dateExpiration with
  | Some d => d <? now
  | None => false
  end.

(** The status of each endpoint is decided by the row found, its
    active flag and the expiry test. *)
Definition decision (db : Db.t) (now : Z) (token : string) : Z :=
  match acces_by_token db token with
  | None => 404
  | Some acces =>
      if negb (accesTemporaires.actif acces) then 403
      else if expired (accesTemporaires.dateExpiration acces) now then 403
      else 200
  end.

End Code.

(* ===================================================================== *)
(** ** A small deployment, for running the code on concrete requests     *)
(* ===================================================================== *)

Module Sample.

(** Stand-ins for the libraries: tokens are looked up in a table,
    digests and password hashes wrap their argument. *)
Definition ana_payload : json := tenant_payload "u-ana" "ag-1" "owner".
Definition demo_payload : json :=
  JObj [("type", JStr "demo"); ("accesId", JStr "acc-1");
        ("agenceId", JStr "ag-1"); ("nom", JStr "Client")].
Definition root_payload : json := admin_payload "adm-1" "root@onlytrack.io".

Definition sign (payload : json) (secret expiresIn : string) (now : Z)
  : string :=
  if json_is "type" "demo" payload then "jwt-demo"
  else if json_is "type" "admin" payload then "jwt-admin"
  else if now <? 5000 then "jwt-ana-1" else "jwt-ana-2".

Definition verify (token secret : string) (now : Z) : option json :=
  if String.eqb token "jwt-ana-1" || String.eqb token "jwt-ana-2"
  then Some ana_payload
  else if String.eqb token "jwt-demo" then Some demo_payload
  else if String.eqb token "jwt-admin" then Some root_payload
  else None.

Definition contains_at (s : string) : bool :=
  existsb (Ascii.eqb "@") (list_ascii_of_string s).

Definition runtime : Runtime := {|
  jwt_sign := sign;
  jwt_verify := verify;
  sha256_hex := fun s => "sha256:" ++ s;
  bcrypt_compare := fun password hash => String.eqb hash ("bcrypt:" ++ password);
  zod_email := contains_at;
  zod_errors := fun _ => JArr [];
  env_JWT_SECRET := Some "s3cret";
  env_NODE_ENV := Some "production";
  date_plus_days := fun d n => d + n * (24 * 60 * 60 * 1000)
|}.

Definition ana : utilisateurs.row :=
  {| utilisateurs.id := "u-ana"; utilisateurs.prenom := "Ana";
     utilisateurs.nom := "Dupont"; utilisateurs.email := "ana@x.com";
     utilisateurs.motDePasseHash := "bcrypt:Abcd1234!";
     utilisateurs.role := "owner"; utilisateurs.agenceId := "ag-1";
     utilisateurs.emailVerifie := true;
     utilisateurs.tokenVerification := None;
     utilisateurs.tokenResetPassword := None;
     utilisateurs.dateCreation := 0;
     utilisateurs.derniereConnexion := None;
     utilisateurs.actif := true |}.

Definition session (id token : string) (expiration : Z) : sessions.row :=
  {| sessions.id := id; sessions.utilisateurId := "u-ana";
     sessions.tokenHash := "sha256:" ++ token;
     sessions.dateCreation := 0; sessions.dateExpiration := expiration;
     sessions.adresseIp := None; sessions.userAgent := None |}.

Definition acces (actif : bool) (expiration : option Z)
  : accesTemporaires.row :=
  {| accesTemporaires.id := "acc-1"; accesTemporaires.agenceId := "ag-1";
     accesTemporaires.nom := "Client"; accesTemporaires.email := None;
     accesTemporaires.token := "lien-1";
     accesTemporaires.dateCreation := 0;
     accesTemporaires.dateExpiration := expiration;
     accesTemporaires.actif := actif;
     accesTemporaires.creePar := "u-ana" |}.

Definition root : superAdmins.row :=
  {| superAdmins.id := "adm-1"; superAdmins.email := "root@onlytrack.io";
     superAdmins.motDePasse := "bcrypt:Root1234!";
     superAdmins.nom := "Root"; superAdmins.prenom := "Op";
     superAdmins.actif := true; superAdmins.dateCreation := 0;
     superAdmins.derniereConnexion := None |}.

Definition db (ss : list sessions.row) (ats : list accesTemporaires.row)
  : Db.t :=
  {| Db.agences :=
       [{| agences.id := "ag-1"; agences.nom := "Ana Agency";
           agences.plan := "free"; agences.demo := false |}];
     Db.utilisateurs := [ana];
     Db.sessions := ss;
     Db.superAdmins := [root];
     Db.accesTemporaires := ats |}.

(** A request with the given cookies and body. *)
Definition request (cookies : gmap string string) (body : json) : Req.t :=
  {| Req.cookies := cookies; Req.body := body; Req.ip := Some "10.0.0.1";
     Req.userAgent := Some "curl"; Req.user := None;
     Req.agenceId := None; Req.admin := None |}.

Definition credentials (email password : string) : json :=
  JObj [("email", JStr email); ("password", JStr password)].

End Sample.

(* ===================================================================== *)
(** ** The rest of the routes: accounts, grants, operators               *)
(* ===================================================================== *)

(** Row and table updates used by the handlers below. *)

(** [.set({ emailVerifie: true, tokenVerification: null })] *)
Definition verifie (u : utilisateurs.row) : utilisateurs.row :=
  {| utilisateurs.id := utilisateurs.id u;
     utilisateurs.prenom := utilisateurs.prenom u;
     utilisateurs.nom := utilisateurs.nom u;
     utilisateurs.email := utilisateurs.email u;
     utilisateurs.motDePasseHash := utilisateurs.motDePasseHash u;
     utilisateurs.role := utilisateurs.role u;
     utilisateurs.agenceId := utilisateurs.agenceId u;
     utilisateurs.emailVerifie := true;
     utilisateurs.tokenVerification := None;
     utilisateurs.tokenResetPassword := utilisateurs.tokenResetPassword u;
     utilisateurs.dateCreation := utilisateurs.dateCreation u;
     utilisateurs.derniereConnexion := utilisateurs.derniereConnexion u;
     utilisateurs.actif := utilisateurs.actif u |}.

(** [.set({ actif: false })] on a grant *)
Definition revoque (a : accesTemporaires.row) : accesTemporaires.row :=
  {| accesTemporaires.id := accesTemporaires.id a;
     accesTemporaires.agenceId := accesTemporaires.agenceId a;
     accesTemporaires.nom := accesTemporaires.nom a;
     accesTemporaires.email := accesTemporaires.email a;
     accesTemporaires.token := accesTemporaires.token a;
     accesTemporaires.dateCreation := accesTemporaires.dateCreation a;
     accesTemporaires.dateExpiration := accesTemporaires.dateExpiration a;
     accesTemporaires.actif := false;
     accesTemporaires.creePar := accesTemporaires.creePar a |}.

(** [.set({ derniereConnexion: d })] on an operator *)
Definition admin_connecte (d : Z) (a : superAdmins.row) : superAdmins.row :=
  {| superAdmins.id := superAdmins.id a;
     superAdmins.email := superAdmins.email a;
     superAdmins.motDePasse := superAdmins.motDePasse a;
     superAdmins.nom := superAdmins.nom a;
     superAdmins.prenom := superAdmins.prenom a;
     superAdmins.actif := superAdmins.actif a;
     superAdmins.dateCreation := superAdmins.dateCreation a;
     superAdmins.derniereConnexion := Some d |}.

Definition with_agences (ags : list agences.row) (db : Db.t) : Db.t :=
  {| Db.agences := ags; Db.utilisateurs := Db.utilisateurs db;
     Db.sessions := Db.sessions db; Db.superAdmins := Db.superAdmins db;
     Db.accesTemporaires := Db.accesTemporaires db |}.

Definition with_superAdmins (sa : list superAdmins.row) (db : Db.t) : Db.t :=
  {| Db.agences := Db.agences db; Db.utilisateurs := Db.utilisateurs db;
     Db.sessions := Db.sessions db; Db.superAdmins := sa;
     Db.accesTemporaires := Db.accesTemporaires db |}.

Definition with_accesTemporaires (ats : list accesTemporaires.row)
    (db : Db.t) : Db.t :=
  {| Db.agences := Db.agences db; Db.utilisateurs := Db.utilisateurs db;
     Db.sessions := Db.sessions db; Db.superAdmins := Db.superAdmins db;
     Db.accesTemporaires := ats |}.

(** [update(t).set(f).where(p)]: every row satisfying [p] is rewritten. *)
Definition update_where {A} (p : A -> bool) (f : A -> A) (t : list A)
  : list A :=
  List.map (fun r => if p r then f r else r) t.

(** JavaScript truthiness of a value read from a JSON body. *)
Definition json_truthy (v : option json) : bool :=
  match v with
  | None => false
  | Some JNull => false
  | Some (JBool b) => b
  | Some (JNum z) => negb (z =? 0)
  | Some (JStr s) => negb (String.eqb s "")
  | Some (JArr _) => true
  | Some (JObj _) => true
  end.

(** The columns of [schema.ts] that an insert can violate.  A
    [varchar(n)] holds at most [n] characters, a primary key and a
    [unique()] column hold a value once; the insert of a row that breaks
    one of these is refused by the store and its [await] throws. *)
Definition varchar (n : nat) (s : string) : bool :=
  (String.length s <=? n)%nat.

Definition varchar_null (n : nat) (o : option string) : bool :=
  match o with
  | Some s => varchar n s
  | None => true
  end.

(** [agences]: [id varchar(36) primaryKey], [nom varchar(255)],
    [plan varchar(20)] *)
Definition agences_insertable (t : list agences.row) (row : agences.row)
  : bool :=
  varchar 36 (agences.id row)
  && varchar 255 (agences.nom row)
  && varchar 20 (agences.plan row)
  && negb (existsb (fun a => String.eqb (agences.id a) (agences.id row)) t).

(** [utilisateurs]: [id varchar(36) primaryKey], [prenom] and [nom
    varchar(100)], [email varchar(255) unique], [motDePasseHash
    varchar(255)], [role varchar(20)], [agenceId varchar(36)],
    [tokenVerification] and [tokenResetPassword varchar(255)] *)
Definition utilisateurs_insertable (t : list utilisateurs.row)
    (row : utilisateurs.row) : bool :=
  varchar 36 (utilisateurs.id row)
  && varchar 100 (utilisateurs.prenom row)
  && varchar 100 (utilisateurs.nom row)
  && varchar 255 (utilisateurs.email row)
  && varchar 255 (utilisateurs.motDePasseHash row)
  && varchar 20 (utilisateurs.role row)
  && varchar 36 (utilisateurs.agenceId row)
  && varchar_null 255 (utilisateurs.tokenVerification row)
  && varchar_null 255 (utilisateurs.tokenResetPassword row)
  && negb (existsb
             (fun u => String.eqb (utilisateurs.id u) (utilisateurs.id row))
             t)
  && negb (existsb
             (fun u =>
                String.eqb (utilisateurs.email u) (utilisateurs.email row))
             t).

(** What [inscriptionSchema.parse] returns. *)
Module Inscription.
Record t : Type := {
  prenom : string;
  nom : string;
  email : string;
  password : string;
  confirmPassword : string;
  nomAgence : string
}.
End Inscription.

Section MoreCode.

Context `{RT : Runtime}.

(** [String.prototype.toLowerCase] *)
Variable toLowerCase : string -> string.

(** *** routes/auth.ts: sign-up, email verification, who-am-I *)

(** [inscriptionSchema.parse(req.body)]: [None] when it throws.  The
    [refine] on the two passwords runs once the fields are accepted. *)
Definition inscriptionSchema_parse (body : json) : option Inscription.t :=
  match json_str "prenom" body, json_str "nom" body, json_str "email" body,
        json_str "password" body, json_str "confirmPassword" body,
        json_str "nomAgence" body with
  | Some prenom, Some nom, Some email, Some password, Some confirmPassword,
    Some nomAgence =>
      if (2 <=? String.length prenom)%nat
         && (2 <=? String.length nom)%nat
         && zod_email email
         && (8 <=? String.length password)%nat
         && (2 <=? String.length nomAgence)%nat
         && String.eqb password confirmPassword
      then
        Some {| Inscription.prenom := prenom; Inscription.nom := nom;
                Inscription.email := email; Inscription.password := password;
                Inscription.confirmPassword := confirmPassword;
                Inscription.nomAgence := nomAgence |}
      else None
  | _, _, _, _, _, _ => None
  end.

(** The owner row of a sign-up. *)
Definition owner_row (data : Inscription.t) (userId agenceId : string)
    (motDePasseHash tokenVerification : string) (now : Z)
  : utilisateurs.row :=
  {| utilisateurs.id := userId;
     utilisateurs.prenom := Inscription.prenom data;
     utilisateurs.nom := Inscription.nom data;
     utilisateurs.email := Inscription.email data;
     utilisateurs.motDePasseHash := motDePasseHash;
     utilisateurs.role := "owner";
     utilisateurs.agenceId := agenceId;
     utilisateurs.emailVerifie := false;
     utilisateurs.tokenVerification := Some tokenVerification;
     utilisateurs.tokenResetPassword := None;
     utilisateurs.dateCreation := now;
     utilisateurs.derniereConnexion := None;
     utilisateurs.actif := true |}.

(** The agency row of a sign-up. *)
Definition agence_row (data : Inscription.t) (agenceId : string)
  : agences.row :=
  {| agences.id := agenceId;
     agences.nom := Inscription.nomAgence data;
     agences.plan := "free";
     agences.demo := false |}.

(** [POST /api/auth/inscription].  [agenceId] and [userId] are the two
    values of [crypto.randomUUID()], [motDePasseHash] the value of
    [hashPassword(data.password)] and [tokenVerification] the value of
    [generateToken()] in this call.  The two inserts are two statements
    without a transaction: when the second one throws, the [catch]
    answers 500 and the agency row of the first one stays. *)
Definition inscription (db : Db.t) (now : Z)
    (agenceId userId motDePasseHash tokenVerification : string)
    (req : Req.t) : Res.t * Db.t :=
  match inscriptionSchema_parse (Req.body req) with
  | None =>
      (Res.json 400
         (JObj [("error", JStr "Données invalides");
                ("details", zod_errors (Req.body req))]), db)
  | Some data =>
      let passwordValidation := validatePassword (Inscription.password data) in
      if negb (isValid passwordValidation) then
        (Res.json 400
           (JObj match error passwordValidation with
                 | Some e => [("error", JStr e)]
                 | None => []
                 end), db)
      else
        match user_by_email db (Inscription.email data) with
        | Some _ => (Res.err 400 "Cet email est déjà utilisé", db)
        | None =>
            let agence := agence_row data agenceId in
            if negb (agences_insertable (Db.agences db) agence) then
              (Res.err 500 "Erreur lors de la création du compte", db)
            else
              let db1 := with_agences (Db.agences db ++ [agence]) db in
              let user :=
                owner_row data userId agenceId motDePasseHash
                  tokenVerification now in
              if negb (utilisateurs_insertable (Db.utilisateurs db1) user)
              then
                (Res.err 500 "Erreur lors de la création du compte", db1)
              else
                let db2 :=
                  Db.with_utilisateurs (Db.utilisateurs db1 ++ [user]) db1 in
                (Res.json 201
                   (JObj [("message",
                           JStr "Compte créé avec succès ! Vérifiez votre email.");
                          ("dev",
                           JObj [("verificationUrl",
                                  JStr ("/api/auth/verifier-email/"
                                        ++ tokenVerification))])]),
                 db2)
        end
  end.

(** [where(and(eq(utilisateurs.tokenVerification, token),
               eq(utilisateurs.emailVerifie, false)))]: a [NULL] column
    equals nothing. *)
Definition awaits_verification (token : string) (u : utilisateurs.row)
  : bool :=
  match utilisateurs.tokenVerification u with
  | Some t => String.eqb t token
  | None => false
  end
  && negb (utilisateurs.emailVerifie u).

Definition ONE_DAY : Z := 24 * 60 * 60 * 1000.

(** [GET /api/auth/verifier-email/:token] *)
Definition verifier_email (db : Db.t) (now : Z) (token : string)
  : Res.t * Db.t :=
  match List.find (awaits_verification token) (Db.utilisateurs db) with
  | None =>
      (Res.err 400 "Token de vérification invalide ou déjà utilisé", db)
  | Some user =>
      let tokenAge := now - utilisateurs.dateCreation user in
      let maxAge := ONE_DAY in
      if tokenAge >? maxAge then
        (Res.err 400
           "Token de vérification expiré. Demandez un nouvel email.", db)
      else
        (Res.json 200
           (JObj [("message",
                   JStr "Email vérifié avec succès ! Vous pouvez maintenant vous connecter.");
                  ("success", JBool true)]),
         Db.with_utilisateurs
           (update_where
              (fun u => String.eqb (utilisateurs.id u) (utilisateurs.id user))
              verifie (Db.utilisateurs db)) db)
  end.

(** The handler of [POST /api/auth/deconnexion] on the value [token] of
    [req.cookies.auth_token]: a string, or the truthy JSON value of a
    cookie written [j:...].  [hashToken] throws on a value that is not a
    string ([Hash.update] takes a string or a buffer) and the [catch]
    answers 500 before any cookie is cleared. *)
Definition deconnexion_cookie (token : option json) (db : Db.t)
  : Res.t * Db.t :=
  let done (db' : Db.t) :=
    ({| Res.status := 200;
        Res.body := JObj [("message", JStr "Déconnexion réussie")];
        Res.cookieOps :=
          [ClearCookie "auth_token"; ClearCookie "demo_token"] |},
     db') in
  if json_truthy token then
    match token with
    | Some (JStr t) => done (delete_sessions (hashToken t) db)
    | _ => (Res.err 500 "Erreur lors de la déconnexion", db)
    end
  else done db.

(** The handler of [GET /api/auth/moi].  Dates are kept as numbers of
    milliseconds.  Without [req.user] the read of [req.user!.id] throws
    and the [catch] answers 500. *)
Definition moi_handler (db : Db.t) (now : Z) (req : Req.t) : Res.t :=
  match Req.user req with
  | None => Res.err 500 "Erreur serveur"
  | Some u =>
      if User.isDemo u then
        Res.json 200
          (JObj [("id", JStr (User.id u));
                 ("prenom", JStr (or_else (User.demoNom u) "Visiteur"));
                 ("nom", JStr "Demo");
                 ("email", JStr (User.email u));
                 ("role", JStr (User.role u));
                 ("agenceId", JStr (User.agenceId u));
                 ("emailVerifie", JBool true);
                 ("dateCreation", JNum now);
                 ("derniereConnexion", JNum now);
                 ("isDemo", JBool true)])
      else
        match user_by_id db (User.id u) with
        | None => Res.err 404 "Utilisateur non trouvé"
        | Some user =>
            Res.json 200
              (JObj [("id", JStr (utilisateurs.id user));
                     ("prenom", JStr (utilisateurs.prenom user));
                     ("nom", JStr (utilisateurs.nom user));
                     ("email", JStr (utilisateurs.email user));
                     ("role", JStr (utilisateurs.role user));
                     ("agenceId", JStr (utilisateurs.agenceId user));
                     ("emailVerifie", JBool (utilisateurs.emailVerifie user));
                     ("dateCreation", JNum (utilisateurs.dateCreation user));
                     ("derniereConnexion",
                      date_json (utilisateurs.derniereConnexion user))])
        end
  end.

(** The route: [authenticate], then the handler. *)
Definition moi (db : Db.t) (now : Z) (req : Req.t) : Res.t :=
  match authenticate db now req with
  | Respond res => res
  | Next req' => moi_handler db now req'
  end.

(** *** routes/acces-temporaires.ts: list and revoke *)

(** A grant row in a JSON body. *)
Definition acces_json (a : accesTemporaires.row) : json :=
  JObj [("id", JStr (accesTemporaires.id a));
        ("agenceId", JStr (accesTemporaires.agenceId a));
        ("nom", JStr (accesTemporaires.nom a));
        ("email",
         match accesTemporaires.email a with
         | Some e => JStr e
         | None => JNull
         end);
        ("token", JStr (accesTemporaires.token a));
        ("dateCreation", JNum (accesTemporaires.dateCreation a));
        ("dateExpiration", date_json (accesTemporaires.dateExpiration a));
        ("actif", JBool (accesTemporaires.actif a));
        ("creePar", JStr (accesTemporaires.creePar a))].

(** [where(eq(accesTemporaires.agenceId, agenceId))] *)
Definition acces_of_agence (db : Db.t) (agenceId : string)
  : list accesTemporaires.row :=
  List.filter (fun a => String.eqb (accesTemporaires.agenceId a) agenceId)
    (Db.accesTemporaires db).

(** [GET /api/acces-temporaires]: [authenticate], then the list of the
    caller's agency.  [req.agenceId!] is set on every request
    [authenticate] hands on; without it the query throws and the [catch]
    answers 500. *)
Definition acces_liste (db : Db.t) (now : Z) (req : Req.t) : Res.t :=
  match authenticate db now req with
  | Respond res => res
  | Next req' =>
      match Req.agenceId req' with
      | None => Res.err 500 "Erreur lors du chargement"
      | Some agenceId =>
          Res.json 200 (JArr (List.map acces_json (acces_of_agence db agenceId)))
      end
  end.

(** [DELETE /api/acces-temporaires/:id]: [authenticate], then the
    revocation of the grant [id] when it belongs to the caller's agency. *)
Definition acces_revoquer (db : Db.t) (now : Z) (id : string) (req : Req.t)
  : Res.t * Db.t :=
  match authenticate db now req with
  | Respond res => (res, db)
  | Next req' =>
      match Req.agenceId req' with
      | None => (Res.err 500 "Erreur lors de la révocation", db)
      | Some agenceId =>
          match
            List.find
              (fun a => String.eqb (accesTemporaires.id a) id
                        && String.eqb (accesTemporaires.agenceId a) agenceId)
              (Db.accesTemporaires db)
          with
          | None => (Res.err 404 "Accès non trouvé", db)
          | Some _ =>
              (Res.json 200 (JObj [("message", JStr "Accès révoqué avec succès")]),
               with_accesTemporaires
                 (update_where
                    (fun a => String.eqb (accesTemporaires.id a) id)
                    revoque (Db.accesTemporaires db)) db)
          end
      end
  end.

(** *** routes/admin-auth.ts: operator login, logout, who-am-I *)

Definition admin_cookie_options : CookieOptions :=
  {| httpOnly := true; secure := production; sameSite := "lax";
     maxAge := SEVEN_DAYS; path := None |}.

Definition admin_by_id (db : Db.t) (id : string) : option superAdmins.row :=
  List.find (fun a => String.eqb (superAdmins.id a) id) (Db.superAdmins db).

(** [POST /api/admin/auth/connexion].  The body is not validated by a
    schema: a truthy [email] that is not a string has no [toLowerCase],
    and [bcrypt.compare] refuses a [motDePasse] that is not a string;
    both throw, and the [catch] answers 500. *)
Definition admin_connexion (db : Db.t) (now : Z) (req : Req.t)
  : Res.t * Db.t :=
  let email := json_get "email" (Req.body req) in
  let motDePasse := json_get "motDePasse" (Req.body req) in
  if negb (json_truthy email) || negb (json_truthy motDePasse) then
    (Res.err 400 "Email et mot de passe requis", db)
  else
    match email with
    | Some (JStr e) =>
        match
          List.find
            (fun a => String.eqb (superAdmins.email a) (toLowerCase e))
            (Db.superAdmins db)
        with
        | None => (Res.err 401 "Email ou mot de passe incorrect", db)
        | Some admin =>
            if negb (superAdmins.actif admin) then
              (Res.err 401 "Ce compte a été désactivé", db)
            else
              match motDePasse with
              | Some (JStr p) =>
                  if negb (bcrypt_compare p (superAdmins.motDePasse admin))
                  then (Res.err 401 "Email ou mot de passe incorrect", db)
                  else
                    let db' :=
                      with_superAdmins
                        (update_where
                           (fun a => String.eqb (superAdmins.id a)
                                       (superAdmins.id admin))
                           (admin_connecte now) (Db.superAdmins db)) db in
                    let token :=
                      jwt_sign
                        (admin_payload (superAdmins.id admin)
                           (superAdmins.email admin))
                        JWT_SECRET "7d" now in
                    ({| Res.status := 200;
                        Res.body :=
                          JObj [("message", JStr "Connexion réussie");
                                ("admin",
                                 JObj [("id", JStr (superAdmins.id admin));
                                       ("email",
                                        JStr (superAdmins.email admin));
                                       ("nom", JStr (superAdmins.nom admin));
                                       ("prenom",
                                        JStr (superAdmins.prenom admin))])];
                        Res.cookieOps :=
                          [SetCookie "admin_token" token
                             admin_cookie_options] |},
                     db')
              | _ => (Res.err 500 "Erreur serveur", db)
              end
        end
    | _ => (Res.err 500 "Erreur serveur", db)
    end.

(** [POST /api/admin/auth/deconnexion]: no middleware, no store access. *)
Definition admin_deconnexion : Res.t :=
  {| Res.status := 200;
     Res.body := JObj [("message", JStr "Déconnexion réussie")];
     Res.cookieOps := [ClearCookie "admin_token"] |}.

(** The answer of the [catch] of [GET /api/admin/auth/moi], and of its
    branch for a missing or deactivated account: the cookie is cleared. *)
Definition admin_moi_refus (msg : string) : Res.t :=
  {| Res.status := 401;
     Res.body := JObj [("error", JStr msg)];
     Res.cookieOps := [ClearCookie "admin_token"] |}.

(** [GET /api/admin/auth/moi] *)
Definition admin_moi (db : Db.t) (now : Z) (req : Req.t) : Res.t :=
  match truthy (Req.cookies req !! "admin_token") with
  | None => Res.err 401 "Non authentifié"
  | Some token =>
      match jwt_verify token JWT_SECRET now with
      | None => admin_moi_refus "Token invalide"
      | Some decoded =>
          if negb (json_is "type" "admin" decoded) then
            Res.err 401 "Token invalide"
          else
            match json_str "id" decoded with
            | None => admin_moi_refus "Compte non trouvé ou désactivé"
            | Some id =>
                match admin_by_id db id with
                | Some admin =>
                    if superAdmins.actif admin then
                      Res.json 200
                        (JObj [("id", JStr (superAdmins.id admin));
                               ("email", JStr (superAdmins.email admin));
                               ("nom", JStr (superAdmins.nom admin));
                               ("prenom", JStr (superAdmins.prenom admin));
                               ("actif", JBool (superAdmins.actif admin))])
                    else admin_moi_refus "Compte non trouvé ou désactivé"
                | None => admin_moi_refus "Compte non trouvé ou désactivé"
                end
            end
      end
  end.

End MoreCode.

(** *** Vocabulary of the further statements *)

(** The number of characters of [s] in the class [cls]. *)
Definition count_class (cls : ascii -> bool) (s : string) : nat :=
  length (List.filter cls (list_ascii_of_string s)).

(** Membership in the alphabet [special] of [generateSecurePassword]. *)
Definition is_special (c : ascii) : bool :=
  existsb (Ascii.eqb c) (list_ascii_of_string special).

(** The four messages of [validatePassword]. *)
Definition MSG_LENGTH : string :=
  "Le mot de passe doit contenir au moins 8 caractères".
Definition MSG_UPPER : string :=
  "Le mot de passe doit contenir au moins une majuscule".
Definition MSG_DIGIT : string :=
  "Le mot de passe doit contenir au moins un chiffre".
Definition MSG_SYMBOL : string :=
  "Le mot de passe doit contenir au moins un caractère spécial".

(** An account row without the date of its last login: the twelve other
    columns of [utilisateurs]. *)
Definition account_of (u : utilisateurs.row)
  : string * string * string * string * string * string * string * bool
    * option string * option string * Z * bool :=
  (utilisateurs.id u, utilisateurs.prenom u, utilisateurs.nom u,
   utilisateurs.email u, utilisateurs.motDePasseHash u,
   utilisateurs.role u, utilisateurs.agenceId u,
   utilisateurs.emailVerifie u, utilisateurs.tokenVerification u,
   utilisateurs.tokenResetPassword u, utilisateurs.dateCreation u,
   utilisateurs.actif u).

(** More sample data: an empty store and the sign-up of the
    specification's scenario. *)
Module Sample2.

Definition empty : Db.t :=
  {| Db.agences := []; Db.utilisateurs := []; Db.sessions := [];
     Db.superAdmins := [Sample.root]; Db.accesTemporaires := [] |}.

Definition signup : json :=
  JObj [("prenom", JStr "Ana"); ("nom", JStr "Dupont");
        ("email", JStr "ana@x.com"); ("password", JStr "Abcd1234!");
        ("confirmPassword", JStr "Abcd1234!");
        ("nomAgence", JStr "Ana Agency")].

Definition signup_data : Inscription.t :=
  {| Inscription.prenom := "Ana"; Inscription.nom := "Dupont";
     Inscription.email := "ana@x.com"; Inscription.password := "Abcd1234!";
     Inscription.confirmPassword := "Abcd1234!";
     Inscription.nomAgence := "Ana Agency" |}.

(** The store after that sign-up at time 0. *)
Definition signed_up : Db.t :=
  snd (inscription (RT := Sample.runtime) empty 0 "ag-1" "u-ana"
         "bcrypt:Abcd1234!" "verif-1" (Sample.request ∅ signup)).

(** The same sign-up with a first name of 101 characters. *)
Definition long_prenom : string :=
  string_of_list_ascii (List.repeat "a"%char 101).

Definition signup_long : json :=
  JObj [("prenom", JStr long_prenom); ("nom", JStr "Dupont");
        ("email", JStr "ana@x.com"); ("password", JStr "Abcd1234!");
        ("confirmPassword", JStr "Abcd1234!");
        ("nomAgence", JStr "Ana Agency")].

(** ASCII lower-casing, for the operator login. *)
Definition lower (s : string) : string :=
  string_of_list_ascii
    (List.map
       (fun c =>
          if is_upper c then ascii_of_nat (nat_of_ascii c + 32) else c)
       (list_ascii_of_string s)).

Definition admin_credentials (email motDePasse : string) : json :=
  JObj [("email", JStr email); ("motDePasse", JStr motDePasse)].

(** A grant of another agency, and a deactivated operator. *)
Definition other_acces : accesTemporaires.row :=
  {| accesTemporaires.id := "acc-9"; accesTemporaires.agenceId := "ag-2";
     accesTemporaires.nom := "Autre"; accesTemporaires.email := None;
     accesTemporaires.token := "lien-9";
     accesTemporaires.dateCreation := 0;
     accesTemporaires.dateExpiration := None;
     accesTemporaires.actif := true;
     accesTemporaires.creePar := "u-bob" |}.

Definition retired : superAdmins.row :=
  {| superAdmins.id := "adm-2"; superAdmins.email := "old@onlytrack.io";
     superAdmins.motDePasse := "bcrypt:Old12345!";
     superAdmins.nom := "Old"; superAdmins.prenom := "Op";
     superAdmins.actif := false; superAdmins.dateCreation := 0;
     superAdmins.derniereConnexion := None |}.

(** Ana logged in on one device, her agency's grant and the other one. *)
Definition db : Db.t :=
  {| Db.agences := Db.agences (Sample.db [] []);
     Db.utilisateurs := [Sample.ana];
     Db.sessions := [Sample.session "s1" "jwt-ana-1" 9000];
     Db.superAdmins := [Sample.root; retired];
     Db.accesTemporaires := [Sample.acces true None; other_acces] |}.

Definition req_ana : Req.t :=
  Sample.request {[ "auth_token" := "jwt-ana-1" ]} JNull.

(** The same store after Ana's account was deactivated: her session row
    is still there and has not expired. *)
Definition ana_suspended : utilisateurs.row :=
  {| utilisateurs.id := "u-ana"; utilisateurs.prenom := "Ana";
     utilisateurs.nom := "Dupont"; utilisateurs.email := "ana@x.com";
     utilisateurs.motDePasseHash := "bcrypt:Abcd1234!";
     utilisateurs.role := "owner"; utilisateurs.agenceId := "ag-1";
     utilisateurs.emailVerifie := true;
     utilisateurs.tokenVerification := None;
     utilisateurs.tokenResetPassword := None;
     utilisateurs.dateCreation := 0;
     utilisateurs.derniereConnexion := Some 50;
     utilisateurs.actif := false |}.

Definition suspended : Db.t :=
  {| Db.agences := Db.agences db;
     Db.utilisateurs := [ana_suspended];
     Db.sessions := Db.sessions db;
     Db.superAdmins := Db.superAdmins db;
     Db.accesTemporaires := Db.accesTemporaires db |}.

Definition req_demo : Req.t :=
  Sample.request {[ "demo_token" := "jwt-demo" ]} JNull.

End Sample2.

(* ===================================================================== *)
(** * Properties                                                         *)
(* ===================================================================== *)

(** ** Generated passwords pass the strength policy *)

Section PasswordFacts.

Variable entropy : nat -> nat.

Lemma get_In (s : string) (i : nat) (c : ascii) :
  String.get i s = Some c -> In c (list_ascii_of_string s).
Proof.
  revert i. induction s as [|a s IH]; intros i; simpl.
  - discriminate.
  - destruct i as [|i].
    + intros [= ->]. now left.
    + intros Hg. right. eauto.
Qed.

Lemma get_lt (s : string) (i : nat) :
  (i < String.length s)%nat -> exists c, String.get i s = Some c.
Proof.
  revert i. induction s as [|a s IH]; intros i; simpl.
  - lia.
  - destruct i as [|i]; [eauto|]. intros Hi. apply IH. lia.
Qed.

Lemma app_String (a : ascii) (s t : string) :
  String a s ++ t = String a (s ++ t).
Proof. reflexivity. Qed.

Lemma list_ascii_app (s t : string) :
  list_ascii_of_string (s ++ t)
  = (list_ascii_of_string s ++ list_ascii_of_string t)%list.
Proof.
  induction s as [|a s IH]; [reflexivity|].
  rewrite app_String. simpl. now rewrite IH.
Qed.

Lemma length_list_ascii (s : string) :
  length (list_ascii_of_string s) = String.length s.
Proof. induction s; simpl; congruence. Qed.

Lemma length_string_of_list (l : list ascii) :
  String.length (string_of_list_ascii l) = length l.
Proof. induction l; simpl; congruence. Qed.

(** A draw of [getRandom] is a character of the alphabet. *)
Lemma char_at_draw (chars : string) (n : nat) :
  (0 < String.length chars)%nat ->
  exists c,
    char_at chars (0 + entropy n mod (String.length chars - 0))
    = String c EmptyString
    /\ In c (list_ascii_of_string chars).
Proof.
  intros Hlen. unfold char_at.
  destruct (get_lt chars (0 + entropy n mod (String.length chars - 0)))
    as [c Hc].
  { rewrite Nat.sub_0_r. simpl. apply Nat.mod_upper_bound. lia. }
  rewrite Hc. eauto using get_In.
Qed.

(** [getRandom chars count] is [count] characters of [chars]. *)
Lemma getRandom_spec (chars : string) (count n : nat) :
  (0 < String.length chars)%nat ->
  let s := fst (getRandom entropy chars count n) in
  String.length s = count
  /\ Forall (fun c => In c (list_ascii_of_string chars))
       (list_ascii_of_string s).
Proof.
  intros Hlen. revert n. induction count as [|count IH]; intros n.
  - split; [reflexivity | constructor].
  - cbn [getRandom]. unfold Rand.bind, Rand.randomInt, Rand.ret.
    specialize (IH (S n)). cbv zeta in IH.
    destruct (getRandom entropy chars count (S n)) as [rest n'].
    cbn [fst] in *.
    destruct (char_at_draw chars n Hlen) as (c & -> & Hin).
    rewrite app_String. change ("" ++ rest) with rest.
    destruct IH as [IH1 IH2].
    split; [cbn; now rewrite IH1|].
    constructor; assumption.
Qed.

(** One exchange keeps the characters. *)
Lemma swap_Permutation (i j : nat) (password : list ascii) :
  swap i j password ≡ₚ password.
Proof.
  unfold swap.
  destruct (password !! i) as [a|] eqn:Hi; [|reflexivity].
  destruct (password !! j) as [b|] eqn:Hj; [|reflexivity].
  now apply Permutation_insert_swap.
Qed.

(** The indices of an exchange in the loop are inside the array. *)
Lemma swap_in_range (i j : nat) (password : list ascii) :
  (i < length password)%nat -> (j <= i)%nat ->
  exists a b,
    password !! i = Some a /\ password !! j = Some b
    /\ swap i j password = <[j:=a]> (<[i:=b]> password).
Proof.
  intros Hi Hj.
  destruct (lookup_lt_is_Some_2 password i Hi) as [a Ha].
  destruct (lookup_lt_is_Some_2 password j ltac:(lia)) as [b Hb].
  exists a, b. unfold swap. rewrite Ha, Hb. auto.
Qed.

(** The shuffle is a permutation, whatever is drawn. *)
Lemma shuffle_Permutation (i n : nat) (password : list ascii) :
  fst (shuffle entropy i password n) ≡ₚ password.
Proof.
  revert n password. induction i as [|i IH]; intros n password; simpl.
  - reflexivity.
  - unfold Rand.bind, Rand.randomInt.
    rewrite IH. apply swap_Permutation.
Qed.

Lemma existsb_Permutation (cls : ascii -> bool) (l l' : list ascii) :
  l ≡ₚ l' -> existsb cls l = true -> existsb cls l' = true.
Proof.
  intros HP. rewrite !existsb_exists. intros (c & Hin & Hc).
  exists c. split; [|assumption].
  eapply Permutation_in; eassumption.
Qed.

(** A non-empty block of characters of one class makes the test of
    that class succeed. *)
Lemma existsb_block (cls : ascii -> bool) (chars s : string) :
  forallb cls (list_ascii_of_string chars) = true ->
  Forall (fun c => In c (list_ascii_of_string chars))
    (list_ascii_of_string s) ->
  (0 < String.length s)%nat ->
  existsb cls (list_ascii_of_string s) = true.
Proof.
  intros Hall HF Hlen. destruct s as [|c s]; simpl in *; [lia|].
  inversion HF as [|? ? Hc _]; subst.
  rewrite forallb_forall in Hall. rewrite (Hall c Hc). reflexivity.
Qed.

(** The four blocks a password is built from. *)
Definition block (chars : string) (count : nat) (s : string) : Prop :=
  String.length s = count
  /\ Forall (fun c => In c (list_ascii_of_string chars))
       (list_ascii_of_string s).

(** The generated password is a permutation of three uppercase letters,
    three digits, two symbols and four lowercase letters. *)
Lemma generateSecurePassword_shape :
  exists p1 p2 p3 p4 shuffled,
    generateSecurePassword entropy = string_of_list_ascii shuffled
    /\ shuffled ≡ₚ list_ascii_of_string (p1 ++ p2 ++ p3 ++ p4)
    /\ block uppercase 3 p1 /\ block numbers 3 p2
    /\ block special 2 p3 /\ block lowercase 4 p4.
Proof.
  unfold generateSecurePassword, Rand.run, generateSecurePassword_m.
  unfold Rand.bind, Rand.ret.
  pose proof (getRandom_spec uppercase 3 O ltac:(simpl; lia)) as H1.
  destruct (getRandom entropy uppercase 3 O) as [p1 n1].
  pose proof (getRandom_spec numbers 3 n1 ltac:(simpl; lia)) as H2.
  destruct (getRandom entropy numbers 3 n1) as [p2 n2].
  pose proof (getRandom_spec special 2 n2 ltac:(simpl; lia)) as H3.
  destruct (getRandom entropy special 2 n2) as [p3 n3].
  pose proof (getRandom_spec lowercase 4 n3 ltac:(simpl; lia)) as H4.
  destruct (getRandom entropy lowercase 4 n3) as [p4 n4].
  cbv zeta in *. cbn [fst] in *.
  set (password := list_ascii_of_string (p1 ++ p2 ++ p3 ++ p4)).
  pose proof (shuffle_Permutation (length password - 1) n4 password) as HP.
  destruct (shuffle entropy (length password - 1) password n4)
    as [shuffled n5].
  cbn [fst] in *.
  exists p1, p2, p3, p4, shuffled. subst password.
  repeat split; solve [reflexivity | assumption | apply H1 | apply H2
                      | apply H3 | apply H4].
Qed.

End PasswordFacts.

(** C8. Whatever the random draws and the shuffle give, the password
    made by [generateSecurePassword] has at least 8 characters (it has
    12), an uppercase letter, a digit and a character that is neither a
    letter nor a digit, and [validatePassword] accepts it. *)
Theorem generateSecurePassword_valid (entropy : nat -> nat) :
  let password := generateSecurePassword entropy in
  (8 <= String.length password)%nat
  /\ test is_upper password = true
  /\ test is_digit password = true
  /\ test is_symbol password = true
  /\ validatePassword password = {| isValid := true; error := None |}.
Proof.
  cbv zeta.
  destruct (generateSecurePassword_shape entropy)
    as (p1 & p2 & p3 & p4 & shuffled & -> & HP
        & [L1 F1] & [L2 F2] & [L3 F3] & [L4 F4]).
  rewrite !list_ascii_app in HP. symmetry in HP.
  assert (HL : String.length (string_of_list_ascii shuffled) = 12%nat).
  { rewrite length_string_of_list, <- (Permutation_length HP).
    rewrite !length_app, !length_list_ascii. lia. }
  assert (HU : test is_upper (string_of_list_ascii shuffled) = true).
  { unfold test. rewrite list_ascii_of_string_of_list_ascii.
    apply (existsb_Permutation _ _ _ HP). rewrite existsb_app.
    rewrite (existsb_block is_upper uppercase p1);
      [reflexivity | reflexivity | assumption | lia]. }
  assert (HD : test is_digit (string_of_list_ascii shuffled) = true).
  { unfold test. rewrite list_ascii_of_string_of_list_ascii.
    apply (existsb_Permutation _ _ _ HP). rewrite !existsb_app.
    rewrite (existsb_block is_digit numbers p2);
      [now rewrite orb_true_r | reflexivity | assumption | lia]. }
  assert (HS : test is_symbol (string_of_list_ascii shuffled) = true).
  { unfold test. rewrite list_ascii_of_string_of_list_ascii.
    apply (existsb_Permutation _ _ _ HP). rewrite !existsb_app.
    rewrite (existsb_block is_symbol special p3);
      [now rewrite !orb_true_r | reflexivity | assumption | lia]. }
  repeat split; try assumption; [lia|].
  unfold validatePassword. rewrite HL, HU, HD, HS. reflexivity.
Qed.

(** ** Sessions, logout and the two middlewares *)

Section Middleware.

Context `{RT : Runtime}.

Lemma truthy_Some (s : string) : s <> "" -> truthy (Some s) = Some s.
Proof.
  intros Hs. unfold truthy.
  destruct (String.eqb_spec s ""); [contradiction | reflexivity].
Qed.

Lemma truthy_inv (v : option string) (s : string) :
  truthy v = Some s -> v = Some s /\ s <> "".
Proof.
  unfold truthy. destruct v as [t|]; [|discriminate].
  destruct (String.eqb_spec t ""); [discriminate|].
  intros [= <-]. auto.
Qed.

Lemma json_is_true (k v : string) (o : json) :
  json_is k v o = true <-> json_get k o = Some (JStr v).
Proof.
  unfold json_is, json_str.
  destruct (json_get k o) as [[| | |s| |]|]; try (split; discriminate).
  rewrite String.eqb_eq. split; [intros -> | intros [= ->]]; reflexivity.
Qed.

Lemma json_str_Some (k s : string) (o : json) :
  json_str k o = Some s <-> json_get k o = Some (JStr s).
Proof.
  unfold json_str.
  destruct (json_get k o) as [[| | |t| |]|]; try (split; discriminate).
  split; intros [= ->]; reflexivity.
Qed.

(** [select ... limit 1] finds a row as soon as one matches. *)
Lemma find_In {A} (p : A -> bool) (l : list A) (x : A) :
  In x l -> p x = true -> exists y, List.find p l = Some y.
Proof.
  intros Hin Hp. destruct (List.find p l) as [y|] eqn:E; [eauto|].
  rewrite (find_none _ _ E x Hin) in Hp. discriminate.
Qed.

(** Without a usable demo cookie the first block is left. *)
Lemma authenticate_demo_no_cookie (db : Db.t) (now : Z) (req : Req.t) :
  Req.cookies req !! "demo_token" = None ->
  authenticate_demo db now req = None.
Proof. intros H. unfold authenticate_demo. now rewrite H. Qed.

(** What makes the token path accept: an unexpired session row of the
    payload's user, whatever its digest, and an active user row. *)
Lemma authenticate_token_accepts (db : Db.t) (now : Z) (req : Req.t)
    (token userId : string) (payload : json)
    (s : sessions.row) (user : utilisateurs.row) :
  Req.cookies req !! "auth_token" = Some token ->
  token <> "" ->
  verifyJWT token now = Some payload ->
  json_str "userId" payload = Some userId ->
  In s (Db.sessions db) ->
  sessions.utilisateurId s = userId ->
  now < sessions.dateExpiration s ->
  user_by_id db userId = Some user ->
  utilisateurs.actif user = true ->
  authenticate_token db now req
  = Next (Req.attach (real_user user) (utilisateurs.agenceId user) req).
Proof.
  intros Hc Ht Hv Hu Hin Hs Hexp Hrow Hact.
  unfold authenticate_token.
  rewrite Hc, (truthy_Some _ Ht), Hv, Hu.
  destruct (find_In (session_of userId now) (Db.sessions db) s Hin)
    as [s' ->].
  { unfold session_of. rewrite Hs, String.eqb_refl. simpl. lia. }
  now rewrite Hrow, Hact.
Qed.

(** C1. The session lookup of [authenticate] does not compare digests:
    a token is accepted on the strength of any unexpired session row
    of its user, also when no stored digest equals [hashToken] of the
    presented token. *)
Theorem authenticate_ignores_token_digest (db : Db.t) (now : Z)
    (req : Req.t) (token userId : string) (payload : json)
    (s : sessions.row) (user : utilisateurs.row) :
  Req.cookies req !! "demo_token" = None ->
  Req.cookies req !! "auth_token" = Some token ->
  token <> "" ->
  verifyJWT token now = Some payload ->
  json_str "userId" payload = Some userId ->
  In s (Db.sessions db) ->
  sessions.utilisateurId s = userId ->
  now < sessions.dateExpiration s ->
  (forall s', In s' (Db.sessions db) ->
              sessions.tokenHash s' <> hashToken token) ->
  user_by_id db userId = Some user ->
  utilisateurs.actif user = true ->
  authenticate db now req
  = Next (Req.attach (real_user user) (utilisateurs.agenceId user) req).
Proof.
  intros Hd Hc Ht Hv Hu Hin Hs Hexp _ Hrow Hact.
  unfold authenticate. rewrite (authenticate_demo_no_cookie _ _ _ Hd).
  eauto using authenticate_token_accepts.
Qed.

Lemma delete_sessions_In (h : string) (db : Db.t) (s : sessions.row) :
  In s (Db.sessions (delete_sessions h db))
  <-> In s (Db.sessions db) /\ sessions.tokenHash s <> h.
Proof.
  unfold delete_sessions. simpl. rewrite filter_In, negb_true_iff.
  destruct (String.eqb_spec (sessions.tokenHash s) h); intuition congruence.
Qed.

(** C2. Logout deletes the rows holding the digest of the presented
    token, and the next request with that token is still accepted when
    the user has another unexpired session (a second device). *)
Theorem logout_does_not_revoke (db : Db.t) (now now' : Z)
    (req : Req.t) (token userId : string) (payload : json)
    (other : sessions.row) (user : utilisateurs.row) :
  Req.cookies req !! "demo_token" = None ->
  Req.cookies req !! "auth_token" = Some token ->
  token <> "" ->
  verifyJWT token now = Some payload ->
  verifyJWT token now' = Some payload ->
  json_str "userId" payload = Some userId ->
  In other (Db.sessions db) ->
  sessions.utilisateurId other = userId ->
  sessions.tokenHash other <> hashToken token ->
  now <= now' < sessions.dateExpiration other ->
  user_by_id db userId = Some user ->
  utilisateurs.actif user = true ->
  let (res, db') := deconnexion db now req in
  Res.status res = 200
  /\ (forall s, In s (Db.sessions db') ->
                sessions.tokenHash s <> hashToken token)
  /\ authenticate db' now' req
     = Next (Req.attach (real_user user) (utilisateurs.agenceId user) req).
Proof.
  intros Hd Hc Ht Hv Hv' Hu Hin Hs Hh Hexp Hrow Hact.
  unfold deconnexion, authenticate.
  rewrite (authenticate_demo_no_cookie _ _ _ Hd).
  rewrite (authenticate_token_accepts db now req token userId payload
             other user) by (auto; lia).
  unfold deconnexion_handler. cbn [Req.attach Req.cookies].
  rewrite Hc, (truthy_Some _ Ht).
  split; [reflexivity|]. split.
  - intros s Hs'. now apply delete_sessions_In in Hs'.
  - rewrite (authenticate_demo_no_cookie _ _ _ Hd).
    apply (authenticate_token_accepts _ now' req token userId payload
             other user); auto; try lia.
    now apply delete_sessions_In.
Qed.

(** C3. [authenticateOptional] has no session lookup: with a token that
    verifies and an active user it attaches the identity although the
    user has no unexpired session, where [authenticate] answers 401. *)
Theorem authenticateOptional_skips_session_check (db : Db.t) (now : Z)
    (req : Req.t) (token userId : string) (payload : json)
    (user : utilisateurs.row) :
  Req.cookies req !! "demo_token" = None ->
  Req.cookies req !! "auth_token" = Some token ->
  token <> "" ->
  verifyJWT token now = Some payload ->
  json_str "userId" payload = Some userId ->
  (forall s, In s (Db.sessions db) -> session_of userId now s = false) ->
  user_by_id db userId = Some user ->
  utilisateurs.actif user = true ->
  authenticateOptional db now req
  = Next (Req.attach (real_user user) (utilisateurs.agenceId user) req)
  /\ authenticate db now req = Respond (Res.err 401 "Session expirée").
Proof.
  intros Hd Hc Ht Hv Hu Hnone Hrow Hact. split.
  - unfold authenticateOptional.
    now rewrite Hc, (truthy_Some _ Ht), Hv, Hu, Hrow, Hact.
  - unfold authenticate, authenticate_token.
    rewrite (authenticate_demo_no_cookie _ _ _ Hd).
    rewrite Hc, (truthy_Some _ Ht), Hv, Hu.
    destruct (List.find (session_of userId now) (Db.sessions db))
      as [s|] eqn:E; [|reflexivity].
    apply find_some in E as [Hin Hp].
    rewrite (Hnone s Hin) in Hp. discriminate.
Qed.

End Middleware.

(** *** The three statements above, run on the sample deployment *)

(** Ana is logged in on two devices; the store holds only the session of
    the second token, and the first token is accepted. *)
Lemma authenticate_ignores_token_digest_witness :
  let db := Sample.db [Sample.session "s2" "jwt-ana-2" 9000] [] in
  let req := Sample.request {[ "auth_token" := "jwt-ana-1" ]} JNull in
  authenticate (RT := Sample.runtime) db 100 req
  = Next (Req.attach (real_user Sample.ana) "ag-1" req).
Proof.
  cbv zeta.
  apply (authenticate_ignores_token_digest (RT := Sample.runtime)
           _ 100 _ "jwt-ana-1" "u-ana" Sample.ana_payload
           (Sample.session "s2" "jwt-ana-2" 9000) Sample.ana).
  - vm_compute. reflexivity.
  - vm_compute. reflexivity.
  - discriminate.
  - reflexivity.
  - reflexivity.
  - left. reflexivity.
  - reflexivity.
  - simpl. lia.
  - intros s' [<- | []]. vm_compute. discriminate.
  - reflexivity.
  - reflexivity.
Defined.

(** Ana logs out with the first token while the session of the second
    one lives on: the first token still authenticates afterwards. *)
Lemma logout_does_not_revoke_witness :
  let db := Sample.db [Sample.session "s1" "jwt-ana-1" 9000;
                       Sample.session "s2" "jwt-ana-2" 9000] [] in
  let req := Sample.request {[ "auth_token" := "jwt-ana-1" ]} JNull in
  let (res, db') := deconnexion (RT := Sample.runtime) db 100 req in
  Res.status res = 200
  /\ (forall s, In s (Db.sessions db') ->
                sessions.tokenHash s <> hashToken (RT := Sample.runtime)
                                          "jwt-ana-1")
  /\ authenticate (RT := Sample.runtime) db' 200 req
     = Next (Req.attach (real_user Sample.ana) "ag-1" req).
Proof.
  cbv zeta.
  apply (logout_does_not_revoke (RT := Sample.runtime)
           _ 100 200 _ "jwt-ana-1" "u-ana" Sample.ana_payload
           (Sample.session "s2" "jwt-ana-2" 9000) Sample.ana).
  - vm_compute. reflexivity.
  - vm_compute. reflexivity.
  - discriminate.
  - reflexivity.
  - reflexivity.
  - reflexivity.
  - right. left. reflexivity.
  - reflexivity.
  - vm_compute. discriminate.
  - simpl. lia.
  - reflexivity.
  - reflexivity.
Defined.

(** After a logout that emptied the session table, the optional
    middleware still attaches Ana to the request. *)
Lemma authenticateOptional_skips_session_check_witness :
  let db := Sample.db [] [] in
  let req := Sample.request {[ "auth_token" := "jwt-ana-1" ]} JNull in
  authenticateOptional (RT := Sample.runtime) db 100 req
  = Next (Req.attach (real_user Sample.ana) "ag-1" req)
  /\ authenticate (RT := Sample.runtime) db 100 req
     = Respond (Res.err 401 "Session expirée").
Proof.
  cbv zeta.
  apply (authenticateOptional_skips_session_check (RT := Sample.runtime)
           _ 100 _ "jwt-ana-1" "u-ana" Sample.ana_payload Sample.ana).
  - vm_compute. reflexivity.
  - vm_compute. reflexivity.
  - discriminate.
  - reflexivity.
  - reflexivity.
  - intros s [].
  - reflexivity.
  - reflexivity.
Defined.

(** ** The demo path, the role guard and the admin guard *)

Section Guards.

Context `{RT : Runtime}.

Lemma not_expired_iff (dateExpiration : option Z) (now : Z) :
  not_expired dateExpiration now = true
  <-> dateExpiration = None
      \/ exists d, dateExpiration = Some d /\ now < d.
Proof.
  unfold not_expired. destruct dateExpiration as [d|].
  - rewrite Z.ltb_lt. split.
    + intros H. right. eauto.
    + intros [H | (d' & [= <-] & H)]; [discriminate | assumption].
  - split; auto.
Qed.

Lemma acces_by_id_id (db : Db.t) (accesId : string)
    (acces : accesTemporaires.row) :
  acces_by_id db accesId = Some acces -> accesTemporaires.id acces = accesId.
Proof.
  unfold acces_by_id. intros H. apply find_some in H as [_ H].
  now apply String.eqb_eq.
Qed.

(** The first block of [authenticate] returns through [next()] exactly
    when the demo cookie designates a valid grant, and then with the
    virtual user of that grant. *)
Lemma authenticate_demo_Some (db : Db.t) (now : Z) (req r : Req.t) :
  authenticate_demo db now req = Some r
  <-> exists acces,
        demo_grant_valid db now req acces
        /\ r = Req.attach (demo_user acces)
                 (accesTemporaires.agenceId acces) req.
Proof.
  unfold authenticate_demo, demo_grant_valid. split.
  - destruct (truthy (Req.cookies req !! "demo_token"))
      as [demoToken|] eqn:Hc; [|discriminate].
    apply truthy_inv in Hc as [Hc Hne].
    destruct (jwt_verify demoToken JWT_SECRET now)
      as [decoded|] eqn:Hv; [|discriminate].
    destruct (json_is "type" "demo" decoded) eqn:Ht; [|discriminate].
    apply json_is_true in Ht.
    destruct (json_str "accesId" decoded) as [accesId|] eqn:Ha;
      [|discriminate].
    apply json_str_Some in Ha.
    destruct (acces_by_id db accesId) as [acces|] eqn:Hrow; [|discriminate].
    pose proof (acces_by_id_id _ _ _ Hrow) as <-.
    destruct (accesTemporaires.actif acces) eqn:Hact; [|discriminate].
    destruct (not_expired (accesTemporaires.dateExpiration acces) now)
      eqn:Hexp; [|discriminate].
    apply not_expired_iff in Hexp.
    intros [= <-]. exists acces. split; [|reflexivity].
    exists demoToken, decoded. auto 10.
  - intros (acces & (demoToken & decoded & Hc & Hne & Hv & Ht & Ha
                     & Hrow & Hact & Hexp) & ->).
    rewrite Hc, (truthy_Some _ Hne), Hv.
    apply json_is_true in Ht. apply json_str_Some in Ha.
    apply not_expired_iff in Hexp.
    now rewrite Ht, Ha, Hrow, Hact, Hexp.
Qed.

(** C4. With a demo cookie that verifies with type [demo] and names a
    stored, active grant that has no expiration or a future one,
    [authenticate] hands the request on with [req.user] set to a virtual
    user of role [member], of the tenant of the grant and of an identity
    made from the grant id, and [req.agenceId] set to that tenant,
    whatever the session table holds; cookies and body are as received.
    In every other case the demo block is left without an answer and
    without an identity, and the outcome is that of the [auth_token]
    path. *)
Theorem authenticate_demo_path (db : Db.t) (now : Z) (req : Req.t) :
  (exists acces,
     demo_grant_valid db now req acces
     /\ forall ss,
          exists r,
            authenticate (Db.with_sessions ss db) now req = Next r
            /\ Req.user r
               = Some
                   {| User.id := "demo-" ++ accesTemporaires.id acces;
                      User.email :=
                        or_else (accesTemporaires.email acces)
                          "demo@onlytrack.io";
                      User.role := role_name member;
                      User.agenceId := accesTemporaires.agenceId acces;
                      User.isDemo := true;
                      User.demoNom := Some (accesTemporaires.nom acces) |}
            /\ Req.agenceId r = Some (accesTemporaires.agenceId acces)
            /\ Req.cookies r = Req.cookies req
            /\ Req.body r = Req.body req)
  \/ ((forall acces, ~ demo_grant_valid db now req acces)
      /\ authenticate_demo db now req = None
      /\ authenticate db now req = authenticate_token db now req).
Proof.
  destruct (authenticate_demo db now req) as [r|] eqn:E.
  - left. apply authenticate_demo_Some in E as (acces & Hvalid & ->).
    exists acces. split; [assumption|]. intros ss.
    assert (Hss : authenticate_demo (Db.with_sessions ss db) now req
                  = Some (Req.attach (demo_user acces)
                            (accesTemporaires.agenceId acces) req)).
    { apply authenticate_demo_Some. exists acces. split; [|reflexivity].
      exact Hvalid. }
    eexists. split; [unfold authenticate; now rewrite Hss|].
    repeat split.
  - right. split; [|split; [reflexivity|]].
    + intros acces Hvalid.
      assert (Hsome : authenticate_demo db now req
                      = Some (Req.attach (demo_user acces)
                                (accesTemporaires.agenceId acces) req)).
      { apply authenticate_demo_Some. eauto. }
      congruence.
    + unfold authenticate. now rewrite E.
Qed.

(** C9. [requireRole] answers with status 401 when no identity is
    attached; with status 403, the permitted roles and the caller's role
    in the body, when the attached role is not one of the permitted
    ones; and otherwise hands the request on as it is. *)
Theorem requireRole_contract (roles : list Role) (req : Req.t) :
  (Req.user req = None ->
     exists res,
       requireRole roles req = Respond res
       /\ Res.status res = 401
       /\ Res.body res = JObj [("error", JStr "Non authentifié")])
  /\ (forall u,
        Req.user req = Some u ->
        (forall r, In r roles -> role_name r <> User.role u) ->
        exists res,
          requireRole roles req = Respond res
          /\ Res.status res = 403
          /\ json_get "requiredRoles" (Res.body res)
             = Some (JArr (List.map (fun r => JStr (role_name r)) roles))
          /\ json_get "yourRole" (Res.body res)
             = Some (JStr (User.role u)))
  /\ (forall u r,
        Req.user req = Some u ->
        In r roles -> role_name r = User.role u ->
        requireRole roles req = Next req).
Proof.
  unfold requireRole. split; [|split].
  - intros ->. eexists. repeat split.
  - intros u -> Hnot.
    assert (Hinc : includes roles (User.role u) = false).
    { unfold includes. apply not_true_is_false. rewrite existsb_exists.
      intros (r & Hin & Heq). apply String.eqb_eq in Heq.
      exact (Hnot r Hin Heq). }
    rewrite Hinc. simpl. eexists. repeat split.
  - intros u r -> Hin Heq.
    assert (Hinc : includes roles (User.role u) = true).
    { unfold includes. apply existsb_exists. exists r.
      split; [assumption | now apply String.eqb_eq]. }
    now rewrite Hinc.
Qed.

(** C5. The two planes read different cookies and different payloads.
    [requireAdmin] answers 401 to a request without [admin_token]
    cookie, whatever its [auth_token]; it answers 401 as well when the
    cookie holds a token whose payload is the one of a tenant token,
    which has no [type]; and [authenticate] answers 401 to a request
    that has neither [auth_token] nor [demo_token], whatever its
    [admin_token], and never hands on a request whose [auth_token]
    cookie holds a token with the payload of an admin token. *)
Theorem planes_independent (db : Db.t) (now : Z) (req : Req.t) :
  (Req.cookies req !! "admin_token" = None ->
     requireAdmin db now req = Respond (Res.err 401 "Non authentifié"))
  /\ (forall token userId agenceId role,
        Req.cookies req !! "admin_token" = Some token ->
        token <> "" ->
        jwt_verify token JWT_SECRET now
        = Some (tenant_payload userId agenceId role) ->
        requireAdmin db now req
        = Respond (Res.err 401 "Accès non autorisé"))
  /\ (Req.cookies req !! "auth_token" = None ->
      Req.cookies req !! "demo_token" = None ->
      authenticate db now req
      = Respond (Res.err 401 "Non authentifié - Token manquant"))
  /\ (forall token id email,
        Req.cookies req !! "demo_token" = None ->
        Req.cookies req !! "auth_token" = Some token ->
        verifyJWT token now = Some (admin_payload id email) ->
        exists res, authenticate db now req = Respond res).
Proof.
  split; [|split; [|split]].
  - intros H. unfold requireAdmin. now rewrite H.
  - intros token userId agenceId role Hc Hne Hv. unfold requireAdmin.
    rewrite Hc, (truthy_Some _ Hne), Hv. reflexivity.
  - intros Ha Hd. unfold authenticate.
    rewrite (authenticate_demo_no_cookie _ _ _ Hd).
    unfold authenticate_token. now rewrite Ha.
  - intros token id email Hd Ha Hv. unfold authenticate.
    rewrite (authenticate_demo_no_cookie _ _ _ Hd).
    unfold authenticate_token. rewrite Ha.
    destruct (truthy (Some token)) as [t|] eqn:Ht; [|eauto].
    apply truthy_inv in Ht as [[= <-] _]. rewrite Hv.
    change (json_str "userId" (admin_payload id email)) with (@None string).
    eauto.
Qed.

End Guards.

(** *** The guards on the sample deployment *)

(** A visitor holding the demo cookie of an active grant without
    expiration is let in without any session row. *)
Lemma authenticate_demo_path_witness :
  let db := Sample.db [] [Sample.acces true None] in
  let req := Sample.request {[ "demo_token" := "jwt-demo" ]} JNull in
  exists acces,
    demo_grant_valid (RT := Sample.runtime) db 100 req acces
    /\ forall ss,
         exists r,
           authenticate (RT := Sample.runtime) (Db.with_sessions ss db) 100
             req = Next r
           /\ Req.user r
              = Some
                  {| User.id := "demo-" ++ accesTemporaires.id acces;
                     User.email :=
                       or_else (accesTemporaires.email acces)
                         "demo@onlytrack.io";
                     User.role := "member";
                     User.agenceId := accesTemporaires.agenceId acces;
                     User.isDemo := true;
                     User.demoNom := Some (accesTemporaires.nom acces) |}
           /\ Req.agenceId r = Some (accesTemporaires.agenceId acces)
           /\ Req.cookies r = Req.cookies req
           /\ Req.body r = Req.body req.
Proof.
  cbv zeta.
  destruct (authenticate_demo_path (RT := Sample.runtime)
              (Sample.db [] [Sample.acces true None]) 100
              (Sample.request {[ "demo_token" := "jwt-demo" ]} JNull))
    as [H | [Hnone _]]; [exact H|].
  exfalso. apply (Hnone (Sample.acces true None)).
  exists "jwt-demo", Sample.demo_payload.
  split; [vm_compute; reflexivity|].
  split; [discriminate|].
  repeat split; try reflexivity. left. reflexivity.
Defined.

(** An owner-only route: no identity, a member, an owner. *)
Lemma requireRole_contract_witness :
  let anonymous := Sample.request ∅ JNull in
  let as_member :=
    Req.attach (demo_user (Sample.acces true None)) "ag-1" anonymous in
  let as_owner := Req.attach (real_user Sample.ana) "ag-1" anonymous in
  (exists res,
     requireRole [owner] anonymous = Respond res
     /\ Res.status res = 401
     /\ Res.body res = JObj [("error", JStr "Non authentifié")])
  /\ (exists res,
        requireRole [owner] as_member = Respond res
        /\ Res.status res = 403
        /\ json_get "requiredRoles" (Res.body res)
           = Some (JArr [JStr "owner"])
        /\ json_get "yourRole" (Res.body res) = Some (JStr "member"))
  /\ requireRole [owner] as_owner = Next as_owner.
Proof.
  cbv zeta. split; [|split].
  - apply (proj1 (requireRole_contract [owner] _)). reflexivity.
  - apply (proj1 (proj2 (requireRole_contract [owner] _))
             (demo_user (Sample.acces true None))).
    + reflexivity.
    + intros r [<- | []]. discriminate.
  - apply (proj2 (proj2 (requireRole_contract [owner] _))
             (real_user Sample.ana) owner).
    + reflexivity.
    + left. reflexivity.
    + reflexivity.
Defined.

(** Ana's token opens no admin route, in either cookie, and the
    operator's token opens no tenant route. *)
Lemma planes_independent_witness :
  let db := Sample.db [Sample.session "s1" "jwt-ana-1" 9000] [] in
  requireAdmin (RT := Sample.runtime) db 100
    (Sample.request {[ "auth_token" := "jwt-ana-1" ]} JNull)
  = Respond (Res.err 401 "Non authentifié")
  /\ requireAdmin (RT := Sample.runtime) db 100
       (Sample.request {[ "admin_token" := "jwt-ana-1" ]} JNull)
     = Respond (Res.err 401 "Accès non autorisé")
  /\ authenticate (RT := Sample.runtime) db 100
       (Sample.request {[ "admin_token" := "jwt-admin" ]} JNull)
     = Respond (Res.err 401 "Non authentifié - Token manquant")
  /\ (exists res,
        authenticate (RT := Sample.runtime) db 100
          (Sample.request {[ "auth_token" := "jwt-admin" ]} JNull)
        = Respond res).
Proof.
  cbv zeta. split; [|split; [|split]].
  - apply (proj1 (planes_independent (RT := Sample.runtime) _ 100 _)).
    vm_compute. reflexivity.
  - apply (proj1 (proj2 (planes_independent (RT := Sample.runtime) _ 100 _))
             "jwt-ana-1" "u-ana" "ag-1" "owner").
    + vm_compute. reflexivity.
    + discriminate.
    + reflexivity.
  - apply (proj1 (proj2 (proj2
             (planes_independent (RT := Sample.runtime) _ 100 _)))).
    + vm_compute. reflexivity.
    + vm_compute. reflexivity.
  - apply (proj2 (proj2 (proj2
             (planes_independent (RT := Sample.runtime) _ 100 _)))
             "jwt-admin" "adm-1" "root@onlytrack.io").
    + vm_compute. reflexivity.
    + vm_compute. reflexivity.
    + reflexivity.
Defined.

(** ** Login and the temporary access endpoints *)

Section Routes.

Context `{RT : Runtime}.

(** C6, as the code has it.  A login whose body fails the schema is
    answered 400 without any lookup: the answer is the same on every
    store, nothing is written and no cookie is set.  For a login whose
    body passes the schema (a well-formed email and a string password):
    with valid credentials of a verified, active account the handler
    answers 200, sets the [auth_token] cookie to the token it issued and
    appends one session row, whose digest is [hashToken] of that token;
    with an unknown email or a wrong password it answers 401 with the
    same body in both cases, sets no cookie and leaves the store as it
    was. *)
Theorem connexion_sessions (db : Db.t) (now : Z) (sessionId : string)
    (req : Req.t) :
  (connexionSchema_parse (Req.body req) = None ->
   Res.status (fst (connexion db now sessionId req)) = 400
   /\ Res.cookieOps (fst (connexion db now sessionId req)) = []
   /\ snd (connexion db now sessionId req) = db
   /\ forall db2,
        fst (connexion db2 now sessionId req)
        = fst (connexion db now sessionId req))
  /\ forall email password,
       connexionSchema_parse (Req.body req) = Some (email, password) ->
       (forall user,
          user_by_email db email = Some user ->
          verifyPassword password (utilisateurs.motDePasseHash user) = true ->
          utilisateurs.emailVerifie user = true ->
          utilisateurs.actif user = true ->
          let token :=
            generateJWT (utilisateurs.id user) (utilisateurs.agenceId user)
              (utilisateurs.role user) now in
          exists res db' session,
            connexion db now sessionId req = (res, db')
            /\ Res.status res = 200
            /\ In (SetCookie "auth_token" token auth_cookie_options)
                 (Res.cookieOps res)
            /\ Db.sessions db' = (Db.sessions db ++ [session])%list
            /\ sessions.tokenHash session = hashToken token
            /\ sessions.utilisateurId session = utilisateurs.id user
            /\ sessions.dateExpiration session = date_plus_days now 7)
       /\ (user_by_email db email = None
           \/ (exists user,
                 user_by_email db email = Some user
                 /\ verifyPassword password
                      (utilisateurs.motDePasseHash user) = false) ->
           exists res,
             connexion db now sessionId req = (res, db)
             /\ Res.status res = 401
             /\ Res.body res
                = JObj [("error", JStr "Email ou mot de passe incorrect")]
             /\ Res.cookieOps res = []).
Proof.
  split.
  - intros Hparse. unfold connexion. rewrite Hparse. cbn.
    repeat split.
  - intros email password Hparse. unfold connexion. rewrite Hparse. split.
    + intros user Hrow Hpw Hver Hact. cbv zeta.
      rewrite Hrow, Hpw, Hver, Hact. cbn [negb].
      do 3 eexists. split; [reflexivity|].
      cbn. repeat split. right. left. reflexivity.
    + intros [Hnone | (user & Hrow & Hpw)].
      * rewrite Hnone. eexists. repeat split.
      * rewrite Hrow, Hpw. eexists. repeat split.
Qed.

(** C10. A login answered 200 clears [demo_token] and then sets
    [auth_token]; a browser that applies these two operations has no
    demo cookie left, so on its next requests [authenticate] decides on
    the [auth_token] path alone. *)
Theorem login_clears_demo_cookie (db : Db.t) (now : Z)
    (sessionId : string) (req : Req.t) (res : Res.t) (db' : Db.t) :
  connexion db now sessionId req = (res, db') ->
  Res.status res = 200 ->
  exists token,
    Res.cookieOps res
    = [ClearCookie "demo_token";
       SetCookie "auth_token" token auth_cookie_options]
    /\ forall jar : gmap string string,
         let jar' := apply_cookies (Res.cookieOps res) jar in
         jar' !! "demo_token" = None
         /\ jar' !! "auth_token" = Some token
         /\ forall db2 now2 req2,
              Req.cookies req2 = jar' ->
              authenticate db2 now2 req2 = authenticate_token db2 now2 req2.
Proof.
  unfold connexion.
  destruct (connexionSchema_parse (Req.body req)) as [[email password]|];
    [|intros [= <- <-]; discriminate].
  destruct (user_by_email db email) as [user|];
    [|intros [= <- <-]; discriminate].
  destruct (verifyPassword password (utilisateurs.motDePasseHash user));
    [|intros [= <- <-]; discriminate].
  destruct (utilisateurs.emailVerifie user);
    [|intros [= <- <-]; discriminate].
  destruct (utilisateurs.actif user);
    [|intros [= <- <-]; discriminate].
  cbn [negb]. cbv zeta. intros [= <- <-] _.
  eexists. split; [reflexivity|].
  intros jar. cbn [Res.cookieOps apply_cookies fold_left apply_cookie].
  assert (Hdemo :
    (<["auth_token" :=
         generateJWT (utilisateurs.id user) (utilisateurs.agenceId user)
           (utilisateurs.role user) now]>
       (delete "demo_token" jar) : gmap string string)
    !! "demo_token" = None).
  { rewrite lookup_insert_ne by discriminate. apply lookup_delete_eq. }
  split; [exact Hdemo|]. split; [apply lookup_insert_eq|].
  intros db2 now2 req2 Hjar. unfold authenticate.
  rewrite authenticate_demo_no_cookie; [reflexivity|].
  rewrite Hjar. exact Hdemo.
Qed.

Lemma grant_usable_iff (now : Z) (acces : accesTemporaires.row) :
  grant_usable now acces
  <-> accesTemporaires.actif acces = true
      /\ expired (accesTemporaires.dateExpiration acces) now = false.
Proof.
  unfold grant_usable, expired.
  destruct (accesTemporaires.dateExpiration acces) as [d|].
  - rewrite Z.ltb_ge. split.
    + intros [Ha [Hn | (d' & [= <-] & Hle)]]; [discriminate | auto].
    + intros [Ha Hle]. split; [assumption|]. right. eauto.
  - split; intros [Ha _]; auto.
Qed.

Lemma endpoints_status (db : Db.t) (now : Z) (token : string) :
  Res.status (demo_validate db now token) = decision db now token
  /\ Res.status (demo_access db now token) = decision db now token
  /\ Res.status (valider db now token) = decision db now token.
Proof.
  unfold demo_validate, demo_access, valider, decision, expired.
  destruct (acces_by_token db token) as [acces|]; [|auto].
  destruct (accesTemporaires.actif acces); cbn [negb]; [|auto].
  destruct (accesTemporaires.dateExpiration acces) as [d|]; [|auto].
  rewrite Z.gtb_ltb. destruct (d <? now); auto.
Qed.

(** What the three endpoints (validate, access, valider) do: a grant
    whose active flag is false is answered 403 whatever its expiration;
    a grant whose expiration is before the current time is answered 403
    even when active; and the answer is 200 exactly when the token
    designates a stored grant that is active and has no expiration or
    an expiration not before the current time. *)
Lemma temporary_access_acceptance (db : Db.t) (now : Z)
    (token : string) :
  let statuses :=
    [Res.status (demo_validate db now token);
     Res.status (demo_access db now token);
     Res.status (valider db now token)] in
  (forall acces,
     acces_by_token db token = Some acces ->
     accesTemporaires.actif acces = false ->
     Forall (fun st => st = 403) statuses)
  /\ (forall acces d,
        acces_by_token db token = Some acces ->
        accesTemporaires.dateExpiration acces = Some d ->
        d < now ->
        Forall (fun st => st = 403) statuses)
  /\ Forall
       (fun st =>
          st = 200
          <-> exists acces,
                acces_by_token db token = Some acces
                /\ grant_usable now acces)
       statuses.
Proof.
  cbv zeta.
  destruct (endpoints_status db now token) as (-> & -> & ->).
  unfold decision. split; [|split].
  - intros acces -> ->. cbn [negb]. repeat constructor.
  - intros acces d -> Hd Hlt. unfold expired. rewrite Hd.
    apply Z.ltb_lt in Hlt. rewrite Hlt.
    destruct (accesTemporaires.actif acces); repeat constructor.
  - assert (H : (match acces_by_token db token with
                 | Some acces =>
                     if negb (accesTemporaires.actif acces) then 403
                     else if expired
                               (accesTemporaires.dateExpiration acces) now
                          then 403 else 200
                 | None => 404
                 end) = 200
                <-> exists acces,
                      acces_by_token db token = Some acces
                      /\ grant_usable now acces).
    { destruct (acces_by_token db token) as [acces|].
      - split.
        + intros H. exists acces. split; [reflexivity|].
          apply grant_usable_iff.
          destruct (accesTemporaires.actif acces); [|discriminate].
          destruct (expired (accesTemporaires.dateExpiration acces) now);
            [discriminate | auto].
        + intros (acces' & [= <-] & Hu).
          apply grant_usable_iff in Hu as [-> ->]. reflexivity.
      - split; [discriminate | intros (acces & Hrow & _); discriminate]. }
    do 3 (constructor; [exact H|]). constructor.
Qed.

(** C7. At the instant of its expiration an active grant is accepted
    by the three endpoints, although its expiration is not in the
    future; the test of [authenticate] on the same grant at the same
    time, [new Date(acces.dateExpiration) > new Date()], refuses it. *)
Theorem endpoints_accept_at_expiration (db : Db.t) (now : Z)
    (token : string) (acces : accesTemporaires.row) :
  acces_by_token db token = Some acces ->
  accesTemporaires.actif acces = true ->
  accesTemporaires.dateExpiration acces = Some now ->
  Res.status (demo_validate db now token) = 200
  /\ Res.status (demo_access db now token) = 200
  /\ Res.status (valider db now token) = 200
  /\ not_expired (accesTemporaires.dateExpiration acces) now = false.
Proof.
  intros Hrow Hact Hexp.
  destruct (endpoints_status db now token) as (-> & -> & ->).
  unfold decision, expired, not_expired.
  rewrite Hrow, Hact, Hexp, Z.ltb_irrefl. auto.
Qed.

End Routes.

(** *** The routes on the sample deployment *)

(** C6 as the specification words it does not hold: the login of an
    address no account has is answered 400, not 401, when the address is
    malformed, because the schema is checked before the lookup. *)
Lemma connexion_unknown_email_counterexample :
  ~ (forall (RT : Runtime) (db : Db.t) (now : Z) (sessionId : string)
            (req : Req.t) (email : string),
       json_get "email" (Req.body req) = Some (JStr email) ->
       user_by_email db email = None ->
       Res.status (fst (connexion db now sessionId req)) = 401).
Proof.
  intros H.
  specialize (H Sample.runtime (Sample.db [] []) 100 "s9"
                (Sample.request ∅ (Sample.credentials "inconnu" "x"))
                "inconnu" eq_refl eq_refl).
  vm_compute in H. discriminate.
Defined.

(** Ana logs in; a stranger and a wrong password get the same answer;
    a malformed address is turned away by the schema. *)
Lemma connexion_sessions_witness :
  let db := Sample.db [] [] in
  let login email password :=
    connexion (RT := Sample.runtime) db 100 "s9"
      (Sample.request ∅ (Sample.credentials email password)) in
  (exists res db' session,
     login "ana@x.com" "Abcd1234!" = (res, db')
     /\ Res.status res = 200
     /\ In (SetCookie "auth_token" "jwt-ana-1"
              (auth_cookie_options (RT := Sample.runtime)))
          (Res.cookieOps res)
     /\ Db.sessions db' = [session]
     /\ sessions.tokenHash session
        = hashToken (RT := Sample.runtime) "jwt-ana-1"
     /\ sessions.utilisateurId session = "u-ana"
     /\ sessions.dateExpiration session = 100 + 604800000)
  /\ (exists res,
        login "bob@x.com" "Abcd1234!" = (res, db)
        /\ Res.status res = 401
        /\ Res.body res
           = JObj [("error", JStr "Email ou mot de passe incorrect")]
        /\ Res.cookieOps res = [])
  /\ (exists res,
        login "ana@x.com" "abcd" = (res, db)
        /\ Res.status res = 401
        /\ Res.body res
           = JObj [("error", JStr "Email ou mot de passe incorrect")]
        /\ Res.cookieOps res = [])
  /\ Res.status (fst (login "inconnu" "x")) = 400
  /\ snd (login "inconnu" "x") = db.
Proof.
  cbv zeta. split; [|split; [|split]].
  - apply (proj1 (proj2 (connexion_sessions (RT := Sample.runtime)
                           (Sample.db [] []) 100 "s9"
                           (Sample.request ∅
                              (Sample.credentials "ana@x.com" "Abcd1234!")))
                    "ana@x.com" "Abcd1234!" eq_refl) Sample.ana);
      reflexivity.
  - apply (proj2 (proj2 (connexion_sessions (RT := Sample.runtime)
                           (Sample.db [] []) 100 "s9"
                           (Sample.request ∅
                              (Sample.credentials "bob@x.com" "Abcd1234!")))
                    "bob@x.com" "Abcd1234!" eq_refl)).
    left. reflexivity.
  - apply (proj2 (proj2 (connexion_sessions (RT := Sample.runtime)
                           (Sample.db [] []) 100 "s9"
                           (Sample.request ∅
                              (Sample.credentials "ana@x.com" "abcd")))
                    "ana@x.com" "abcd" eq_refl)).
    right. exists Sample.ana. split; reflexivity.
  - destruct (proj1 (connexion_sessions (RT := Sample.runtime)
                       (Sample.db [] []) 100 "s9"
                       (Sample.request ∅
                          (Sample.credentials "inconnu" "x"))) eq_refl)
      as (H400 & _ & Hdb & _).
    split; assumption.
Defined.

(** Ana logs in from a browser that holds a demo cookie. *)
Lemma login_clears_demo_cookie_witness :
  let out :=
    connexion (RT := Sample.runtime)
      (Sample.db [] [Sample.acces true None]) 100 "s9"
      (Sample.request {[ "demo_token" := "jwt-demo" ]}
         (Sample.credentials "ana@x.com" "Abcd1234!")) in
  exists token,
    Res.cookieOps (fst out)
    = [ClearCookie "demo_token";
       SetCookie "auth_token" token
         (auth_cookie_options (RT := Sample.runtime))]
    /\ forall jar : gmap string string,
         let jar' := apply_cookies (Res.cookieOps (fst out)) jar in
         jar' !! "demo_token" = None
         /\ jar' !! "auth_token" = Some token
         /\ forall db2 now2 req2,
              Req.cookies req2 = jar' ->
              authenticate (RT := Sample.runtime) db2 now2 req2
              = authenticate_token (RT := Sample.runtime) db2 now2 req2.
Proof.
  cbv zeta.
  eapply (login_clears_demo_cookie (RT := Sample.runtime)
            (Sample.db [] [Sample.acces true None]) 100 "s9").
  - apply surjective_pairing.
  - reflexivity.
Defined.

(** The grant expires at 1000 and is presented at 1000. *)
Lemma endpoints_accept_at_expiration_witness :
  let db := Sample.db [] [Sample.acces true (Some 1000)] in
  Res.status (demo_validate db 1000 "lien-1") = 200
  /\ Res.status (demo_access (RT := Sample.runtime) db 1000 "lien-1") = 200
  /\ Res.status (valider db 1000 "lien-1") = 200
  /\ not_expired (Some 1000) 1000 = false.
Proof.
  cbv zeta.
  apply (endpoints_accept_at_expiration (RT := Sample.runtime)
           (Sample.db [] [Sample.acces true (Some 1000)]) 1000 "lien-1"
           (Sample.acces true (Some 1000))); reflexivity.
Defined.

(** A revoked grant, an expired one and a usable one. *)
Lemma temporary_access_acceptance_witness :
  let statuses db now :=
    [Res.status (demo_validate db now "lien-1");
     Res.status (demo_access (RT := Sample.runtime) db now "lien-1");
     Res.status (valider db now "lien-1")] in
  Forall (fun st => st = 403)
    (statuses (Sample.db [] [Sample.acces false None]) 100)
  /\ Forall (fun st => st = 403)
       (statuses (Sample.db [] [Sample.acces true (Some 50)]) 100)
  /\ Forall
       (fun st =>
          st = 200
          <-> exists acces,
                acces_by_token (Sample.db [] [Sample.acces true None])
                  "lien-1" = Some acces
                /\ grant_usable 100 acces)
       (statuses (Sample.db [] [Sample.acces true None]) 100).
Proof.
  cbv zeta. split; [|split].
  - exact (proj1 (temporary_access_acceptance (RT := Sample.runtime)
                    (Sample.db [] [Sample.acces false None]) 100 "lien-1")
             (Sample.acces false None) eq_refl eq_refl).
  - refine (proj1 (proj2 (temporary_access_acceptance (RT := Sample.runtime)
                            (Sample.db [] [Sample.acces true (Some 50)])
                            100 "lien-1"))
              (Sample.acces true (Some 50)) 50 eq_refl eq_refl _).
    lia.
  - exact (proj2 (proj2 (temporary_access_acceptance (RT := Sample.runtime)
                           (Sample.db [] [Sample.acces true None]) 100
                           "lien-1"))).
Defined.

(* ===================================================================== *)
(** * Further properties of the code                                     *)
(* ===================================================================== *)

(** ** lib/auth.ts *)

(** X1. [validatePassword] accepts exactly the passwords of at least 8
    characters with an uppercase letter, a digit and a character that is
    neither a letter nor a digit, and otherwise reports the first rule
    that fails, in the order length, uppercase, digit, symbol. *)
Theorem validatePassword_spec (password : string) :
  let v := validatePassword password in
  let long := (8 <=? String.length password)%nat in
  (isValid v = true
   <-> (8 <= String.length password)%nat
       /\ test is_upper password = true
       /\ test is_digit password = true
       /\ test is_symbol password = true)
  /\ (isValid v = true <-> error v = None)
  /\ (error v = Some MSG_LENGTH <-> long = false)
  /\ (error v = Some MSG_UPPER
      <-> long = true /\ test is_upper password = false)
  /\ (error v = Some MSG_DIGIT
      <-> long = true /\ test is_upper password = true
          /\ test is_digit password = false)
  /\ (error v = Some MSG_SYMBOL
      <-> long = true /\ test is_upper password = true
          /\ test is_digit password = true
          /\ test is_symbol password = false).
Proof.
  cbv zeta. unfold validatePassword.
  rewrite Nat.ltb_antisym.
  destruct (8 <=? String.length password)%nat eqn:HL; cbn [negb].
  - apply Nat.leb_le in HL.
    destruct (test is_upper password); cbn [negb isValid error].
    + destruct (test is_digit password); cbn [negb isValid error].
      * destruct (test is_symbol password); cbn [negb isValid error];
          repeat split; intros; try tauto; try discriminate;
          try (destruct_and?; discriminate).
      * repeat split; intros; try tauto; try discriminate;
          try (destruct_and?; discriminate).
    + repeat split; intros; try tauto; try discriminate;
        try (destruct_and?; discriminate).
  - apply Nat.leb_gt in HL. cbn [isValid error].
    repeat split; intros; try tauto; try discriminate;
      try (destruct_and?; first [discriminate | lia]).
Qed.

Section PasswordComposition.

Variable entropy : nat -> nat.

Lemma filter_length_Permutation (cls : ascii -> bool) (l l' : list ascii) :
  l ≡ₚ l' -> length (List.filter cls l) = length (List.filter cls l').
Proof.
  induction 1 as [|x l l' _ IH|x y l|l l' l'' _ IH1 _ IH2]; simpl.
  - reflexivity.
  - destruct (cls x); simpl; congruence.
  - destruct (cls x), (cls y); reflexivity.
  - congruence.
Qed.

(** A block drawn from an alphabet counts fully for a class that holds
    the alphabet, and not at all for a class disjoint from it. *)
Lemma filter_block_all (cls : ascii -> bool) (chars s : string) :
  forallb cls (list_ascii_of_string chars) = true ->
  Forall (fun c => In c (list_ascii_of_string chars))
    (list_ascii_of_string s) ->
  length (List.filter cls (list_ascii_of_string s)) = String.length s.
Proof.
  intros Hall HF. rewrite forallb_forall in Hall.
  rewrite <- length_list_ascii.
  induction HF as [|c l Hc _ IH]; simpl; [reflexivity|].
  rewrite (Hall c Hc). simpl. congruence.
Qed.

Lemma filter_block_none (cls : ascii -> bool) (chars s : string) :
  forallb (fun c => negb (cls c)) (list_ascii_of_string chars) = true ->
  Forall (fun c => In c (list_ascii_of_string chars))
    (list_ascii_of_string s) ->
  length (List.filter cls (list_ascii_of_string s)) = 0%nat.
Proof.
  intros Hall HF. rewrite forallb_forall in Hall.
  induction HF as [|c l Hc _ IH]; simpl; [reflexivity|].
  specialize (Hall c Hc). apply negb_true_iff in Hall. now rewrite Hall.
Qed.

Lemma count_blocks (cls : ascii -> bool) (p1 p2 p3 p4 : string)
    (shuffled : list ascii) :
  shuffled ≡ₚ list_ascii_of_string (p1 ++ p2 ++ p3 ++ p4) ->
  length (List.filter cls shuffled)
  = (length (List.filter cls (list_ascii_of_string p1))
     + length (List.filter cls (list_ascii_of_string p2))
     + length (List.filter cls (list_ascii_of_string p3))
     + length (List.filter cls (list_ascii_of_string p4)))%nat.
Proof.
  intros HP. rewrite (filter_length_Permutation cls _ _ HP).
  rewrite !list_ascii_app, !List.filter_app, !length_app. lia.
Qed.

(** X2. Whatever is drawn, the generated password has exactly 12
    characters: 3 uppercase letters, 3 digits, 4 lowercase letters and 2
    characters of [@#$%&*!?]. *)
Theorem generateSecurePassword_composition :
  let password := generateSecurePassword entropy in
  String.length password = 12%nat
  /\ count_class is_upper password = 3%nat
  /\ count_class is_digit password = 3%nat
  /\ count_class is_lower password = 4%nat
  /\ count_class is_special password = 2%nat.
Proof.
  cbv zeta.
  destruct (generateSecurePassword_shape entropy)
    as (p1 & p2 & p3 & p4 & shuffled & -> & HP
        & [L1 F1] & [L2 F2] & [L3 F3] & [L4 F4]).
  unfold count_class. rewrite list_ascii_of_string_of_list_ascii.
  split.
  { rewrite length_string_of_list, (Permutation_length HP).
    rewrite !list_ascii_app, !length_app, !length_list_ascii. lia. }
  rewrite !(count_blocks _ p1 p2 p3 p4 shuffled HP).
  repeat split.
  - rewrite (filter_block_all is_upper uppercase p1),
      (filter_block_none is_upper numbers p2),
      (filter_block_none is_upper special p3),
      (filter_block_none is_upper lowercase p4); auto; try lia.
  - rewrite (filter_block_none is_digit uppercase p1),
      (filter_block_all is_digit numbers p2),
      (filter_block_none is_digit special p3),
      (filter_block_none is_digit lowercase p4); auto; try lia.
  - rewrite (filter_block_none is_lower uppercase p1),
      (filter_block_none is_lower numbers p2),
      (filter_block_none is_lower special p3),
      (filter_block_all is_lower lowercase p4); auto; try lia.
  - rewrite (filter_block_none is_special uppercase p1),
      (filter_block_none is_special numbers p2),
      (filter_block_all is_special special p3),
      (filter_block_none is_special lowercase p4); auto; try lia.
Qed.

End PasswordComposition.

(** ** middleware/auth.ts *)

Section MiddlewareFacts.

Context `{RT : Runtime}.

(** What an acceptance on the token path tells. *)
Lemma authenticate_token_Next (db : Db.t) (now : Z) (req r : Req.t) :
  authenticate_token db now req = Next r ->
  exists token payload userId s user,
    Req.cookies req !! "auth_token" = Some token
    /\ token <> ""
    /\ verifyJWT token now = Some payload
    /\ json_str "userId" payload = Some userId
    /\ In s (Db.sessions db)
    /\ sessions.utilisateurId s = userId
    /\ now < sessions.dateExpiration s
    /\ user_by_id db userId = Some user
    /\ utilisateurs.actif user = true
    /\ r = Req.attach (real_user user) (utilisateurs.agenceId user) req.
Proof.
  unfold authenticate_token.
  destruct (truthy (Req.cookies req !! "auth_token")) as [token|] eqn:Hc;
    [|discriminate].
  apply truthy_inv in Hc as [Hc Hne].
  destruct (verifyJWT token now) as [payload|] eqn:Hv; [|discriminate].
  destruct (json_str "userId" payload) as [userId|] eqn:Hu; [|discriminate].
  destruct (List.find (session_of userId now) (Db.sessions db))
    as [s|] eqn:Hs; [|discriminate].
  apply find_some in Hs as [Hin Hs]. unfold session_of in Hs.
  apply andb_true_iff in Hs as [Hid Hexp].
  apply String.eqb_eq in Hid. apply Z.ltb_lt in Hexp.
  destruct (user_by_id db userId) as [user|] eqn:Hrow; [|discriminate].
  destruct (utilisateurs.actif user) eqn:Hact; [|discriminate].
  intros [= <-]. exists token, payload, userId, s, user. auto 12.
Qed.

(** X4. The token path of [authenticate] hands a request on exactly when
    its [auth_token] cookie is a non-empty token that verifies, the
    payload names a user who has a session row expiring after [now], and
    the first user row of that id is active; the identity attached is
    then the one of that row. *)
Theorem authenticate_token_accepts_iff (db : Db.t) (now : Z)
    (req r : Req.t) :
  authenticate_token db now req = Next r
  <-> exists token payload userId s user,
        Req.cookies req !! "auth_token" = Some token
        /\ token <> ""
        /\ verifyJWT token now = Some payload
        /\ json_str "userId" payload = Some userId
        /\ In s (Db.sessions db)
        /\ sessions.utilisateurId s = userId
        /\ now < sessions.dateExpiration s
        /\ user_by_id db userId = Some user
        /\ utilisateurs.actif user = true
        /\ r = Req.attach (real_user user) (utilisateurs.agenceId user) req.
Proof.
  split; [apply authenticate_token_Next|].
  intros (token & payload & userId & s & user & Hc & Hne & Hv & Hu & Hin
          & Hid & Hexp & Hrow & Hact & ->).
  eauto using authenticate_token_accepts.
Qed.

(** X3. A request [authenticate] hands on differs from the one received
    by the attached identity only, [req.agenceId] is the tenant of
    [req.user], and the identity is either the virtual member of a valid
    grant or the image of an active user row. *)
Theorem authenticate_attaches_consistent_identity (db : Db.t) (now : Z)
    (req r : Req.t) :
  authenticate db now req = Next r ->
  exists u,
    r = Req.attach u (User.agenceId u) req
    /\ ((User.isDemo u = true /\ User.role u = role_name member
         /\ exists acces,
              demo_grant_valid db now req acces
              /\ User.agenceId u = accesTemporaires.agenceId acces)
        \/ (User.isDemo u = false
            /\ exists user,
                 user_by_id db (User.id u) = Some user
                 /\ utilisateurs.actif user = true
                 /\ u = real_user user)).
Proof.
  unfold authenticate.
  destruct (authenticate_demo db now req) as [r'|] eqn:E.
  - intros [= <-]. apply authenticate_demo_Some in E as (acces & Hv & ->).
    exists (demo_user acces). split; [reflexivity|]. left.
    repeat split. eauto.
  - intros H. apply authenticate_token_Next in H
      as (token & payload & userId & s & user & _ & _ & _ & _ & _ & _ & _
          & Hrow & Hact & ->).
    exists (real_user user). split; [reflexivity|]. right.
    split; [reflexivity|]. exists user. repeat split; [|assumption].
    pose proof Hrow as Hid. unfold user_by_id in Hid.
    apply find_some in Hid as [_ Hid]. apply String.eqb_eq in Hid.
    cbn [real_user User.id]. now rewrite Hid.
Qed.

(** X5. A token that verifies does not open the token path when the
    user row of its payload is missing or has [actif = false]: the
    answer is 401, with or without a session row. *)
Theorem authenticate_rejects_inactive_user (db : Db.t) (now : Z)
    (req : Req.t) (token userId : string) (payload : json) :
  Req.cookies req !! "demo_token" = None ->
  Req.cookies req !! "auth_token" = Some token ->
  verifyJWT token now = Some payload ->
  json_str "userId" payload = Some userId ->
  (user_by_id db userId = None
   \/ exists user,
        user_by_id db userId = Some user
        /\ utilisateurs.actif user = false) ->
  exists res,
    authenticate db now req = Respond res /\ Res.status res = 401.
Proof.
  intros Hd Hc Hv Hu Hrow. unfold authenticate.
  rewrite (authenticate_demo_no_cookie _ _ _ Hd).
  unfold authenticate_token. rewrite Hc.
  destruct (truthy (Some token)) as [t|] eqn:Ht; [|eauto].
  apply truthy_inv in Ht as [[= <-] _]. rewrite Hv, Hu.
  destruct (List.find (session_of userId now) (Db.sessions db)); [|eauto].
  destruct Hrow as [-> | (user & -> & ->)]; eauto.
Qed.

(** X6. Whenever [authenticate] accepts a request on its token path,
    [authenticateOptional] attaches the same identity. *)
Theorem authenticate_implies_optional (db : Db.t) (now : Z)
    (req r : Req.t) :
  Req.cookies req !! "demo_token" = None ->
  authenticate db now req = Next r ->
  authenticateOptional db now req = Next r.
Proof.
  intros Hd. unfold authenticate.
  rewrite (authenticate_demo_no_cookie _ _ _ Hd). intros H.
  apply authenticate_token_Next in H
    as (token & payload & userId & s & user & Hc & Hne & Hv & Hu & _ & _ & _
        & Hrow & Hact & ->).
  unfold authenticateOptional.
  now rewrite Hc, (truthy_Some _ Hne), Hv, Hu, Hrow, Hact.
Qed.

(** X7. [authenticateOptional] never answers: it hands the request on,
    either as it came or with the identity of an active user row, never
    with a demo identity, whatever the [demo_token] cookie. *)
Theorem authenticateOptional_never_answers (db : Db.t) (now : Z)
    (req : Req.t) :
  authenticateOptional db now req = Next req
  \/ exists user,
       In user (Db.utilisateurs db)
       /\ utilisateurs.actif user = true
       /\ authenticateOptional db now req
          = Next (Req.attach (real_user user) (utilisateurs.agenceId user)
                    req).
Proof.
  unfold authenticateOptional.
  destruct (truthy (Req.cookies req !! "auth_token")); [|auto].
  destruct (verifyJWT s now) as [payload|]; [|auto].
  destruct (json_str "userId" payload) as [userId|]; [|auto].
  destruct (user_by_id db userId) as [user|] eqn:Hrow; [|auto].
  destruct (utilisateurs.actif user) eqn:Hact; [|auto].
  right. exists user. repeat split; [|assumption].
  unfold user_by_id in Hrow. now apply find_some in Hrow.
Qed.

Lemma role_name_inj (r r' : Role) : role_name r = role_name r' -> r = r'.
Proof. destruct r, r'; simpl; intros H; try reflexivity; discriminate. Qed.

Lemma includes_In (roles : list Role) (r : Role) :
  includes roles (role_name r) = true <-> In r roles.
Proof.
  unfold includes. rewrite existsb_exists. split.
  - intros (r' & Hin & Heq). apply String.eqb_eq in Heq.
    apply role_name_inj in Heq. now subst.
  - intros Hin. exists r. split; [assumption | apply String.eqb_refl].
Qed.

(** X8. The visitor of a valid grant is a [member] for every role
    guard: after [authenticate], [requireRole roles] lets the request
    through exactly when [member] is one of [roles]; an owner-only route
    is closed to every demo access. *)
Theorem demo_principal_role_guard (db : Db.t) (now : Z) (req : Req.t)
    (acces : accesTemporaires.row) (roles : list Role) :
  demo_grant_valid db now req acces ->
  exists r,
    authenticate db now req = Next r
    /\ (requireRole roles r = Next r <-> In member roles)
    /\ (exists res, requireRole [owner] r = Respond res
                    /\ Res.status res = 403).
Proof.
  intros Hvalid.
  assert (E : authenticate_demo db now req
              = Some (Req.attach (demo_user acces)
                        (accesTemporaires.agenceId acces) req)).
  { apply authenticate_demo_Some. eauto. }
  eexists. split; [unfold authenticate; now rewrite E|].
  unfold requireRole. cbn [Req.attach Req.user demo_user User.role].
  split.
  - change "member" with (role_name member).
    destruct (includes roles (role_name member)) eqn:Hi; cbn [negb].
    + split; [intros _; now apply includes_In | reflexivity].
    + split; [discriminate|]. intros Hin. apply includes_In in Hin.
      congruence.
  - eexists. split; reflexivity.
Qed.

(** X9. A guard without roles lets nobody through, and permitting more
    roles never closes a route that was open. *)
Theorem requireRole_monotone (roles roles' : list Role) (req : Req.t) :
  (exists res, requireRole [] req = Respond res)
  /\ ((forall r, In r roles -> In r roles') ->
      requireRole roles req = Next req ->
      requireRole roles' req = Next req).
Proof.
  unfold requireRole. split.
  - destruct (Req.user req); simpl; eauto.
  - intros Hsub. destruct (Req.user req) as [u|]; [|discriminate].
    destruct (includes roles (User.role u)) eqn:Hi; [|discriminate].
    intros _. unfold includes in *. apply existsb_exists in Hi
      as (r & Hin & Heq).
    assert (Hi' : existsb (fun r0 => String.eqb (role_name r0) (User.role u))
                    roles' = true).
    { apply existsb_exists. exists r. auto. }
    now rewrite Hi'.
Qed.

End MiddlewareFacts.

(** ** routes/auth.ts: login and logout *)

Section LoginFacts.

Context `{RT : Runtime}.

(** A lookup through a rewriting that keeps the looked-up column. *)
Lemma find_map_stable {A} (p : A -> bool) (g : A -> A) (l : list A) :
  (forall x, p (g x) = p x) ->
  List.find p (List.map g l) = option_map g (List.find p l).
Proof.
  intros Hp. induction l as [|x l IH]; simpl; [reflexivity|].
  rewrite Hp. destruct (p x); [reflexivity | exact IH].
Qed.

Lemma account_of_set_derniereConnexion (d : Z) (u : utilisateurs.row) :
  account_of (utilisateurs.set_derniereConnexion d u) = account_of u.
Proof. reflexivity. Qed.

(** X10. A login that is not answered 200 writes nothing and sets no
    cookie.  A login answered 200 appends exactly one row to the session
    table and changes, in the accounts, nothing but dates of last login:
    the rows are the same, in the same order, in their twelve other
    columns, a date of last login is as before or the time of the login,
    and the other tables are untouched. *)
Theorem connexion_writes_only_on_success (db : Db.t) (now : Z)
    (sessionId : string) (req : Req.t) :
  let (res, db') := connexion db now sessionId req in
  (Res.status res <> 200 -> db' = db /\ Res.cookieOps res = [])
  /\ (Res.status res = 200 ->
      (exists session,
         Db.sessions db' = (Db.sessions db ++ [session])%list)
      /\ List.map account_of (Db.utilisateurs db')
         = List.map account_of (Db.utilisateurs db)
      /\ Forall2
           (fun u u' =>
              utilisateurs.derniereConnexion u'
              = utilisateurs.derniereConnexion u
              \/ utilisateurs.derniereConnexion u' = Some now)
           (Db.utilisateurs db) (Db.utilisateurs db')
      /\ Db.agences db' = Db.agences db
      /\ Db.superAdmins db' = Db.superAdmins db
      /\ Db.accesTemporaires db' = Db.accesTemporaires db).
Proof.
  unfold connexion.
  destruct (connexionSchema_parse (Req.body req)) as [[email password]|];
    [|split; [auto | discriminate]].
  destruct (user_by_email db email) as [user|];
    [|split; [auto | discriminate]].
  destruct (verifyPassword password (utilisateurs.motDePasseHash user));
    [|split; [auto | discriminate]].
  destruct (utilisateurs.emailVerifie user);
    [|split; [auto | discriminate]].
  destruct (utilisateurs.actif user);
    [|split; [auto | discriminate]].
  cbn [negb]. cbv zeta. split; [intros H; now contradiction H|].
  intros _. cbn.
  split; [eexists; reflexivity|]. split; [|split; [|auto]].
  - rewrite List.map_map. apply List.map_ext. intros u.
    destruct (String.eqb (utilisateurs.id u) (utilisateurs.id user));
      reflexivity.
  - induction (Db.utilisateurs db) as [|u l IH]; cbn; constructor.
    + destruct (String.eqb (utilisateurs.id u) (utilisateurs.id user));
        [right | left]; reflexivity.
    + exact IH.
Qed.



(** A request refused at [now] for want of a live session or of an
    active user stays refused later on the same store. *)
Lemma authenticate_token_401 (db : Db.t) (now : Z) (req : Req.t)
    (token userId : string) (payload : json) :
  Req.cookies req !! "auth_token" = Some token ->
  verifyJWT token now = Some payload ->
  json_str "userId" payload = Some userId ->
  (forall s, In s (Db.sessions db) -> session_of userId now s = false) ->
  exists res,
    authenticate_token db now req = Respond res /\ Res.status res = 401.
Proof.
  intros Hc Hv Hu Hnone. unfold authenticate_token. rewrite Hc.
  destruct (truthy (Some token)) as [t|] eqn:Ht; [|eauto].
  apply truthy_inv in Ht as [[= <-] _]. rewrite Hv, Hu.
  destruct (List.find (session_of userId now) (Db.sessions db))
    as [s|] eqn:E; [|eauto].
  apply find_some in E as [Hin Hs]. rewrite (Hnone s Hin) in Hs.
  discriminate.
Qed.

(** X12. Logout revokes when the token's session is the only live one:
    if every session of the user that is still unexpired at [now'] holds
    the digest of the presented token, then after the logout route ran
    at [now], a request with that token at [now'] is answered 401,
    though the JWT still verifies. *)
Theorem logout_revokes_last_session (db : Db.t) (now now' : Z)
    (req : Req.t) (token userId : string) (payload : json) :
  Req.cookies req !! "demo_token" = None ->
  Req.cookies req !! "auth_token" = Some token ->
  verifyJWT token now = Some payload ->
  verifyJWT token now' = Some payload ->
  json_str "userId" payload = Some userId ->
  now <= now' ->
  (forall s, In s (Db.sessions db) ->
             sessions.utilisateurId s = userId ->
             now' < sessions.dateExpiration s ->
             sessions.tokenHash s = hashToken token) ->
  exists res,
    authenticate (snd (deconnexion db now req)) now' req = Respond res
    /\ Res.status res = 401.
Proof.
  intros Hd Hc Hv Hv' Hu Hle Honly.
  unfold deconnexion, authenticate at 2.
  rewrite (authenticate_demo_no_cookie _ _ _ Hd).
  destruct (authenticate_token db now req) as [r|res] eqn:E.
  - apply authenticate_token_Next in E
      as (token0 & payload0 & userId0 & s0 & user0 & Hc0 & Hne & _ & _ & _
          & _ & _ & _ & _ & ->).
    rewrite Hc in Hc0. injection Hc0 as <-.
    unfold deconnexion_handler. cbn [Req.attach Req.cookies snd].
    rewrite Hc, (truthy_Some _ Hne).
    unfold authenticate. rewrite (authenticate_demo_no_cookie _ _ _ Hd).
    apply (authenticate_token_401 _ now' req token userId payload);
      try assumption.
    intros s Hin. apply delete_sessions_In in Hin as [Hin Hh].
    unfold session_of.
    destruct (String.eqb_spec (sessions.utilisateurId s) userId) as [Hs|];
      [|reflexivity].
    destruct (Z.ltb_spec now' (sessions.dateExpiration s)) as [Hlt|];
      [|reflexivity].
    exfalso. apply Hh. now apply Honly.
  - cbn [snd]. unfold authenticate.
    rewrite (authenticate_demo_no_cookie _ _ _ Hd).
    unfold authenticate_token in *. rewrite Hc in *.
    destruct (truthy (Some token)) as [t|] eqn:Ht; [|eauto].
    apply truthy_inv in Ht as [[= <-] _]. rewrite Hv' . rewrite Hv in E.
    rewrite Hu in *.
    destruct (List.find (session_of userId now') (Db.sessions db))
      as [s'|] eqn:E'; [|eauto].
    destruct (user_by_id db userId) as [user|] eqn:Hrow; [|eauto].
    destruct (utilisateurs.actif user) eqn:Hact; [|eauto].
    exfalso.
    destruct (List.find (session_of userId now) (Db.sessions db))
      as [s|] eqn:E0; [discriminate|].
    apply find_some in E' as [Hin Hs'].
    pose proof (find_none _ _ E0 s' Hin) as Hs.
    unfold session_of in *.
    apply andb_true_iff in Hs' as [Hid Hexp]. rewrite Hid in Hs.
    apply Z.ltb_lt in Hexp. cbn in Hs. apply Z.ltb_ge in Hs. lia.
Qed.

Lemma filter_idem {A} (p : A -> bool) (l : list A) :
  List.filter p (List.filter p l) = List.filter p l.
Proof.
  induction l as [|x l IH]; simpl; [reflexivity|].
  destruct (p x) eqn:E; simpl; [rewrite E|]; congruence.
Qed.

(** X13. On a request whose [auth_token] cookie is absent or a string
    the logout handler answers 200 and clears both cookies; it removes
    the session rows holding the digest of the presented token and
    nothing else, also when there is none, and running it again changes
    nothing more.  On a JSON cookie, a truthy value that is not a
    string, [hashToken] throws: the answer is 500, no cookie is cleared
    and no row is removed. *)
Theorem deconnexion_handler_idempotent (db : Db.t) (req : Req.t) :
  let (res, db') := deconnexion_handler db req in
  Res.status res = 200
  /\ Res.cookieOps res = [ClearCookie "auth_token"; ClearCookie "demo_token"]
  /\ snd (deconnexion_handler db' req) = db'
  /\ Db.utilisateurs db' = Db.utilisateurs db
  /\ Db.accesTemporaires db' = Db.accesTemporaires db
  /\ (forall s, In s (Db.sessions db')
                <-> In s (Db.sessions db)
                    /\ forall token,
                         truthy (Req.cookies req !! "auth_token") = Some token ->
                         sessions.tokenHash s <> hashToken token)
  /\ deconnexion_cookie (option_map JStr (Req.cookies req !! "auth_token")) db
     = (res, db')
  /\ forall v,
       json_truthy (Some v) = true ->
       (forall t, v <> JStr t) ->
       Res.status (fst (deconnexion_cookie (Some v) db)) = 500
       /\ Res.cookieOps (fst (deconnexion_cookie (Some v) db)) = []
       /\ snd (deconnexion_cookie (Some v) db) = db.
Proof.
  assert (Hjson : forall v,
            json_truthy (Some v) = true ->
            (forall t, v <> JStr t) ->
            Res.status (fst (deconnexion_cookie (Some v) db)) = 500
            /\ Res.cookieOps (fst (deconnexion_cookie (Some v) db)) = []
            /\ snd (deconnexion_cookie (Some v) db) = db).
  { intros v Hv Hns. unfold deconnexion_cookie. rewrite Hv.
    destruct v as [| b | z | t | l | l]; try (repeat split; fail).
    now contradiction (Hns t). }
  unfold deconnexion_handler, deconnexion_cookie. cbn [snd].
  destruct (Req.cookies req !! "auth_token") as [c|]; cbn [option_map truthy].
  - cbn [json_truthy]. destruct (String.eqb c "") eqn:Ec; cbn [negb].
    + do 5 (split; [reflexivity|]). split; [|split; [reflexivity | exact Hjson]].
      intros s. split; [|tauto]. intros Hin. split; [assumption|].
      discriminate.
    + do 2 (split; [reflexivity|]). split.
      { unfold delete_sessions. cbn. now rewrite filter_idem. }
      do 2 (split; [reflexivity|]).
      split; [|split; [reflexivity | exact Hjson]].
      intros s. rewrite delete_sessions_In. split.
      * intros [Hin Hh]. split; [assumption|]. now intros t [= <-].
      * intros [Hin Hh]. auto.
  - cbn [json_truthy]. do 5 (split; [reflexivity|]).
    split; [|split; [reflexivity | exact Hjson]].
    intros s. split; [|tauto]. intros Hin. split; [assumption|].
    discriminate.
Qed.

End LoginFacts.

(** *** Login and logout on the sample deployment *)


Lemma logout_revokes_last_session_witness :
  let db := Sample.db [Sample.session "s1" "jwt-ana-1" 9000] [] in
  let req := Sample.request {[ "auth_token" := "jwt-ana-1" ]} JNull in
  exists res,
    authenticate (RT := Sample.runtime)
      (snd (deconnexion (RT := Sample.runtime) db 100 req)) 200 req
    = Respond res
    /\ Res.status res = 401.
Proof.
  cbv zeta.
  apply (logout_revokes_last_session (RT := Sample.runtime)
           _ 100 200 _ "jwt-ana-1" "u-ana" Sample.ana_payload).
  - vm_compute. reflexivity.
  - vm_compute. reflexivity.
  - reflexivity.
  - reflexivity.
  - reflexivity.
  - lia.
  - intros s [<- | []] _ _. reflexivity.
Defined.

(** ** routes/auth.ts: sign-up and email verification *)

Section AccountFacts.

Context `{RT : Runtime}.

Lemma find_app_none {A} (p : A -> bool) (l l' : list A) :
  List.find p l = None -> List.find p (l ++ l') = List.find p l'.
Proof.
  induction l as [|x l IH]; simpl; [reflexivity|].
  destruct (p x); [discriminate | exact IH].
Qed.

Lemma find_all_false {A} (p : A -> bool) (l : list A) :
  (forall x, In x l -> p x = false) -> List.find p l = None.
Proof.
  intros H. induction l as [|x l IH]; simpl; [reflexivity|].
  rewrite (H x (or_introl eq_refl)). apply IH. intros y Hy.
  apply H. now right.
Qed.

(** The four checks of an accepted sign-up, and the store it leaves. *)
Lemma inscription_201 (db : Db.t) (now : Z)
    (agenceId userId motDePasseHash tokenVerification : string)
    (req : Req.t) (data : Inscription.t) :
  inscriptionSchema_parse (Req.body req) = Some data ->
  Res.status
    (fst (inscription db now agenceId userId motDePasseHash
            tokenVerification req)) = 201 ->
  isValid (validatePassword (Inscription.password data)) = true
  /\ user_by_email db (Inscription.email data) = None
  /\ agences_insertable (Db.agences db) (agence_row data agenceId) = true
  /\ utilisateurs_insertable (Db.utilisateurs db)
       (owner_row data userId agenceId motDePasseHash tokenVerification now)
     = true
  /\ snd (inscription db now agenceId userId motDePasseHash
            tokenVerification req)
     = Db.with_utilisateurs
         (Db.utilisateurs db
          ++ [owner_row data userId agenceId motDePasseHash
                tokenVerification now])
         (with_agences (Db.agences db ++ [agence_row data agenceId]) db).
Proof.
  intros Hp. unfold inscription. rewrite Hp. cbv zeta.
  destruct (isValid (validatePassword (Inscription.password data)));
    cbn [negb]; [|discriminate].
  destruct (user_by_email db (Inscription.email data)); [discriminate|].
  destruct (agences_insertable (Db.agences db) (agence_row data agenceId));
    cbn [negb]; [|discriminate].
  cbn [with_agences Db.utilisateurs].
  destruct (utilisateurs_insertable (Db.utilisateurs db)
              (owner_row data userId agenceId motDePasseHash
                 tokenVerification now));
    cbn [negb]; [|discriminate].
  intros _. repeat split.
Qed.

(** X14. A sign-up is answered 201 exactly when the body passes the
    schema, the password passes the strength policy, no account has the
    email and the two new rows fit the columns of [schema.ts]; the
    agency and its owner are then the two rows added.  Every other
    sign-up is answered 400 or 500.  One answered 400 writes nothing.
    One answered 500 passed the three checks and failed on an insert:
    on the first, nothing is written; on the second (a first name longer
    than 100 characters, say), the new agency stays in the store without
    an owner. *)
Theorem inscription_accepts_iff (db : Db.t) (now : Z)
    (agenceId userId motDePasseHash tokenVerification : string)
    (req : Req.t) :
  let (res, db') :=
    inscription db now agenceId userId motDePasseHash tokenVerification req in
  let checked data :=
    inscriptionSchema_parse (Req.body req) = Some data
    /\ isValid (validatePassword (Inscription.password data)) = true
    /\ user_by_email db (Inscription.email data) = None in
  let agence data := agence_row data agenceId in
  let user data :=
    owner_row data userId agenceId motDePasseHash tokenVerification now in
  (Res.status res = 201
   <-> exists data,
         checked data
         /\ agences_insertable (Db.agences db) (agence data) = true
         /\ utilisateurs_insertable (Db.utilisateurs db) (user data) = true)
  /\ (Res.status res = 201 ->
      exists data,
        checked data
        /\ db'
           = Db.with_utilisateurs (Db.utilisateurs db ++ [user data])
               (with_agences (Db.agences db ++ [agence data]) db))
  /\ (Res.status res = 201 \/ Res.status res = 400 \/ Res.status res = 500)
  /\ (Res.status res = 400 ->
      db' = db /\ forall data, ~ checked data)
  /\ (Res.status res = 500 ->
      exists data,
        checked data
        /\ ((agences_insertable (Db.agences db) (agence data) = false
             /\ db' = db)
            \/ (agences_insertable (Db.agences db) (agence data) = true
                /\ utilisateurs_insertable (Db.utilisateurs db) (user data)
                   = false
                /\ db'
                   = with_agences (Db.agences db ++ [agence data]) db))).
Proof.
  unfold inscription.
  destruct (inscriptionSchema_parse (Req.body req)) as [data|].
  2:{ cbv zeta. split; [|split; [|split; [|split]]].
      - split; [discriminate|]. intros (data & (H & _) & _). discriminate.
      - discriminate.
      - right. left. reflexivity.
      - intros _. split; [reflexivity|]. intros data (H & _). discriminate.
      - discriminate. }
  cbv zeta.
  destruct (isValid (validatePassword (Inscription.password data))) eqn:Hv;
    cbn [negb].
  2:{ split; [|split; [|split; [|split]]].
      - split; [discriminate|].
        intros (data' & ([= <-] & H & _) & _). congruence.
      - discriminate.
      - right. left. reflexivity.
      - intros _. split; [reflexivity|].
        intros data' ([= <-] & H & _). congruence.
      - discriminate. }
  destruct (user_by_email db (Inscription.email data)) as [u|] eqn:Hu.
  { split; [|split; [|split; [|split]]].
    - split; [discriminate|].
      intros (data' & ([= <-] & _ & H) & _). congruence.
    - discriminate.
    - right. left. reflexivity.
    - intros _. split; [reflexivity|].
      intros data' ([= <-] & _ & H). congruence.
    - discriminate. }
  destruct (agences_insertable (Db.agences db) (agence_row data agenceId))
    eqn:Ha; cbn [negb].
  2:{ split; [|split; [|split; [|split]]].
      - split; [discriminate|].
        intros (data' & ([= <-] & _ & _) & Hno & _). congruence.
      - discriminate.
      - right. right. reflexivity.
      - discriminate.
      - intros _. exists data. split; [repeat split; assumption|].
        left. split; [assumption | reflexivity]. }
  cbn [with_agences Db.utilisateurs].
  destruct (utilisateurs_insertable (Db.utilisateurs db)
              (owner_row data userId agenceId motDePasseHash
                 tokenVerification now)) eqn:Hi; cbn [negb].
  2:{ split; [|split; [|split; [|split]]].
      - split; [discriminate|].
        intros (data' & ([= <-] & _ & _) & _ & Hno). congruence.
      - discriminate.
      - right. right. reflexivity.
      - discriminate.
      - intros _. exists data. split; [repeat split; assumption|].
        right. repeat split; assumption. }
  split; [|split; [|split; [|split]]].
  - split; [|reflexivity]. intros _. exists data. repeat split; assumption.
  - intros _. exists data. repeat split; assumption.
  - left. reflexivity.
  - discriminate.
  - discriminate.
Qed.

(** The accounts after an accepted sign-up. *)
Lemma inscription_accepted (db : Db.t) (now : Z)
    (agenceId userId motDePasseHash tokenVerification : string)
    (req : Req.t) (data : Inscription.t) :
  inscriptionSchema_parse (Req.body req) = Some data ->
  Res.status
    (fst (inscription db now agenceId userId motDePasseHash
            tokenVerification req)) = 201 ->
  Db.utilisateurs
    (snd (inscription db now agenceId userId motDePasseHash
            tokenVerification req))
  = (Db.utilisateurs db
     ++ [owner_row data userId agenceId motDePasseHash tokenVerification
           now])%list.
Proof.
  intros Hp H201.
  destruct (inscription_201 _ _ _ _ _ _ _ _ Hp H201) as (_ & _ & _ & _ & ->).
  reflexivity.
Qed.

Lemma inscriptionSchema_parse_email (body : json) (data : Inscription.t) :
  inscriptionSchema_parse body = Some data ->
  zod_email (Inscription.email data) = true.
Proof.
  unfold inscriptionSchema_parse.
  destruct (json_str "prenom" body); [|discriminate].
  destruct (json_str "nom" body); [|discriminate].
  destruct (json_str "email" body); [|discriminate].
  destruct (json_str "password" body); [|discriminate].
  destruct (json_str "confirmPassword" body); [|discriminate].
  destruct (json_str "nomAgence" body); [|discriminate].
  match goal with |- (if ?c then _ else _) = _ -> _ =>
    destruct c eqn:Hc; [|discriminate] end.
  intros [= <-]. cbn.
  repeat (apply andb_true_iff in Hc as [Hc ?]). assumption.
Qed.

(** X15. After an accepted sign-up the new account is an unverified,
    active owner of the new agency, and a login with the credentials
    just chosen is answered 403 with [needsEmailVerification] and
    creates no session. *)
Theorem inscription_then_login_needs_verification (db : Db.t) (now : Z)
    (agenceId userId motDePasseHash tokenVerification : string)
    (req : Req.t) (data : Inscription.t) :
  inscriptionSchema_parse (Req.body req) = Some data ->
  Res.status
    (fst (inscription db now agenceId userId motDePasseHash
            tokenVerification req)) = 201 ->
  bcrypt_compare (Inscription.password data) motDePasseHash = true ->
  let db' :=
    snd (inscription db now agenceId userId motDePasseHash
           tokenVerification req) in
  (exists user,
     user_by_email db' (Inscription.email data) = Some user
     /\ utilisateurs.role user = role_name owner
     /\ utilisateurs.agenceId user = agenceId
     /\ utilisateurs.emailVerifie user = false
     /\ utilisateurs.actif user = true)
  /\ forall now' sessionId req2,
       Req.body req2
       = JObj [("email", JStr (Inscription.email data));
               ("password", JStr (Inscription.password data))] ->
       connexion db' now' sessionId req2
       = (Res.json 403
            (JObj [("error",
                    JStr "Veuillez vérifier votre email avant de vous connecter");
                   ("needsEmailVerification", JBool true)]), db').
Proof.
  intros Hp H201 Hpw. cbv zeta.
  destruct (inscription_201 _ _ _ _ _ _ _ _ Hp H201) as (_ & Hu & _).
  assert (Hrow :
    user_by_email
      (snd (inscription db now agenceId userId motDePasseHash
              tokenVerification req)) (Inscription.email data)
    = Some (owner_row data userId agenceId motDePasseHash tokenVerification
              now)).
  { unfold user_by_email.
    rewrite (inscription_accepted _ _ _ _ _ _ _ data Hp H201).
    rewrite find_app_none by exact Hu. cbn. now rewrite String.eqb_refl. }
  split.
  - eexists. split; [exact Hrow|]. repeat split.
  - intros now' sessionId req2 Hbody. unfold connexion.
    assert (Hparse : connexionSchema_parse (Req.body req2)
                     = Some (Inscription.email data,
                             Inscription.password data)).
    { rewrite Hbody. unfold connexionSchema_parse. cbn.
      now rewrite (inscriptionSchema_parse_email _ _ Hp). }
    rewrite Hparse, Hrow. unfold verifyPassword. cbn.
    now rewrite Hpw.
Qed.

End AccountFacts.

Section VerificationFacts.

Context `{RT : Runtime}.

Lemma awaits_verification_verifie (token : string) (u : utilisateurs.row) :
  awaits_verification token (verifie u) = false.
Proof. reflexivity. Qed.

(** The rows rewritten by a verification. *)
Lemma verifier_email_accepted (db : Db.t) (now : Z) (token : string)
    (user : utilisateurs.row) :
  List.find (awaits_verification token) (Db.utilisateurs db) = Some user ->
  now - utilisateurs.dateCreation user <= ONE_DAY ->
  verifier_email db now token
  = (Res.json 200
       (JObj [("message",
               JStr "Email vérifié avec succès ! Vous pouvez maintenant vous connecter.");
              ("success", JBool true)]),
     Db.with_utilisateurs
       (update_where
          (fun u => String.eqb (utilisateurs.id u) (utilisateurs.id user))
          verifie (Db.utilisateurs db)) db).
Proof.
  intros Hfind Hage. unfold verifier_email. rewrite Hfind. cbv zeta.
  rewrite Z.gtb_ltb. apply Z.ltb_ge in Hage. now rewrite Hage.
Qed.

(** X18. The verification link is good for 24 hours after the creation
    of the account, bounds included: up to that age the call is answered
    200 and every row of the account's id is verified and loses its
    token; past it the call is answered 400 and writes nothing. *)
Theorem verification_window (db : Db.t) (now : Z) (token : string)
    (user : utilisateurs.row) :
  List.find (awaits_verification token) (Db.utilisateurs db) = Some user ->
  (now - utilisateurs.dateCreation user <= ONE_DAY ->
   Res.status (fst (verifier_email db now token)) = 200
   /\ forall u,
        In u (Db.utilisateurs (snd (verifier_email db now token))) ->
        utilisateurs.id u = utilisateurs.id user ->
        utilisateurs.emailVerifie u = true
        /\ utilisateurs.tokenVerification u = None)
  /\ (ONE_DAY < now - utilisateurs.dateCreation user ->
      verifier_email db now token
      = (Res.err 400
           "Token de vérification expiré. Demandez un nouvel email.", db)).
Proof.
  intros Hfind. split.
  - intros Hage. rewrite (verifier_email_accepted _ _ _ _ Hfind Hage).
    split; [reflexivity|]. cbn. intros u Hin Hid.
    unfold update_where in Hin. apply in_map_iff in Hin as (u0 & <- & _).
    destruct (String.eqb (utilisateurs.id u0) (utilisateurs.id user)) eqn:E.
    + split; reflexivity.
    + apply String.eqb_neq in E. contradiction.
  - intros Hage. unfold verifier_email. rewrite Hfind. cbv zeta.
    rewrite Z.gtb_ltb. apply Z.ltb_lt in Hage. now rewrite Hage.
Qed.

(** X17. A verification token works once: after a call answered 200,
    every later call with the same token is answered 400 and writes
    nothing, provided the token was awaited by the rows of one account
    id only. *)
Theorem verification_single_use (db : Db.t) (now now' : Z)
    (token : string) :
  Res.status (fst (verifier_email db now token)) = 200 ->
  (forall u u',
     In u (Db.utilisateurs db) -> In u' (Db.utilisateurs db) ->
     awaits_verification token u = true ->
     awaits_verification token u' = true ->
     utilisateurs.id u = utilisateurs.id u') ->
  let db' := snd (verifier_email db now token) in
  verifier_email db' now' token
  = (Res.err 400 "Token de vérification invalide ou déjà utilisé", db').
Proof.
  intros Hok Huniq. cbv zeta.
  destruct (List.find (awaits_verification token) (Db.utilisateurs db))
    as [user|] eqn:Hfind.
  2:{ unfold verifier_email in Hok. rewrite Hfind in Hok. discriminate. }
  destruct (Z.ltb_spec ONE_DAY (now - utilisateurs.dateCreation user))
    as [Hage|Hage].
  { unfold verifier_email in Hok. rewrite Hfind in Hok. cbv zeta in Hok.
    rewrite Z.gtb_ltb in Hok. apply Z.ltb_lt in Hage. rewrite Hage in Hok.
    discriminate. }
  rewrite (verifier_email_accepted _ _ _ _ Hfind Hage). cbn [snd].
  unfold verifier_email. cbn [Db.with_utilisateurs Db.utilisateurs].
  rewrite find_all_false; [reflexivity|].
  intros u Hin. unfold update_where in Hin.
  apply in_map_iff in Hin as (u0 & <- & Hin0).
  apply find_some in Hfind as [Hin Haw].
  destruct (String.eqb (utilisateurs.id u0) (utilisateurs.id user)) eqn:E.
  - apply awaits_verification_verifie.
  - destruct (awaits_verification token u0) eqn:Haw0; [|reflexivity].
    apply String.eqb_neq in E. exfalso. apply E.
    now apply Huniq.
Qed.


End VerificationFacts.

(** *** Sign-up and verification on the sample deployment *)

(** A first name of 101 characters passes the schema and the checks;
    the agency is inserted, the owner row is refused by [varchar(100)]:
    the answer is 500 and the agency stays without an owner. *)
Lemma inscription_accepts_iff_witness :
  let req := Sample.request ∅ Sample2.signup_long in
  let out :=
    inscription (RT := Sample.runtime) Sample2.empty 0 "ag-1" "u-ana"
      "bcrypt:Abcd1234!" "verif-1" req in
  String.length Sample2.long_prenom = 101%nat
  /\ Res.status (fst out) = 500
  /\ Db.agences (snd out)
     = [{| agences.id := "ag-1"; agences.nom := "Ana Agency";
           agences.plan := "free"; agences.demo := false |}]
  /\ Db.utilisateurs (snd out) = []
  /\ exists data,
       inscriptionSchema_parse (RT := Sample.runtime) (Req.body req)
       = Some data
       /\ Inscription.prenom data = Sample2.long_prenom
       /\ agences_insertable [] (agence_row data "ag-1") = true
       /\ utilisateurs_insertable []
            (owner_row data "u-ana" "ag-1" "bcrypt:Abcd1234!" "verif-1" 0)
          = false.
Proof.
  cbv zeta. do 4 (split; [vm_compute; reflexivity|]).
  pose proof (inscription_accepts_iff (RT := Sample.runtime) Sample2.empty 0
                "ag-1" "u-ana" "bcrypt:Abcd1234!" "verif-1"
                (Sample.request ∅ Sample2.signup_long)) as H.
  destruct (inscription (RT := Sample.runtime) Sample2.empty 0 "ag-1" "u-ana"
              "bcrypt:Abcd1234!" "verif-1"
              (Sample.request ∅ Sample2.signup_long)) as [res db'] eqn:E.
  assert (H500 : Res.status res = 500).
  { change res with (fst (res, db')). rewrite <- E. vm_compute. reflexivity. }
  cbv zeta in H. destruct H as (_ & _ & _ & _ & H).
  destruct (H H500) as (data & (Hp & _ & _) & [[Ha _] | (Ha & Hi & _)]).
  - exfalso. revert Ha. cbn [Db.agences Sample2.empty].
    unfold agences_insertable, agence_row. cbn [agences.id agences.nom
      agences.plan existsb negb]. rewrite andb_true_r.
    assert (Hn : Inscription.nomAgence data = "Ana Agency").
    { revert Hp. vm_compute. intros [= <-]. reflexivity. }
    rewrite Hn. vm_compute. discriminate.
  - exists data. split; [exact Hp|]. split.
    + revert Hp. vm_compute. intros [= <-]. reflexivity.
    + split; [exact Ha | exact Hi].
Defined.

Lemma inscription_then_login_needs_verification_witness :
  (exists user,
     user_by_email Sample2.signed_up "ana@x.com" = Some user
     /\ utilisateurs.role user = "owner"
     /\ utilisateurs.agenceId user = "ag-1"
     /\ utilisateurs.emailVerifie user = false
     /\ utilisateurs.actif user = true)
  /\ forall now' sessionId req2,
       Req.body req2 = Sample.credentials "ana@x.com" "Abcd1234!" ->
       connexion (RT := Sample.runtime) Sample2.signed_up now' sessionId req2
       = (Res.json 403
            (JObj [("error",
                    JStr "Veuillez vérifier votre email avant de vous connecter");
                   ("needsEmailVerification", JBool true)]),
          Sample2.signed_up).
Proof.
  apply (inscription_then_login_needs_verification (RT := Sample.runtime)
           Sample2.empty 0 "ag-1" "u-ana" "bcrypt:Abcd1234!" "verif-1"
           (Sample.request ∅ Sample2.signup) Sample2.signup_data);
    reflexivity.
Defined.

Lemma verification_window_witness :
  Res.status (fst (verifier_email Sample2.signed_up 86400000 "verif-1")) = 200
  /\ verifier_email Sample2.signed_up 86400001 "verif-1"
     = (Res.err 400
          "Token de vérification expiré. Demandez un nouvel email.",
        Sample2.signed_up).
Proof.
  pose proof (verification_window Sample2.signed_up 86400000 "verif-1"
                (owner_row Sample2.signup_data "u-ana" "ag-1"
                   "bcrypt:Abcd1234!" "verif-1" 0) eq_refl) as [H _].
  pose proof (verification_window Sample2.signed_up 86400001 "verif-1"
                (owner_row Sample2.signup_data "u-ana" "ag-1"
                   "bcrypt:Abcd1234!" "verif-1" 0) eq_refl) as [_ H'].
  split.
  - apply H. vm_compute. discriminate.
  - apply H'. reflexivity.
Defined.

Lemma verification_single_use_witness :
  let db' := snd (verifier_email Sample2.signed_up 1000 "verif-1") in
  verifier_email db' 2000 "verif-1"
  = (Res.err 400 "Token de vérification invalide ou déjà utilisé", db').
Proof.
  cbv zeta.
  apply (verification_single_use Sample2.signed_up 1000 2000 "verif-1").
  - reflexivity.
  - intros u u' [<- | []] [<- | []] _ _. reflexivity.
Defined.


(** ** routes/acces-temporaires.ts and routes/demo.ts *)

Section GrantFacts.

Context `{RT : Runtime}.

(** What every handed-on request carries. *)
Lemma authenticate_Next_agence (db : Db.t) (now : Z) (req r : Req.t) :
  authenticate db now req = Next r ->
  exists u,
    Req.user r = Some u
    /\ Req.agenceId r = Some (User.agenceId u)
    /\ Req.cookies r = Req.cookies req.
Proof.
  unfold authenticate.
  destruct (authenticate_demo db now req) as [r'|] eqn:E.
  - intros [= <-]. apply authenticate_demo_Some in E as (acces & _ & ->).
    exists (demo_user acces). repeat split.
  - intros H. apply authenticate_token_Next in H
      as (token & payload & userId & s & user & _ & _ & _ & _ & _ & _ & _
          & _ & _ & ->).
    exists (real_user user). repeat split.
Qed.

(** X22. The list of grants is scoped to the caller's tenant: for a
    request [authenticate] hands on, the answer is 200 and holds the
    grants of the store whose agency is the one of the attached
    identity, all of them and no other. *)
Theorem acces_liste_tenant_isolation (db : Db.t) (now : Z)
    (req r : Req.t) :
  authenticate db now req = Next r ->
  exists u rows,
    Req.user r = Some u
    /\ acces_liste db now req
       = Res.json 200 (JArr (List.map acces_json rows))
    /\ forall a,
         In a rows
         <-> In a (Db.accesTemporaires db)
             /\ accesTemporaires.agenceId a = User.agenceId u.
Proof.
  intros H. destruct (authenticate_Next_agence _ _ _ _ H)
    as (u & Hu & Ha & _).
  exists u, (acces_of_agence db (User.agenceId u)).
  split; [assumption|]. split.
  - unfold acces_liste. now rewrite H, Ha.
  - intros a. unfold acces_of_agence. rewrite filter_In.
    now rewrite String.eqb_eq.
Qed.

(** X19. A grant of another tenant cannot be revoked: when no grant of
    the given id belongs to the caller's agency, the answer is 404 and
    nothing is written, whether or not the id exists elsewhere. *)
Theorem acces_revoquer_other_tenant (db : Db.t) (now : Z) (id : string)
    (req r : Req.t) (agenceId : string) :
  authenticate db now req = Next r ->
  Req.agenceId r = Some agenceId ->
  (forall a, In a (Db.accesTemporaires db) ->
             accesTemporaires.id a = id ->
             accesTemporaires.agenceId a <> agenceId) ->
  acces_revoquer db now id req = (Res.err 404 "Accès non trouvé", db).
Proof.
  intros H Ha Hother. unfold acces_revoquer. rewrite H, Ha.
  rewrite find_all_false; [reflexivity|].
  intros a Hin. apply andb_false_iff.
  destruct (String.eqb_spec (accesTemporaires.id a) id) as [Hid|];
    [|now left].
  right. apply String.eqb_neq. now apply Hother.
Qed.

(** The store after an accepted revocation. *)
Lemma acces_revoquer_accepted (db : Db.t) (now : Z) (id : string)
    (req r : Req.t) (acces : accesTemporaires.row) :
  authenticate db now req = Next r ->
  Req.agenceId r = Some (accesTemporaires.agenceId acces) ->
  acces_by_id db id = Some acces ->
  acces_revoquer db now id req
  = (Res.json 200 (JObj [("message", JStr "Accès révoqué avec succès")]),
     with_accesTemporaires
       (update_where (fun a => String.eqb (accesTemporaires.id a) id)
          revoque (Db.accesTemporaires db)) db).
Proof.
  intros H Ha Hrow. unfold acces_revoquer. rewrite H, Ha.
  pose proof (acces_by_id_id _ _ _ Hrow) as Hid.
  unfold acces_by_id in Hrow. apply find_some in Hrow as [Hin _].
  destruct (find_In
              (fun a =>
                 String.eqb (accesTemporaires.id a) id
                 && String.eqb (accesTemporaires.agenceId a)
                      (accesTemporaires.agenceId acces))
              (Db.accesTemporaires db) acces Hin) as [y ->];
    [|reflexivity].
  now rewrite Hid, !String.eqb_refl.
Qed.

Lemma revoque_stable_id (id id' : string) (a : accesTemporaires.row) :
  String.eqb
    (accesTemporaires.id
       (if String.eqb (accesTemporaires.id a) id then revoque a else a)) id'
  = String.eqb (accesTemporaires.id a) id'.
Proof. destruct (String.eqb (accesTemporaires.id a) id); reflexivity. Qed.

Lemma revoque_stable_token (id token : string) (a : accesTemporaires.row) :
  String.eqb
    (accesTemporaires.token
       (if String.eqb (accesTemporaires.id a) id then revoque a else a)) token
  = String.eqb (accesTemporaires.token a) token.
Proof. destruct (String.eqb (accesTemporaires.id a) id); reflexivity. Qed.

(** X20. Revocation takes effect everywhere at once and keeps the row:
    after the owner's agency revoked a grant, the row is still found by
    its token with only its active flag changed, the three token
    endpoints answer 403 at any time, and no demo cookie naming the
    grant is valid for [authenticate] any more. *)
Theorem acces_revoquer_then_rejected (db : Db.t) (now : Z) (id : string)
    (req r : Req.t) (acces : accesTemporaires.row) :
  authenticate db now req = Next r ->
  Req.agenceId r = Some (accesTemporaires.agenceId acces) ->
  acces_by_id db id = Some acces ->
  acces_by_token db (accesTemporaires.token acces) = Some acces ->
  let (res, db') := acces_revoquer db now id req in
  Res.status res = 200
  /\ acces_by_token db' (accesTemporaires.token acces)
     = Some (revoque acces)
  /\ (forall now',
        Res.status (demo_validate db' now' (accesTemporaires.token acces))
        = 403
        /\ Res.status (demo_access db' now' (accesTemporaires.token acces))
           = 403
        /\ Res.status (valider db' now' (accesTemporaires.token acces))
           = 403)
  /\ (forall now' req2 acces',
        demo_grant_valid db' now' req2 acces' ->
        accesTemporaires.id acces' <> id).
Proof.
  intros H Ha Hrow Htok.
  rewrite (acces_revoquer_accepted _ _ _ _ _ _ H Ha Hrow).
  pose proof (acces_by_id_id _ _ _ Hrow) as Hid.
  assert (Htok' :
    acces_by_token
      (with_accesTemporaires
         (update_where (fun a => String.eqb (accesTemporaires.id a) id)
            revoque (Db.accesTemporaires db)) db)
      (accesTemporaires.token acces) = Some (revoque acces)).
  { unfold acces_by_token in *. cbn. unfold update_where.
    rewrite find_map_stable by (intros a; apply revoque_stable_token).
    rewrite Htok. cbn. now rewrite Hid, String.eqb_refl. }
  split; [reflexivity|]. split; [exact Htok'|]. split.
  - intros now'.
    destruct (endpoints_status
                (with_accesTemporaires
                   (update_where
                      (fun a => String.eqb (accesTemporaires.id a) id)
                      revoque (Db.accesTemporaires db)) db)
                now' (accesTemporaires.token acces)) as (-> & -> & ->).
    unfold decision. rewrite Htok'. auto.
  - intros now' req2 acces'
      (demoToken & decoded & _ & _ & _ & _ & _ & Hrow' & Hact & _) Heq.
    unfold acces_by_id in Hrow', Hrow. cbn in Hrow'.
    unfold update_where in Hrow'.
    rewrite find_map_stable in Hrow' by (intros a; apply revoque_stable_id).
    rewrite Heq, Hrow in Hrow'. cbn in Hrow'.
    rewrite Hid, String.eqb_refl in Hrow'. injection Hrow' as <-.
    discriminate.
Qed.

(** X21. Revocation touches one grant: whatever the outcome of the call,
    no row is removed, accounts and sessions are as before, and every
    grant of another id is found as before and gets the same answer
    from the token endpoints. *)
Theorem acces_revoquer_frame (db : Db.t) (now : Z) (id : string)
    (req : Req.t) :
  let db' := snd (acces_revoquer db now id req) in
  length (Db.accesTemporaires db') = length (Db.accesTemporaires db)
  /\ Db.utilisateurs db' = Db.utilisateurs db
  /\ Db.sessions db' = Db.sessions db
  /\ forall now' token acces,
       acces_by_token db token = Some acces ->
       accesTemporaires.id acces <> id ->
       acces_by_token db' token = Some acces
       /\ decision db' now' token = decision db now' token.
Proof.
  cbv zeta. unfold acces_revoquer.
  destruct (authenticate db now req) as [r|res]; [|cbn; auto 6].
  destruct (Req.agenceId r) as [agenceId|]; [|cbn; auto 6].
  destruct (List.find _ (Db.accesTemporaires db)); [|cbn; auto 6].
  cbn [snd with_accesTemporaires Db.accesTemporaires Db.utilisateurs
       Db.sessions].
  split; [unfold update_where; apply length_map|].
  do 2 (split; [reflexivity|]).
  intros now' token acces Htok Hid.
  assert (Htok' :
    acces_by_token
      (with_accesTemporaires
         (update_where (fun a => String.eqb (accesTemporaires.id a) id)
            revoque (Db.accesTemporaires db)) db) token = Some acces).
  { unfold acces_by_token in *. cbn. unfold update_where.
    rewrite find_map_stable by (intros a; apply revoque_stable_token).
    rewrite Htok. cbn. apply String.eqb_neq in Hid. now rewrite Hid. }
  split; [exact Htok'|]. unfold decision. now rewrite Htok', Htok.
Qed.

(** X23. Exchange and [authenticate] fit together: the cookie set by an
    exchange answered 200 is the token signed for the grant, and when
    the JWT library gives back its [type] and [accesId], requests
    carrying it are handed on as the virtual member of the grant's
    tenant for as long as the grant, found by its id, stays active and
    unexpired. *)
Theorem exchange_then_authenticate (db db2 : Db.t) (now now' : Z)
    (token : string) (acces : accesTemporaires.row) (req2 : Req.t)
    (decoded : json) :
  acces_by_token db token = Some acces ->
  Res.status (demo_access db now token) = 200 ->
  let demoToken :=
    jwt_sign
      (JObj [("type", JStr "demo");
             ("accesId", JStr (accesTemporaires.id acces));
             ("agenceId", JStr (accesTemporaires.agenceId acces));
             ("nom", JStr (accesTemporaires.nom acces))])
      JWT_SECRET "24h" now in
  Res.cookieOps (demo_access db now token)
  = [SetCookie "demo_token" demoToken demo_cookie_options]
  /\ (Req.cookies req2 !! "demo_token" = Some demoToken ->
      demoToken <> "" ->
      jwt_verify demoToken JWT_SECRET now' = Some decoded ->
      json_get "type" decoded = Some (JStr "demo") ->
      json_get "accesId" decoded
      = Some (JStr (accesTemporaires.id acces)) ->
      acces_by_id db2 (accesTemporaires.id acces) = Some acces ->
      not_expired (accesTemporaires.dateExpiration acces) now' = true ->
      authenticate db2 now' req2
      = Next (Req.attach (demo_user acces)
                (accesTemporaires.agenceId acces) req2)).
Proof.
  intros Htok Hok. cbv zeta. split.
  - revert Hok. unfold demo_access. rewrite Htok.
    destruct (negb (accesTemporaires.actif acces)); [discriminate|].
    destruct (match accesTemporaires.dateExpiration acces with
              | Some d => d <? now
              | None => false
              end); [discriminate|].
    reflexivity.
  - intros Hc Hne Hv Ht Ha Hrow Hexp.
    assert (Hact : accesTemporaires.actif acces = true).
    { revert Hok. unfold demo_access. rewrite Htok.
      destruct (accesTemporaires.actif acces); [reflexivity|discriminate]. }
    assert (E : authenticate_demo db2 now' req2
                = Some (Req.attach (demo_user acces)
                          (accesTemporaires.agenceId acces) req2)).
    { apply authenticate_demo_Some. exists acces. split; [|reflexivity].
      eexists; exists decoded. repeat split; try eassumption.
      now apply not_expired_iff. }
    unfold authenticate. now rewrite E.
Qed.

End GrantFacts.

(** ** routes/admin-auth.ts *)

Section AdminFacts.

Context `{RT : Runtime}.

Variable toLowerCase : string -> string.

(** What an acceptance by [requireAdmin] tells. *)
Lemma requireAdmin_Next (db : Db.t) (now : Z) (req r : Req.t) :
  requireAdmin db now req = Next r ->
  exists token decoded id admin,
    Req.cookies req !! "admin_token" = Some token
    /\ token <> ""
    /\ jwt_verify token JWT_SECRET now = Some decoded
    /\ json_get "type" decoded = Some (JStr "admin")
    /\ json_get "id" decoded = Some (JStr id)
    /\ admin_by_id db id = Some admin
    /\ superAdmins.actif admin = true
    /\ r = Req.attach_admin admin req.
Proof.
  unfold requireAdmin, admin_by_id.
  destruct (truthy (Req.cookies req !! "admin_token")) as [token|] eqn:Hc;
    [|discriminate].
  apply truthy_inv in Hc as [Hc Hne].
  destruct (jwt_verify token JWT_SECRET now) as [decoded|] eqn:Hv;
    [|discriminate].
  destruct (json_is "type" "admin" decoded) eqn:Ht; cbn [negb];
    [|discriminate].
  apply json_is_true in Ht.
  destruct (json_str "id" decoded) as [id|] eqn:Hi; [|discriminate].
  apply json_str_Some in Hi.
  destruct (List.find _ (Db.superAdmins db)) as [admin|] eqn:Hrow;
    [|discriminate].
  destruct (superAdmins.actif admin) eqn:Hact; [|discriminate].
  intros [= <-]. exists token, decoded, id, admin. auto 10.
Qed.

Lemma requireAdmin_accepts (db : Db.t) (now : Z) (req : Req.t)
    (token id : string) (decoded : json) (admin : superAdmins.row) :
  Req.cookies req !! "admin_token" = Some token ->
  token <> "" ->
  jwt_verify token JWT_SECRET now = Some decoded ->
  json_get "type" decoded = Some (JStr "admin") ->
  json_get "id" decoded = Some (JStr id) ->
  admin_by_id db id = Some admin ->
  superAdmins.actif admin = true ->
  requireAdmin db now req = Next (Req.attach_admin admin req).
Proof.
  intros Hc Hne Hv Ht Hi Hrow Hact. unfold requireAdmin.
  apply json_is_true in Ht. apply json_str_Some in Hi.
  unfold admin_by_id in Hrow.
  now rewrite Hc, (truthy_Some _ Hne), Hv, Ht, Hi, Hrow, Hact.
Qed.

(** X26. [requireAdmin] hands a request on exactly when its
    [admin_token] cookie is a non-empty token that verifies with type
    [admin] and names, by id, an operator row that is active; that row
    is attached as [req.admin].  Every refusal is a 401. *)
Theorem requireAdmin_accepts_iff (db : Db.t) (now : Z) (req : Req.t) :
  (forall r,
     requireAdmin db now req = Next r
     <-> exists token decoded id admin,
           Req.cookies req !! "admin_token" = Some token
           /\ token <> ""
           /\ jwt_verify token JWT_SECRET now = Some decoded
           /\ json_get "type" decoded = Some (JStr "admin")
           /\ json_get "id" decoded = Some (JStr id)
           /\ admin_by_id db id = Some admin
           /\ superAdmins.actif admin = true
           /\ r = Req.attach_admin admin req)
  /\ (forall res, requireAdmin db now req = Respond res ->
                  Res.status res = 401).
Proof.
  split.
  - intros r. split; [apply requireAdmin_Next|].
    intros (token & decoded & id & admin & Hc & Hne & Hv & Ht & Hi & Hrow
            & Hact & ->).
    eauto using requireAdmin_accepts.
  - intros res. unfold requireAdmin.
    destruct (truthy (Req.cookies req !! "admin_token"));
      [|now intros [= <-]].
    destruct (jwt_verify s JWT_SECRET now) as [decoded|];
      [|now intros [= <-]].
    destruct (negb (json_is "type" "admin" decoded)); [now intros [= <-]|].
    destruct (json_str "id" decoded); [|now intros [= <-]].
    destruct (List.find _ (Db.superAdmins db)) as [admin|];
      [|now intros [= <-]].
    destruct (superAdmins.actif admin); [discriminate | now intros [= <-]].
Qed.

(** X27. The operator's who-am-I endpoint and the operator guard agree:
    [GET /api/admin/auth/moi] answers 200 exactly when [requireAdmin]
    hands the same request on, and 401 otherwise. *)
Theorem admin_moi_agrees_with_requireAdmin (db : Db.t) (now : Z)
    (req : Req.t) :
  (Res.status (admin_moi db now req) = 200
   <-> exists r, requireAdmin db now req = Next r)
  /\ (Res.status (admin_moi db now req) = 200
      \/ Res.status (admin_moi db now req) = 401).
Proof.
  unfold admin_moi, requireAdmin, admin_by_id.
  destruct (truthy (Req.cookies req !! "admin_token")).
  2:{ split; [split; [discriminate | intros [r H]; discriminate] | auto]. }
  destruct (jwt_verify s JWT_SECRET now) as [decoded|].
  2:{ split; [split; [discriminate | intros [r H]; discriminate] | auto]. }
  destruct (negb (json_is "type" "admin" decoded)).
  { split; [split; [discriminate | intros [r H]; discriminate] | auto]. }
  destruct (json_str "id" decoded).
  2:{ split; [split; [discriminate | intros [r H]; discriminate] | auto]. }
  destruct (List.find _ (Db.superAdmins db)) as [admin|].
  2:{ split; [split; [discriminate | intros [r H]; discriminate] | auto]. }
  destruct (superAdmins.actif admin).
  - split; [split; [eauto | reflexivity] | auto].
  - split; [split; [discriminate | intros [r H]; discriminate] | auto].
Qed.

(** X28. [requireAdmin] reads the [admin_token] cookie, the clock and
    the operator table, and nothing else: two stores with the same
    operator table and two requests with the same [admin_token] get the
    same decision, the same refusal and the same attached operator.
    There is no operator session to delete: logout only clears the
    cookie in the browser. *)
Theorem requireAdmin_frame (db db' : Db.t) (now : Z) (req req' : Req.t) :
  Db.superAdmins db = Db.superAdmins db' ->
  Req.cookies req !! "admin_token" = Req.cookies req' !! "admin_token" ->
  match requireAdmin db now req, requireAdmin db' now req' with
  | Next r, Next r' => Req.admin r = Req.admin r'
  | Respond res, Respond res' => res = res'
  | _, _ => False
  end.
Proof.
  intros Hsa Hc. unfold requireAdmin. rewrite <- Hsa, <- Hc.
  destruct (truthy (Req.cookies req !! "admin_token")); [|reflexivity].
  destruct (jwt_verify s JWT_SECRET now) as [decoded|]; [|reflexivity].
  destruct (negb (json_is "type" "admin" decoded)); [reflexivity|].
  destruct (json_str "id" decoded); [|reflexivity].
  destruct (List.find _ (Db.superAdmins db)) as [admin|]; [|reflexivity].
  destruct (superAdmins.actif admin); reflexivity.
Qed.

(** X24. An operator login that is not answered 200 writes nothing and
    sets no cookie, and an unknown email and a wrong password of an
    active operator get the same 401 body. *)
Theorem admin_connexion_failures (db : Db.t) (now : Z) (req : Req.t)
    (e p : string) :
  (Res.status (fst (admin_connexion toLowerCase db now req)) <> 200 ->
   snd (admin_connexion toLowerCase db now req) = db
   /\ Res.cookieOps (fst (admin_connexion toLowerCase db now req)) = [])
  /\ (json_get "email" (Req.body req) = Some (JStr e) -> e <> "" ->
      json_get "motDePasse" (Req.body req) = Some (JStr p) -> p <> "" ->
      List.find
        (fun a => String.eqb (superAdmins.email a) (toLowerCase e))
        (Db.superAdmins db) = None
      \/ (exists admin,
            List.find
              (fun a => String.eqb (superAdmins.email a) (toLowerCase e))
              (Db.superAdmins db) = Some admin
            /\ superAdmins.actif admin = true
            /\ bcrypt_compare p (superAdmins.motDePasse admin) = false) ->
      admin_connexion toLowerCase db now req
      = (Res.err 401 "Email ou mot de passe incorrect", db)).
Proof.
  split.
  - unfold admin_connexion. cbv zeta.
    destruct (negb (json_truthy (json_get "email" (Req.body req)))
              || negb (json_truthy (json_get "motDePasse" (Req.body req))));
      [auto|].
    destruct (json_get "email" (Req.body req)) as [[| | |s| |]|]; auto.
    destruct (List.find _ (Db.superAdmins db)) as [admin|]; [|auto].
    destruct (negb (superAdmins.actif admin)); [auto|].
    destruct (json_get "motDePasse" (Req.body req)) as [[| | |s'| |]|]; auto.
    destruct (negb (bcrypt_compare s' (superAdmins.motDePasse admin)));
      [auto|].
    cbn. intros H. now contradiction H.
  - intros He Hne Hp Hnp Hcase. unfold admin_connexion. cbv zeta.
    rewrite He, Hp. cbn [json_truthy].
    apply String.eqb_neq in Hne, Hnp. rewrite Hne, Hnp. cbn [negb orb].
    destruct Hcase as [-> | (admin & -> & -> & ->)]; reflexivity.
Qed.

(** X30. A deactivated operator is told so before any password check:
    whatever truthy [motDePasse] comes with the email of a deactivated
    account, right, wrong or not even a string, the answer is the 401
    [Ce compte a été désactivé] and nothing is written. *)
Theorem admin_connexion_deactivated (db : Db.t) (now : Z) (req : Req.t)
    (e : string) (admin : superAdmins.row) :
  json_get "email" (Req.body req) = Some (JStr e) ->
  e <> "" ->
  json_truthy (json_get "motDePasse" (Req.body req)) = true ->
  List.find (fun a => String.eqb (superAdmins.email a) (toLowerCase e))
    (Db.superAdmins db) = Some admin ->
  superAdmins.actif admin = false ->
  admin_connexion toLowerCase db now req
  = (Res.err 401 "Ce compte a été désactivé", db).
Proof.
  intros He Hne Hp Hrow Hact. unfold admin_connexion. cbv zeta.
  rewrite He, Hp. cbn [json_truthy].
  apply String.eqb_neq in Hne. rewrite Hne. cbn [negb orb].
  now rewrite Hrow, Hact.
Qed.

Lemma admin_connecte_stable_id (id id' : string) (d : Z)
    (a : superAdmins.row) :
  String.eqb
    (superAdmins.id
       (if String.eqb (superAdmins.id a) id then admin_connecte d a else a))
    id'
  = String.eqb (superAdmins.id a) id'.
Proof. destruct (String.eqb (superAdmins.id a) id); reflexivity. Qed.

(** X25. Operator login and [requireAdmin] fit together: a login with
    the right password of an active operator is answered 200, sets the
    [admin_token] cookie to the token signed for that operator and
    creates no session; and when the JWT library gives back the signed
    [type] and [id], [requireAdmin] hands requests carrying the cookie
    on, with that operator attached. *)
Theorem admin_login_then_requireAdmin (db : Db.t) (now now' : Z)
    (req req2 : Req.t) (e p : string) (admin : superAdmins.row)
    (decoded : json) :
  json_get "email" (Req.body req) = Some (JStr e) -> e <> "" ->
  json_get "motDePasse" (Req.body req) = Some (JStr p) -> p <> "" ->
  List.find (fun a => String.eqb (superAdmins.email a) (toLowerCase e))
    (Db.superAdmins db) = Some admin ->
  admin_by_id db (superAdmins.id admin) = Some admin ->
  superAdmins.actif admin = true ->
  bcrypt_compare p (superAdmins.motDePasse admin) = true ->
  let token :=
    jwt_sign (admin_payload (superAdmins.id admin) (superAdmins.email admin))
      JWT_SECRET "7d" now in
  let (res, db') := admin_connexion toLowerCase db now req in
  Res.status res = 200
  /\ Res.cookieOps res = [SetCookie "admin_token" token admin_cookie_options]
  /\ Db.sessions db' = Db.sessions db
  /\ (Req.cookies req2 !! "admin_token" = Some token ->
      token <> "" ->
      jwt_verify token JWT_SECRET now' = Some decoded ->
      json_get "type" decoded = Some (JStr "admin") ->
      json_get "id" decoded = Some (JStr (superAdmins.id admin)) ->
      requireAdmin db' now' req2
      = Next (Req.attach_admin (admin_connecte now admin) req2)).
Proof.
  intros He Hne Hp Hnp Hrow Hid Hact Hpw. cbv zeta.
  unfold admin_connexion. cbv zeta. rewrite He, Hp. cbn [json_truthy].
  apply String.eqb_neq in Hne, Hnp. rewrite Hne, Hnp. cbn [negb orb].
  rewrite Hrow, Hact, Hpw. cbn [negb].
  do 3 (split; [reflexivity|]).
  intros Hc Hnt Hv Ht Hi.
  eapply (requireAdmin_accepts _ now' req2 _ (superAdmins.id admin)
            decoded); try eassumption; try exact Hact.
  unfold admin_by_id in *. cbn. unfold update_where.
  rewrite find_map_stable by (intros a; apply admin_connecte_stable_id).
  rewrite Hid. cbn. now rewrite String.eqb_refl.
Qed.

End AdminFacts.

(** ** What the answers never hold *)

Section Disclosure.

Context `{RT : Runtime}.

(** The answers of [authenticate] are bare error bodies. *)
Lemma authenticate_Respond (db : Db.t) (now : Z) (req : Req.t)
    (res : Res.t) :
  authenticate db now req = Respond res ->
  exists code msg, res = Res.err code msg.
Proof.
  unfold authenticate, authenticate_token.
  destruct (authenticate_demo db now req); [discriminate|].
  destruct (truthy (Req.cookies req !! "auth_token"));
    [|intros [= <-]; eauto].
  destruct (verifyJWT s now) as [payload|]; [|intros [= <-]; eauto].
  destruct (json_str "userId" payload) as [userId|];
    [|intros [= <-]; eauto].
  destruct (List.find _ (Db.sessions db)); [|intros [= <-]; eauto].
  destruct (user_by_id db userId) as [user|]; [|intros [= <-]; eauto].
  destruct (utilisateurs.actif user); [discriminate|intros [= <-]; eauto].
Qed.

(** X29. Neither the login answer nor the who-am-I answer carries a
    password hash or a verification or reset token of an account,
    whatever the request and the store. *)
Theorem answers_disclose_no_secret (db : Db.t) (now : Z)
    (sessionId : string) (req : Req.t) (k : string) :
  In k ["motDePasseHash"; "tokenVerification"; "tokenResetPassword"] ->
  json_get k (Res.body (moi db now req)) = None
  /\ json_get k (Res.body (fst (connexion db now sessionId req))) = None
  /\ (forall user,
        json_get "user" (Res.body (fst (connexion db now sessionId req)))
        = Some user ->
        json_get k user = None).
Proof.
  intros Hk.
  assert (Hkeys : k = "motDePasseHash" \/ k = "tokenVerification"
                  \/ k = "tokenResetPassword").
  { destruct Hk as [<- | [<- | [<- | []]]]; auto. }
  split; [|split].
  - unfold moi.
    destruct (authenticate db now req) as [r|res] eqn:E.
    + unfold moi_handler. destruct (Req.user r) as [u|].
      * destruct (User.isDemo u).
        { destruct Hkeys as [-> | [-> | ->]]; reflexivity. }
        destruct (user_by_id db (User.id u));
          destruct Hkeys as [-> | [-> | ->]]; reflexivity.
      * destruct Hkeys as [-> | [-> | ->]]; reflexivity.
    + apply authenticate_Respond in E as (code & msg & ->).
      destruct Hkeys as [-> | [-> | ->]]; reflexivity.
  - unfold connexion.
    destruct (connexionSchema_parse (Req.body req)) as [[email password]|].
    2:{ destruct Hkeys as [-> | [-> | ->]]; reflexivity. }
    destruct (user_by_email db email) as [user|].
    2:{ destruct Hkeys as [-> | [-> | ->]]; reflexivity. }
    destruct (negb (verifyPassword password
                      (utilisateurs.motDePasseHash user))).
    { destruct Hkeys as [-> | [-> | ->]]; reflexivity. }
    destruct (negb (utilisateurs.emailVerifie user)).
    { destruct Hkeys as [-> | [-> | ->]]; reflexivity. }
    destruct (negb (utilisateurs.actif user));
      destruct Hkeys as [-> | [-> | ->]]; reflexivity.
  - intros body. unfold connexion.
    destruct (connexionSchema_parse (Req.body req)) as [[email password]|];
      [|discriminate].
    destruct (user_by_email db email) as [user|]; [|discriminate].
    destruct (negb (verifyPassword password
                      (utilisateurs.motDePasseHash user))); [discriminate|].
    destruct (negb (utilisateurs.emailVerifie user)); [discriminate|].
    destruct (negb (utilisateurs.actif user)); [discriminate|].
    cbn. intros [= <-].
    destruct Hkeys as [-> | [-> | ->]]; reflexivity.
Qed.

End Disclosure.

(** *** The further statements on the sample deployment *)

Lemma sample_demo_grant_valid :
  demo_grant_valid (RT := Sample.runtime) Sample2.db 100 Sample2.req_demo
    (Sample.acces true None).
Proof.
  exists "jwt-demo", Sample.demo_payload.
  split; [vm_compute; reflexivity|].
  split; [discriminate|].
  repeat split; try reflexivity. left. reflexivity.
Defined.

Lemma authenticate_attaches_consistent_identity_witness :
  exists u,
    Req.attach (real_user Sample.ana) "ag-1" Sample2.req_ana
    = Req.attach u (User.agenceId u) Sample2.req_ana
    /\ ((User.isDemo u = true /\ User.role u = "member"
         /\ exists acces,
              demo_grant_valid (RT := Sample.runtime) Sample2.db 100
                Sample2.req_ana acces
              /\ User.agenceId u = accesTemporaires.agenceId acces)
        \/ (User.isDemo u = false
            /\ exists user,
                 user_by_id Sample2.db (User.id u) = Some user
                 /\ utilisateurs.actif user = true
                 /\ u = real_user user)).
Proof.
  apply (authenticate_attaches_consistent_identity (RT := Sample.runtime)
           Sample2.db 100 Sample2.req_ana).
  vm_compute. reflexivity.
Defined.

(** Ana's account is deactivated while her session is live: the session
    check passes, the user check answers 401. *)
Lemma authenticate_rejects_inactive_user_witness :
  List.find (session_of "u-ana" 100) (Db.sessions Sample2.suspended)
  = Some (Sample.session "s1" "jwt-ana-1" 9000)
  /\ user_by_id Sample2.suspended "u-ana" = Some Sample2.ana_suspended
  /\ utilisateurs.actif Sample2.ana_suspended = false
  /\ authenticate (RT := Sample.runtime) Sample2.suspended 100
       Sample2.req_ana
     = Respond (Res.err 401 "Utilisateur inactif ou inexistant")
  /\ exists res,
       authenticate (RT := Sample.runtime) Sample2.suspended 100
         Sample2.req_ana
       = Respond res
       /\ Res.status res = 401.
Proof.
  do 3 (split; [reflexivity|]).
  split; [vm_compute; reflexivity|].
  apply (authenticate_rejects_inactive_user (RT := Sample.runtime)
           Sample2.suspended 100 Sample2.req_ana "jwt-ana-1" "u-ana"
           Sample.ana_payload).
  - vm_compute. reflexivity.
  - vm_compute. reflexivity.
  - reflexivity.
  - reflexivity.
  - right. exists Sample2.ana_suspended. split; reflexivity.
Defined.

Lemma authenticate_implies_optional_witness :
  authenticateOptional (RT := Sample.runtime) Sample2.db 100 Sample2.req_ana
  = Next (Req.attach (real_user Sample.ana) "ag-1" Sample2.req_ana).
Proof.
  apply (authenticate_implies_optional (RT := Sample.runtime)
           Sample2.db 100 Sample2.req_ana).
  - vm_compute. reflexivity.
  - vm_compute. reflexivity.
Defined.

Lemma demo_principal_role_guard_witness :
  exists r,
    authenticate (RT := Sample.runtime) Sample2.db 100 Sample2.req_demo
    = Next r
    /\ (requireRole [owner; member] r = Next r <-> In member [owner; member])
    /\ (exists res, requireRole [owner] r = Respond res
                    /\ Res.status res = 403).
Proof.
  exact (demo_principal_role_guard (RT := Sample.runtime) Sample2.db 100
           Sample2.req_demo (Sample.acces true None) [owner; member]
           sample_demo_grant_valid).
Defined.

Lemma acces_liste_tenant_isolation_witness :
  exists u rows,
    Req.user (Req.attach (real_user Sample.ana) "ag-1" Sample2.req_ana)
    = Some u
    /\ acces_liste (RT := Sample.runtime) Sample2.db 100 Sample2.req_ana
       = Res.json 200 (JArr (List.map acces_json rows))
    /\ forall a,
         In a rows
         <-> In a (Db.accesTemporaires Sample2.db)
             /\ accesTemporaires.agenceId a = User.agenceId u.
Proof.
  apply (acces_liste_tenant_isolation (RT := Sample.runtime)
           Sample2.db 100 Sample2.req_ana).
  vm_compute. reflexivity.
Defined.

(** Ana cannot revoke the grant of the other agency. *)
Lemma acces_revoquer_other_tenant_witness :
  acces_revoquer (RT := Sample.runtime) Sample2.db 100 "acc-9"
    Sample2.req_ana
  = (Res.err 404 "Accès non trouvé", Sample2.db).
Proof.
  apply (acces_revoquer_other_tenant (RT := Sample.runtime) Sample2.db 100
           "acc-9" Sample2.req_ana
           (Req.attach (real_user Sample.ana) "ag-1" Sample2.req_ana)
           "ag-1").
  - vm_compute. reflexivity.
  - reflexivity.
  - intros a [<- | [<- | []]]; [discriminate|]. intros _. discriminate.
Defined.

(** Ana revokes the grant of her agency. *)
Lemma acces_revoquer_then_rejected_witness :
  let (res, db') :=
    acces_revoquer (RT := Sample.runtime) Sample2.db 100 "acc-1"
      Sample2.req_ana in
  Res.status res = 200
  /\ acces_by_token db' "lien-1" = Some (revoque (Sample.acces true None))
  /\ (forall now',
        Res.status (demo_validate db' now' "lien-1") = 403
        /\ Res.status (demo_access (RT := Sample.runtime) db' now' "lien-1")
           = 403
        /\ Res.status (valider db' now' "lien-1") = 403)
  /\ (forall now' req2 acces',
        demo_grant_valid (RT := Sample.runtime) db' now' req2 acces' ->
        accesTemporaires.id acces' <> "acc-1").
Proof.
  apply (acces_revoquer_then_rejected (RT := Sample.runtime) Sample2.db 100
           "acc-1" Sample2.req_ana
           (Req.attach (real_user Sample.ana) "ag-1" Sample2.req_ana)
           (Sample.acces true None)).
  - vm_compute. reflexivity.
  - reflexivity.
  - reflexivity.
  - reflexivity.
Defined.

Lemma exchange_then_authenticate_witness :
  Res.cookieOps (demo_access (RT := Sample.runtime) Sample2.db 100 "lien-1")
  = [SetCookie "demo_token" "jwt-demo"
       (demo_cookie_options (RT := Sample.runtime))]
  /\ authenticate (RT := Sample.runtime) Sample2.db 200 Sample2.req_demo
     = Next (Req.attach (demo_user (Sample.acces true None)) "ag-1"
               Sample2.req_demo).
Proof.
  destruct (exchange_then_authenticate (RT := Sample.runtime)
              Sample2.db Sample2.db 100 200 "lien-1"
              (Sample.acces true None) Sample2.req_demo Sample.demo_payload
              eq_refl eq_refl) as [H1 H2].
  split; [exact H1|].
  apply H2.
  - vm_compute. reflexivity.
  - discriminate.
  - reflexivity.
  - reflexivity.
  - reflexivity.
  - reflexivity.
  - reflexivity.
Defined.

(** The operator logs in with a capitalised address. *)
Lemma admin_login_then_requireAdmin_witness :
  let login :=
    admin_connexion (RT := Sample.runtime) Sample2.lower Sample2.db 100
      (Sample.request ∅
         (Sample2.admin_credentials "Root@OnlyTrack.io" "Root1234!")) in
  let req2 := Sample.request {[ "admin_token" := "jwt-admin" ]} JNull in
  Res.status (fst login) = 200
  /\ Res.cookieOps (fst login)
     = [SetCookie "admin_token" "jwt-admin"
          (admin_cookie_options (RT := Sample.runtime))]
  /\ Db.sessions (snd login) = Db.sessions Sample2.db
  /\ requireAdmin (RT := Sample.runtime) (snd login) 200 req2
     = Next (Req.attach_admin (admin_connecte 100 Sample.root) req2).
Proof.
  cbv zeta.
  pose proof (admin_login_then_requireAdmin (RT := Sample.runtime)
                Sample2.lower Sample2.db 100 200
                (Sample.request ∅
                   (Sample2.admin_credentials "Root@OnlyTrack.io"
                      "Root1234!"))
                (Sample.request {[ "admin_token" := "jwt-admin" ]} JNull)
                "Root@OnlyTrack.io" "Root1234!" Sample.root
                Sample.root_payload) as H.
  cbv zeta in H.
  destruct (admin_connexion (RT := Sample.runtime) Sample2.lower Sample2.db
              100
              (Sample.request ∅
                 (Sample2.admin_credentials "Root@OnlyTrack.io"
                    "Root1234!"))) as [res db'] eqn:E.
  destruct H as (H1 & H2 & H3 & H4).
  - reflexivity.
  - discriminate.
  - reflexivity.
  - discriminate.
  - reflexivity.
  - reflexivity.
  - reflexivity.
  - reflexivity.
  - cbn [fst snd]. repeat split; try assumption.
    apply H4.
    + vm_compute. reflexivity.
    + discriminate.
    + reflexivity.
    + reflexivity.
    + reflexivity.
Defined.

Lemma admin_connexion_deactivated_witness :
  admin_connexion (RT := Sample.runtime) Sample2.lower Sample2.db 100
    (Sample.request ∅
       (Sample2.admin_credentials "old@onlytrack.io" "whatever"))
  = (Res.err 401 "Ce compte a été désactivé", Sample2.db).
Proof.
  apply (admin_connexion_deactivated (RT := Sample.runtime) Sample2.lower
           Sample2.db 100 _ "old@onlytrack.io" Sample2.retired).
  - reflexivity.
  - discriminate.
  - reflexivity.
  - reflexivity.
  - reflexivity.
Defined.

(** A logout, whatever it deletes, leaves the operator guard as it was. *)
Lemma requireAdmin_frame_witness :
  let req := Sample.request {[ "admin_token" := "jwt-admin" ]} JNull in
  match requireAdmin (RT := Sample.runtime) Sample2.db 100 req,
        requireAdmin (RT := Sample.runtime)
          (Db.with_sessions [] Sample2.db) 100 req with
  | Next r, Next r' => Req.admin r = Req.admin r'
  | Respond res, Respond res' => res = res'
  | _, _ => False
  end.
Proof.
  cbv zeta.
  apply (requireAdmin_frame (RT := Sample.runtime) Sample2.db
           (Db.with_sessions [] Sample2.db) 100); reflexivity.
Defined.

Lemma answers_disclose_no_secret_witness :
  json_get "motDePasseHash"
    (Res.body (moi (RT := Sample.runtime) Sample2.db 100 Sample2.req_ana))
  = None.
Proof.
  refine (proj1 (answers_disclose_no_secret (RT := Sample.runtime)
                   Sample2.db 100 "s9" Sample2.req_ana "motDePasseHash" _)).
  left. reflexivity.
Defined.
